(** * AIE graph and profiling API shim (xrt_graph.cpp)

    A shallow embedding of [core/common/api/aie/xrt_graph.cpp]: the
    [graph_impl] and [profiling_impl] objects, the two process-wide handle
    registries, the object-oriented wrappers and the C entry points with
    their [try]/[catch] boundary.

    The device ([xrt_core::device]) and the other functions the file calls
    but does not define are an environment: every call to it is answered by
    an oracle and recorded, with its answer, in a trace. *)

From stdpp Require Import gmap strings list fin_maps infinite.

Local Open Scope Z_scope.

(** ** Exceptions and outcomes *)

(** The two exception classes the C entry points distinguish:
    [xrt_core::error], observed through [get_code()] and [what()], and any
    other [std::exception], observed through [what()]. *)
Inductive exn : Type :=
| XrtCoreError (code : Z) (what : string)
| StdException (what : string).

Definition exn_what (e : exn) : string :=
  match e with
  | XrtCoreError _ m => m
  | StdException m => m
  end.

(** How a piece of code ends: it returns, it leaves by an exception, or the
    process ends ([std::terminate], reached when an exception leaves a
    [noexcept] destructor). [Abort] also stands for the use of a shared
    pointer that owns no live object, which the entry points never do on a
    state they produced themselves. *)
Inductive outcome (A : Type) : Type :=
| Ok (a : A)
| Throw (e : exn)
| Abort.
Arguments Ok {A} a.
Arguments Throw {A} e.
Arguments Abort {A}.

(** ** The environment interface *)

(** [xrt::graph::access_mode] and [xrt::aie::access_mode]. *)
Inductive access_mode : Type := exclusive | primary | shared.

(** Member functions of [xrt_core::device] called by this file. Handles,
    sizes and counters are integers; names and buffers are strings. *)
Inductive device_op : Type :=
| op_open_graph (xclbin_uuid : Z) (graph_name : string) (am : access_mode)
| op_close_graph (handle : Z)
| op_reset_graph (handle : Z)
| op_get_timestamp (handle : Z)
| op_run_graph (handle : Z) (iterations : Z)
| op_wait_graph_done (handle : Z) (timeout : Z)
| op_wait_graph (handle : Z) (cycle : Z)
| op_suspend_graph (handle : Z)
| op_resume_graph (handle : Z)
| op_end_graph (handle : Z) (cycle : Z)
| op_update_graph_rtp (handle : Z) (port : string) (buffer : string) (size : Z)
| op_read_graph_rtp (handle : Z) (port : string) (size : Z)
| op_open_aie_context (am : access_mode)
| op_sync_aie_bo (bo : Z) (gmio_name : string) (dir : Z) (size : Z) (offset : Z)
| op_reset_aie
| op_sync_aie_bo_nb (bo : Z) (gmio_name : string) (dir : Z) (size : Z) (offset : Z)
| op_wait_gmio (gmio_name : string)
| op_start_profiling (option : Z) (port1_name port2_name : string) (value : Z)
| op_read_profiling (handle : Z)
| op_stop_profiling (handle : Z).

(** Every call that leaves this file. [ext_xrtDeviceClose] belongs to the
    same device API as [ext_xrtDeviceOpen]; no function below issues it. *)
Inductive ext_call : Type :=
| ext_get_core_device (dhdl : Z)
| ext_xrtDeviceOpen (index : Z)
| ext_xrtDeviceClose (dhdl : Z)
| ext_bo (bohdl : Z)
| ext_device (device : Z) (op : device_op).

Inductive reply : Type :=
| Normal (v : Z)
| Raise (e : exn).

(** ** Objects and the process state *)

(** [class graph_impl]: a device reference and the driver's graph handle. *)
Record graph_impl : Type := Build_graph_impl {
  g_device : Z;
  g_handle : Z
}.

(** [class profiling_impl]: a device reference and the profiling handle. *)
Record profiling_impl : Type := Build_profiling_impl {
  p_device : Z;
  profiling_hdl : Z
}.

(** [profiling_impl::invalid_handle]. *)
Definition invalid_handle : Z := -1.

(** An object owned by [std::shared_ptr]s, with the number of owners. *)
Record shared_obj (A : Type) : Type := Shared {
  pointee : A;
  use_count : nat
}.
Arguments Shared {A} pointee use_count.
Arguments pointee {A} s.
Arguments use_count {A} s.

(** A line sent to [xrt_core::message::send]. *)
Inductive severity_level : Type := severity_error.

Record message : Type := Message {
  msg_severity : severity_level;
  msg_tag : string;
  msg_text : string
}.

(** [XRT_NULL_HANDLE] and [nullptr]. *)
Definition XRT_NULL_HANDLE : Z := 0.

(** [EINVAL] of [<cerrno>]. *)
Definition EINVAL : Z := 22.

(** [std::numeric_limits<uint64_t>::max()]. *)
Definition UINT64_MAX : Z := 2 ^ 64 - 1.

(** [static_cast<int>] of a 64-bit count: reduction to 32 bits, signed. *)
Definition static_cast_int (z : Z) : Z := (z + 2 ^ 31) mod 2 ^ 32 - 2 ^ 31.

(** The state of the process as far as this file sees it: the environment,
    the calls made to it so far, the objects made by [std::make_shared], the
    two registries, [errno] and the message sink. *)
Record world (Env : Type) : Type := World {
  env : Env;
  trace : list (ext_call * reply);
  graph_heap : gmap Z (shared_obj graph_impl);
  profiling_heap : gmap Z (shared_obj profiling_impl);
  graph_cache : gmap Z Z;
  profiling_cache : gmap Z Z;
  errno : Z;
  message_log : list message
}.
Arguments World {Env}.
Arguments env {Env} w.
Arguments trace {Env} w.
Arguments graph_heap {Env} w.
Arguments profiling_heap {Env} w.
Arguments graph_cache {Env} w.
Arguments profiling_cache {Env} w.
Arguments errno {Env} w.
Arguments message_log {Env} w.

(** The process before any call: nothing allocated, nothing registered. *)
Definition initial_world {Env : Type} (e : Env) : world Env :=
  World e [] ∅ ∅ ∅ ∅ 0 [].

(** Field updates. *)
Definition set_env {Env} (e : Env) (w : world Env) : world Env :=
  World e (trace w) (graph_heap w) (profiling_heap w) (graph_cache w)
        (profiling_cache w) (errno w) (message_log w).
Definition set_trace {Env} (t : list (ext_call * reply)) (w : world Env) : world Env :=
  World (env w) t (graph_heap w) (profiling_heap w) (graph_cache w)
        (profiling_cache w) (errno w) (message_log w).
Definition set_graph_heap {Env} (h : gmap Z (shared_obj graph_impl)) (w : world Env) : world Env :=
  World (env w) (trace w) h (profiling_heap w) (graph_cache w)
        (profiling_cache w) (errno w) (message_log w).
Definition set_profiling_heap {Env} (h : gmap Z (shared_obj profiling_impl)) (w : world Env) : world Env :=
  World (env w) (trace w) (graph_heap w) h (graph_cache w)
        (profiling_cache w) (errno w) (message_log w).
Definition set_graph_cache {Env} (c : gmap Z Z) (w : world Env) : world Env :=
  World (env w) (trace w) (graph_heap w) (profiling_heap w) c
        (profiling_cache w) (errno w) (message_log w).
Definition set_profiling_cache {Env} (c : gmap Z Z) (w : world Env) : world Env :=
  World (env w) (trace w) (graph_heap w) (profiling_heap w) (graph_cache w)
        c (errno w) (message_log w).
Definition set_errno {Env} (z : Z) (w : world Env) : world Env :=
  World (env w) (trace w) (graph_heap w) (profiling_heap w) (graph_cache w)
        (profiling_cache w) z (message_log w).
Definition set_message_log {Env} (l : list message) (w : world Env) : world Env :=
  World (env w) (trace w) (graph_heap w) (profiling_heap w) (graph_cache w)
        (profiling_cache w) (errno w) l.

(** Addresses of the objects alive in the two heaps. *)
Definition live {Env} (w : world Env) : gset Z :=
  dom (graph_heap w) ∪ dom (profiling_heap w).

(** Values returned by the C entry points, by return type. *)
Inductive retval : Type :=
| RVoid
| RInt (z : Z)
| RUInt64 (z : Z)
| RHandle (h : Z).

(** The failures the environment reported in a stretch of trace. *)
Definition failures (t : list (ext_call * reply)) : list exn :=
  omap (fun cr => match snd cr with Raise e => Some e | Normal _ => None end) t.

(** Graph handles the devices handed out, and graph handles given back to
    them, in a stretch of trace. *)
Definition opened_handles (t : list (ext_call * reply)) : list (Z * Z) :=
  omap (fun cr => match cr with
                  | (ext_device d (op_open_graph _ _ _), Normal h) => Some (d, h)
                  | _ => None
                  end) t.

Definition closed_handles (t : list (ext_call * reply)) : list (Z * Z) :=
  omap (fun cr => match cr with
                  | (ext_device d (op_close_graph h), _) => Some (d, h)
                  | _ => None
                  end) t.

(** Whether a call is the device's [start_profiling]. *)
Definition is_start_profiling (c : ext_call) : bool :=
  match c with
  | ext_device _ (op_start_profiling _ _ _ _) => true
  | _ => false
  end.

(** Whether a call is the device's [open_graph] or [close_graph]. *)
Definition is_graph_lifecycle (c : ext_call) : bool :=
  match c with
  | ext_device _ (op_open_graph _ _ _) => true
  | ext_device _ (op_close_graph _) => true
  | _ => false
  end.

(** Whether a call closes a device. *)
Definition is_device_close (c : ext_call) : bool :=
  match c with
  | ext_xrtDeviceClose _ => true
  | _ => false
  end.

(** Whether a call is the device's [wait_graph_done]. *)
Definition is_wait_graph_done (c : ext_call) : bool :=
  match c with
  | ext_device _ (op_wait_graph_done _ _) => true
  | _ => false
  end.

(** ** A fake device for the scenarios

    Its state is the next handle it hands out. Device handle 0 is unknown;
    stopping a negative profiling handle is an error; asked for a graph
    named ["bad"] it throws a generic exception; option 9 yields no
    profiling handle. *)
Definition fake_device (c : ext_call) (next : Z) : reply * Z :=
  match c with
  | ext_get_core_device dhdl =>
      if decide (dhdl = 0)
      then (Raise (XrtCoreError 22 "No such device handle"), next)
      else (Normal (dhdl + 100), next)
  | ext_xrtDeviceOpen index => (Normal (index + 1), next)
  | ext_xrtDeviceClose _ => (Normal 0, next)
  | ext_bo bohdl => (Normal bohdl, next)
  | ext_device _ (op_open_graph _ name _) =>
      if decide (name = "bad")
      then (Raise (StdException "bad graph"), next)
      else (Normal next, next + 1)
  | ext_device _ (op_open_aie_context am) =>
      match am with
      | exclusive => (Raise (XrtCoreError 16 "context busy"), next)
      | _ => (Normal 0, next)
      end
  | ext_device _ (op_start_profiling option _ _ _) =>
      if decide (option = 9) then (Normal (-1), next) else (Normal next, next + 1)
  | ext_device _ (op_stop_profiling h) =>
      if decide (h < 0)
      then (Raise (XrtCoreError 22 "Stop profiling: invalid handle"), next)
      else (Normal 0, next)
  | ext_device _ (op_get_timestamp _) => (Normal 4242, next)
  | ext_device _ (op_read_profiling _) => (Normal 77, next)
  | ext_device _ _ => (Normal 0, next)
  end.

(** The process after [xrtGraphOpen(1, 5, "g1")] on the fake device in its
    state 10. *)
Definition world_graph_open : world Z :=
  World 11
        [(ext_get_core_device 1, Normal 101);
         (ext_device 101 (op_open_graph 5 "g1" primary), Normal 10)]
        {[1 := Shared (Build_graph_impl 101 10) 1%nat]} ∅
        {[1 := 1]} ∅ 0 [].

(** The process after [xrtAIEStartProfiling(1, 1, "a", "b", 1024)]. *)
Definition world_profiling_started : world Z :=
  World 11
        [(ext_get_core_device 1, Normal 101);
         (ext_device 101 (op_start_profiling 1 "a" "b" 1024), Normal 10)]
        ∅ {[1 := Shared (Build_profiling_impl 101 10) 1%nat]}
        ∅ {[10 := 1]} 0 [].

(** The process after [xrt::aie::profiling(device)] for the core device
    101, the object not started. *)
Definition world_profiling_idle : world Z :=
  World 10 [] ∅ {[1 := Shared (Build_profiling_impl 101 invalid_handle) 1%nat]} ∅ ∅ 0 [].

(** An allocator for the scenarios: a fresh, non-null address. *)
Definition fake_alloc (live : gset Z) : Z := fresh ({[0]} ∪ live).

(** [get_code()] and [what()] for the scenarios. *)
Definition fake_error_code (ec : Z) : Z := Z.abs ec.
Definition fake_error_what (ec : Z) (what : string) : string := what.


(** A device whose [close_graph] throws; otherwise the fake device. *)
Definition faulty_device (c : ext_call) (next : Z) : reply * Z :=
  match c with
  | ext_device _ (op_close_graph _) => (Raise (StdException "close failed"), next)
  | _ => fake_device c next
  end.

(** A process in which profiling handle 10 is registered while the fake
    device is about to hand out 10 again. *)
Definition world_profiling_reissued : world Z :=
  World 10 [] ∅ {[1 := Shared (Build_profiling_impl 101 10) 1%nat]} ∅ {[10 := 1]} 0 [].

(** A device that hands out the same profiling handle at every start;
    otherwise the fake device. *)
Definition reissuing_device (c : ext_call) (next : Z) : reply * Z :=
  match c with
  | ext_device _ (op_start_profiling _ _ _ _) => (Normal 7, next)
  | _ => fake_device c next
  end.

Section Shim.

Context {Env : Type}.

(** The environment's answer to a call, and its next state. *)
Variable respond : ext_call -> Env -> reply * Env.

(** The address [std::make_shared] returns, given the live addresses. *)
Variable alloc : gset Z -> Z.

(** [xrt_core::error(ec, what)] as seen through [get_code()] and [what()];
    the class is declared in [core/common/error.h]. *)
Variable error_code : Z -> Z.
Variable error_what : Z -> string -> string.

Definition xrt_core_error (ec : Z) (what : string) : exn :=
  XrtCoreError (error_code ec) (error_what ec what).

(** ** Computations: state passing with exceptions *)

Definition M (A : Type) : Type := world Env -> outcome A * world Env.

#[local] Instance M_ret : MRet M := fun A a w => (Ok a, w).

#[local] Instance M_bind : MBind M := fun A B k m w =>
  match m w with
  | (Ok a, w1) => k a w1
  | (Throw e, w1) => (Throw e, w1)
  | (Abort, w1) => (Abort, w1)
  end.

Definition throw {A : Type} (e : exn) : M A := fun w => (Throw e, w).

(** Leaving a scope: [cleanup] (the destructors of the locals) runs whether
    [body] returned or threw, and the outcome of [body] stands. Destructors
    are [noexcept]. *)
Definition scope_exit {A : Type} (body : M A) (cleanup : M unit) : M A := fun w =>
  match body w with
  | (Abort, w1) => (Abort, w1)
  | (r, w1) =>
      match cleanup w1 with
      | (Ok _, w2) => (r, w2)
      | (_, w2) => (Abort, w2)
      end
  end.

(** A function declared [noexcept]: an exception leaving it ends the
    process. *)
Definition noexcept {A : Type} (body : M A) : M A := fun w =>
  match body w with
  | (Throw _, w1) => (Abort, w1)
  | r => r
  end.

(** [try { body } catch (...) { }]. *)
Definition try_catch_all (body : M unit) : M unit := fun w =>
  match body w with
  | (Throw _, w1) => (Ok tt, w1)
  | r => r
  end.

(** A call to the environment: it is answered and recorded. *)
Definition ext (c : ext_call) : M Z := fun w =>
  let '(r, e) := respond c (env w) in
  let w1 := set_trace (trace w ++ [(c, r)]) (set_env e w) in
  match r with
  | Normal v => (Ok v, w1)
  | Raise ex => (Throw ex, w1)
  end.

(** The environment's answer to [c] in the state [w], and the state after
    it: what [ext c] does, apart from the outcome. *)
Definition answer (c : ext_call) (w : world Env) : reply := (respond c (env w)).1.

Definition answered (c : ext_call) (w : world Env) : world Env :=
  set_trace (trace w ++ [(c, answer c w)]) (set_env (respond c (env w)).2 w).

(** The calls a computation made to the environment, and the lines it
    logged, when run from [w]. *)
Definition issued {A : Type} (m : M A) (w : world Env) : list (ext_call * reply) :=
  drop (length (trace w)) (trace (m w).2).

Definition logged {A : Type} (m : M A) (w : world Env) : list message :=
  drop (length (message_log w)) (message_log (m w).2).

Definition get_core_device (dhdl : Z) : M Z := ext (ext_get_core_device dhdl).

Definition device_call (device : Z) (op : device_op) : M Z :=
  ext (ext_device device op).

(** [send_exception_message] of the anonymous namespace:
    [xrt_core::message::send(severity_level::error, "XRT", msg)]. *)
Definition send_exception_message (msg : string) : M unit := fun w =>
  (Ok tt, set_message_log (message_log w ++ [Message severity_error "XRT" msg]) w).

(** Modelled from the spec: [xrt_core::send_exception_message] is declared
    in [core/common/error.h]; a caught failure "emits a diagnostic line
    through a process-wide message sink tagged with a fixed source label",
    so it is taken to send the same line as the function above. *)
Definition xrt_core_send_exception_message (msg : string) : M unit :=
  send_exception_message msg.

(** [errno = code]. *)
Definition assign_errno (code : Z) : M unit := fun w => (Ok tt, set_errno code w).

(** The two handlers every C entry point ends with, and the value
    returned after them:
<<
      catch (const xrt_core::error& ex) {
        xrt_core::send_exception_message(ex.what());
        errno = ex.get_code();
      }
      catch (const std::exception& ex) {
        send_exception_message(ex.what());
      }
      return fallback;
>>
    The three graph-open entry points call
    [xrt_core::send_exception_message] in the second handler too. *)
Definition report (e : exn) : M unit :=
  match e with
  | XrtCoreError code what =>
      xrt_core_send_exception_message what;;
      assign_errno code
  | StdException what =>
      send_exception_message what
  end.

Definition catch_and_report {A : Type} (body : M A) (fallback : A) : M A := fun w =>
  match body w with
  | (Throw e, w1) => (report e;; mret fallback) w1
  | r => r
  end.

(** ** [class graph_impl] *)

Definition graph_deref (p : Z) : M graph_impl := fun w =>
  match graph_heap w !! p with
  | Some s => (Ok (pointee s), w)
  | None => (Abort, w)
  end.

(** [~graph_impl()]: [device->close_graph(handle)], in a destructor. *)
Definition graph_impl_dtor (this : graph_impl) : M unit :=
  noexcept (device_call (g_device this) (op_close_graph (g_handle this));; mret tt).

Definition graph_impl_reset (this : Z) : M unit :=
  o ← graph_deref this;
  device_call (g_device o) (op_reset_graph (g_handle o));; mret tt.

Definition graph_impl_get_timestamp (this : Z) : M Z :=
  o ← graph_deref this;
  device_call (g_device o) (op_get_timestamp (g_handle o)).

Definition graph_impl_run (this : Z) (iterations : Z) : M unit :=
  o ← graph_deref this;
  device_call (g_device o) (op_run_graph (g_handle o) iterations);; mret tt.

(** [int wait(int timeout)]. *)
Definition graph_impl_wait_int (this : Z) (timeout : Z) : M Z :=
  o ← graph_deref this;
  device_call (g_device o) (op_wait_graph_done (g_handle o) timeout).

(** [void wait(uint64_t cycle)]. *)
Definition graph_impl_wait_uint64 (this : Z) (cycle : Z) : M unit :=
  o ← graph_deref this;
  device_call (g_device o) (op_wait_graph (g_handle o) cycle);; mret tt.

Definition graph_impl_suspend (this : Z) : M unit :=
  o ← graph_deref this;
  device_call (g_device o) (op_suspend_graph (g_handle o));; mret tt.

Definition graph_impl_resume (this : Z) : M unit :=
  o ← graph_deref this;
  device_call (g_device o) (op_resume_graph (g_handle o));; mret tt.

Definition graph_impl_end (this : Z) (cycle : Z) : M unit :=
  o ← graph_deref this;
  device_call (g_device o) (op_end_graph (g_handle o) cycle);; mret tt.

Definition graph_impl_update_rtp (this : Z) (port buffer : string) (size : Z) : M unit :=
  o ← graph_deref this;
  device_call (g_device o) (op_update_graph_rtp (g_handle o) port buffer size);; mret tt.

Definition graph_impl_read_rtp (this : Z) (port : string) (size : Z) : M unit :=
  o ← graph_deref this;
  device_call (g_device o) (op_read_graph_rtp (g_handle o) port size);; mret tt.

(** [std::make_shared<xrt::graph_impl>(dev, ghdl)]: one owner. *)
Definition make_shared_graph_impl (dev ghdl : Z) : M Z := fun w =>
  let p := alloc (live w) in
  (Ok p, set_graph_heap (<[p := Shared (Build_graph_impl dev ghdl) 1]> (graph_heap w)) w).

(** Copying a [shared_ptr<graph_impl>]: one more owner. *)
Definition graph_ptr_copy (p : Z) : M unit := fun w =>
  match graph_heap w !! p with
  | Some s => (Ok tt, set_graph_heap (<[p := Shared (pointee s) (S (use_count s))]> (graph_heap w)) w)
  | None => (Abort, w)
  end.

(** Destroying a [shared_ptr<graph_impl>]: one owner less; with the last
    owner the object leaves the heap and its destructor runs. *)
Definition graph_ptr_release (p : Z) : M unit := fun w =>
  match graph_heap w !! p with
  | Some (Shared o (S (S n))) =>
      (Ok tt, set_graph_heap (<[p := Shared o (S n)]> (graph_heap w)) w)
  | Some (Shared o _) =>
      graph_impl_dtor o (set_graph_heap (delete p (graph_heap w)) w)
  | None => (Abort, w)
  end.

(** ** [class profiling_impl] *)

Definition profiling_deref (p : Z) : M profiling_impl := fun w =>
  match profiling_heap w !! p with
  | Some s => (Ok (pointee s), w)
  | None => (Abort, w)
  end.

(** Assignment to the member [profiling_hdl] of the object at [p]. *)
Definition set_profiling_hdl (p : Z) (h : Z) : M unit := fun w =>
  match profiling_heap w !! p with
  | Some s =>
      (Ok tt, set_profiling_heap
                (<[p := Shared (Build_profiling_impl (p_device (pointee s)) h) (use_count s)]>
                   (profiling_heap w)) w)
  | None => (Abort, w)
  end.

(** [~profiling_impl()]: [device->stop_profiling(profiling_hdl)] inside
    [try { } catch(...) { }]. *)
Definition profiling_impl_dtor (this : profiling_impl) : M unit :=
  noexcept (try_catch_all
              (device_call (p_device this) (op_stop_profiling (profiling_hdl this));; mret tt)).

Definition profiling_impl_start_profiling (this : Z) (option : Z)
    (port1_name port2_name : string) (value : Z) : M Z :=
  o ← profiling_deref this;
  h ← device_call (p_device o) (op_start_profiling option port1_name port2_name value);
  set_profiling_hdl this h;;
  mret h.

Definition profiling_impl_read_profiling (this : Z) : M Z :=
  o ← profiling_deref this;
  if decide (profiling_hdl o = invalid_handle)
  then throw (xrt_core_error (- EINVAL) "Not a valid profiling handle")
  else device_call (p_device o) (op_read_profiling (profiling_hdl o)).

Definition profiling_impl_stop_profiling (this : Z) : M unit :=
  o ← profiling_deref this;
  if decide (profiling_hdl o = invalid_handle)
  then throw (xrt_core_error (- EINVAL) "Not a valid profiling handle")
  else
    device_call (p_device o) (op_stop_profiling (profiling_hdl o));;
    set_profiling_hdl this invalid_handle.

(** [std::make_shared<xrt::aie::profiling_impl>(dev)]: one owner, handle
    [invalid_handle]. *)
Definition make_shared_profiling_impl (dev : Z) : M Z := fun w =>
  let p := alloc (live w) in
  (Ok p, set_profiling_heap
           (<[p := Shared (Build_profiling_impl dev invalid_handle) 1]> (profiling_heap w)) w).

Definition profiling_ptr_copy (p : Z) : M unit := fun w =>
  match profiling_heap w !! p with
  | Some s =>
      (Ok tt, set_profiling_heap
                (<[p := Shared (pointee s) (S (use_count s))]> (profiling_heap w)) w)
  | None => (Abort, w)
  end.

Definition profiling_ptr_release (p : Z) : M unit := fun w =>
  match profiling_heap w !! p with
  | Some (Shared o (S (S n))) =>
      (Ok tt, set_profiling_heap (<[p := Shared o (S n)]> (profiling_heap w)) w)
  | Some (Shared o _) =>
      profiling_impl_dtor o (set_profiling_heap (delete p (profiling_heap w)) w)
  | None => (Abort, w)
  end.

(** ** The registries and the helpers of the anonymous namespace *)

(** [open_graph(xrtDeviceHandle, ...)]. *)
Definition open_graph (dhdl xclbin_uuid : Z) (graph_name : string) (am : access_mode) : M Z :=
  core_device ← get_core_device dhdl;
  handle ← device_call core_device (op_open_graph xclbin_uuid graph_name am);
  make_shared_graph_impl core_device handle.

(** [open_graph(const xrt::device&, ...)]: [device.get_handle()] is the
    core device. *)
Definition open_graph_device (device xclbin_id : Z) (name : string) (am : access_mode) : M Z :=
  handle ← device_call device (op_open_graph xclbin_id name am);
  make_shared_graph_impl device handle.

(** [get_graph_hdl]: the pointer is returned by value, as a new owner. *)
Definition get_graph_hdl (graph_handle : Z) : M Z := fun w =>
  match graph_cache w !! graph_handle with
  | None => throw (xrt_core_error (- EINVAL) "No such graph handle") w
  | Some p => (graph_ptr_copy p;; mret p) w
  end.

(** [graph_cache.erase(hdl)]: the number of entries removed; the pointer of
    a removed entry is destroyed. *)
Definition graph_cache_erase (hdl : Z) : M nat := fun w =>
  match graph_cache w !! hdl with
  | Some p => (graph_ptr_release p;; mret 1%nat) (set_graph_cache (delete hdl (graph_cache w)) w)
  | None => (Ok 0%nat, w)
  end.

(** The slot of [key] in [graph_cache] is made to hold [p]. *)
Definition graph_cache_store (key p : Z) : M unit := fun w =>
  (Ok tt, set_graph_cache (<[key := p]> (graph_cache w)) w).

(** [graph_cache[key] = p]: the slot takes [p] as a new owner and gives up
    what it held. *)
Definition graph_cache_assign (key p : Z) : M unit := fun w =>
  let old := graph_cache w !! key in
  (graph_ptr_copy p;;
   graph_cache_store key p;;
   match old with
   | Some q => graph_ptr_release q
   | None => mret tt
   end) w.

Definition close_graph (hdl : Z) : M unit :=
  n ← graph_cache_erase hdl;
  if decide (n = 0%nat)
  then throw (StdException "Unexpected internal error")
  else mret tt.

Definition open_aie_context (dhdl : Z) (am : access_mode) : M unit :=
  device ← get_core_device dhdl;
  device_call device (op_open_aie_context am);; mret tt.

Definition sync_aie_bo (dhdl bohdl : Z) (gmio_name : string) (dir size offset : Z) : M unit :=
  device ← get_core_device dhdl;
  bo ← ext (ext_bo bohdl);
  device_call device (op_sync_aie_bo bo gmio_name dir size offset);; mret tt.

Definition reset_aie (dhdl : Z) : M unit :=
  device ← get_core_device dhdl;
  device_call device op_reset_aie;; mret tt.

Definition sync_aie_bo_nb (dhdl bohdl : Z) (gmio_name : string) (dir size offset : Z) : M unit :=
  device ← get_core_device dhdl;
  bo ← ext (ext_bo bohdl);
  device_call device (op_sync_aie_bo_nb bo gmio_name dir size offset);; mret tt.

Definition wait_gmio (dhdl : Z) (gmio_name : string) : M unit :=
  device ← get_core_device dhdl;
  device_call device (op_wait_gmio gmio_name);; mret tt.

(** [create_profiling_event(xrtDeviceHandle)]. *)
Definition create_profiling_event (dhdl : Z) : M Z :=
  core_device ← get_core_device dhdl;
  make_shared_profiling_impl core_device.

(** [create_profiling_event(const xrt::device&)]. *)
Definition create_profiling_event_device (device : Z) : M Z :=
  make_shared_profiling_impl device.

(** [profiling_cache.find(key)]; [None] is [end()]. *)
Definition profiling_cache_find (key : Z) : M (option Z) := fun w =>
  (Ok (profiling_cache w !! key), w).

(** [profiling_cache.erase(key)]. *)
Definition profiling_cache_erase (key : Z) : M nat := fun w =>
  match profiling_cache w !! key with
  | Some p =>
      (profiling_ptr_release p;; mret 1%nat)
        (set_profiling_cache (delete key (profiling_cache w)) w)
  | None => (Ok 0%nat, w)
  end.

Definition profiling_cache_store (key p : Z) : M unit := fun w =>
  (Ok tt, set_profiling_cache (<[key := p]> (profiling_cache w)) w).

(** [profiling_cache[key] = p]. *)
Definition profiling_cache_assign (key p : Z) : M unit := fun w =>
  let old := profiling_cache w !! key in
  (profiling_ptr_copy p;;
   profiling_cache_store key p;;
   match old with
   | Some q => profiling_ptr_release q
   | None => mret tt
   end) w.

(** ** The object-oriented surface *)

(** Modelled from the spec: [xdp::native::profiling_wrapper] is declared in
    [core/common/api/native_profile.h]; the methods built on it are "pure
    forwards", so the wrapper is taken to run the callable it is given. *)
Definition profiling_wrapper {A : Type} (function : string) (f : M A) : M A := f.

(** [xrt::graph::graph]: the object is its [handle]. *)
Definition graph_ctor (device xclbin_id : Z) (name : string) (am : access_mode) : M Z :=
  open_graph_device device xclbin_id name am.

(** [xrt::graph::wait(std::chrono::milliseconds)]; [timeout_ms] is
    [timeout_ms.count()]. *)
Definition graph_wait_ms (handle : Z) (timeout_ms : Z) : M unit :=
  profiling_wrapper "xrt::graph::wait"
    (if decide (timeout_ms = 0)
     then graph_impl_wait_uint64 handle 0
     else graph_impl_wait_int handle (static_cast_int timeout_ms);; mret tt).

(** [xrt::graph::wait(uint64_t)]. *)
Definition graph_wait_cycles (handle : Z) (cycles : Z) : M unit :=
  profiling_wrapper "xrt::graph::wait" (graph_impl_wait_uint64 handle cycles).

(** [xrt::aie::profiling::profiling]. *)
Definition profiling_ctor (device : Z) : M Z :=
  create_profiling_event_device device.

(** [xrt::aie::profiling::start]; [option] is the value of the enumerator,
    [static_cast<int>(option)]. *)
Definition profiling_start (handle : Z) (option : Z) (port1_name port2_name : string)
    (value : Z) : M Z :=
  let opt := option in
  profiling_wrapper "xrt::aie::profiling::start"
    (profiling_impl_start_profiling handle opt port1_name port2_name value).

Definition profiling_read (handle : Z) : M Z :=
  profiling_wrapper "xrt::aie::profiling::read" (profiling_impl_read_profiling handle).

Definition profiling_stop (handle : Z) : M unit :=
  profiling_wrapper "xrt::aie::profiling::stop" (profiling_impl_stop_profiling handle).

(** ** The C entry points

    Each entry point is [try { ... }] followed by the two handlers and the
    failure value; [f_try] is the block of [f]. A local [shared_ptr] is
    destroyed when the block is left, by [return] or by an exception. *)

Definition xrtGraphOpen_try (dev_handle xclbin_uuid : Z) (graph_name : string) : M Z :=
  hdl ← open_graph dev_handle xclbin_uuid graph_name primary;
  scope_exit (graph_cache_assign hdl hdl;; mret hdl) (graph_ptr_release hdl).

Definition xrtGraphOpen (dev_handle xclbin_uuid : Z) (graph_name : string) : M Z :=
  catch_and_report (xrtGraphOpen_try dev_handle xclbin_uuid graph_name) XRT_NULL_HANDLE.

Definition xrtGraphOpenExclusive_try (dev_handle xclbin_uuid : Z) (graph_name : string) : M Z :=
  hdl ← open_graph dev_handle xclbin_uuid graph_name exclusive;
  scope_exit (graph_cache_assign hdl hdl;; mret hdl) (graph_ptr_release hdl).

Definition xrtGraphOpenExclusive (dev_handle xclbin_uuid : Z) (graph_name : string) : M Z :=
  catch_and_report (xrtGraphOpenExclusive_try dev_handle xclbin_uuid graph_name) XRT_NULL_HANDLE.

Definition xrtGraphOpenShared_try (dev_handle xclbin_uuid : Z) (graph_name : string) : M Z :=
  hdl ← open_graph dev_handle xclbin_uuid graph_name shared;
  scope_exit (graph_cache_assign hdl hdl;; mret hdl) (graph_ptr_release hdl).

Definition xrtGraphOpenShared (dev_handle xclbin_uuid : Z) (graph_name : string) : M Z :=
  catch_and_report (xrtGraphOpenShared_try dev_handle xclbin_uuid graph_name) XRT_NULL_HANDLE.

Definition xrtGraphClose_try (graph_hdl : Z) : M unit :=
  close_graph graph_hdl.

Definition xrtGraphClose (graph_hdl : Z) : M unit :=
  catch_and_report (xrtGraphClose_try graph_hdl) tt.

Definition xrtGraphReset_try (graph_hdl : Z) : M Z :=
  hdl ← get_graph_hdl graph_hdl;
  scope_exit (graph_impl_reset hdl;; mret 0) (graph_ptr_release hdl).

Definition xrtGraphReset (graph_hdl : Z) : M Z :=
  catch_and_report (xrtGraphReset_try graph_hdl) (-1).

Definition xrtGraphTimeStamp_try (graph_hdl : Z) : M Z :=
  hdl ← get_graph_hdl graph_hdl;
  scope_exit (graph_impl_get_timestamp hdl) (graph_ptr_release hdl).

Definition xrtGraphTimeStamp (graph_hdl : Z) : M Z :=
  catch_and_report (xrtGraphTimeStamp_try graph_hdl) (UINT64_MAX).

Definition xrtGraphRun_try (graph_hdl : Z) (iterations : Z) : M Z :=
  hdl ← get_graph_hdl graph_hdl;
  scope_exit (graph_impl_run hdl iterations;; mret 0) (graph_ptr_release hdl).

Definition xrtGraphRun (graph_hdl : Z) (iterations : Z) : M Z :=
  catch_and_report (xrtGraphRun_try graph_hdl iterations) (-1).

Definition xrtGraphWaitDone_try (graph_hdl : Z) (timeoutMilliSec : Z) : M Z :=
  hdl ← get_graph_hdl graph_hdl;
  scope_exit (graph_impl_wait_int hdl timeoutMilliSec) (graph_ptr_release hdl).

Definition xrtGraphWaitDone (graph_hdl : Z) (timeoutMilliSec : Z) : M Z :=
  catch_and_report (xrtGraphWaitDone_try graph_hdl timeoutMilliSec) (-1).

Definition xrtGraphWait_try (graph_hdl : Z) (cycle : Z) : M Z :=
  hdl ← get_graph_hdl graph_hdl;
  scope_exit (graph_impl_wait_uint64 hdl cycle;; mret 0) (graph_ptr_release hdl).

Definition xrtGraphWait (graph_hdl : Z) (cycle : Z) : M Z :=
  catch_and_report (xrtGraphWait_try graph_hdl cycle) (-1).

Definition xrtGraphSuspend_try (graph_hdl : Z) : M Z :=
  hdl ← get_graph_hdl graph_hdl;
  scope_exit (graph_impl_suspend hdl;; mret 0) (graph_ptr_release hdl).

Definition xrtGraphSuspend (graph_hdl : Z) : M Z :=
  catch_and_report (xrtGraphSuspend_try graph_hdl) (-1).

Definition xrtGraphResume_try (graph_hdl : Z) : M Z :=
  hdl ← get_graph_hdl graph_hdl;
  scope_exit (graph_impl_resume hdl;; mret 0) (graph_ptr_release hdl).

Definition xrtGraphResume (graph_hdl : Z) : M Z :=
  catch_and_report (xrtGraphResume_try graph_hdl) (-1).

Definition xrtGraphEnd_try (graph_hdl : Z) (cycle : Z) : M Z :=
  hdl ← get_graph_hdl graph_hdl;
  scope_exit (graph_impl_end hdl cycle;; mret 0) (graph_ptr_release hdl).

Definition xrtGraphEnd (graph_hdl : Z) (cycle : Z) : M Z :=
  catch_and_report (xrtGraphEnd_try graph_hdl cycle) (-1).

Definition xrtGraphUpdateRTP_try (graph_hdl : Z) (port : string) (buffer : string) (size : Z) : M Z :=
  hdl ← get_graph_hdl graph_hdl;
  scope_exit (graph_impl_update_rtp hdl port buffer size;; mret 0) (graph_ptr_release hdl).

Definition xrtGraphUpdateRTP (graph_hdl : Z) (port : string) (buffer : string) (size : Z) : M Z :=
  catch_and_report (xrtGraphUpdateRTP_try graph_hdl port buffer size) (-1).

Definition xrtGraphReadRTP_try (graph_hdl : Z) (port : string) (size : Z) : M Z :=
  hdl ← get_graph_hdl graph_hdl;
  scope_exit (graph_impl_read_rtp hdl port size;; mret 0) (graph_ptr_release hdl).

Definition xrtGraphReadRTP (graph_hdl : Z) (port : string) (size : Z) : M Z :=
  catch_and_report (xrtGraphReadRTP_try graph_hdl port size) (-1).

Definition xrtAIEDeviceOpen_try (index : Z) : M Z :=
  handle ← ext (ext_xrtDeviceOpen index);
  open_aie_context handle primary;;
  mret handle.

Definition xrtAIEDeviceOpen (index : Z) : M Z :=
  catch_and_report (xrtAIEDeviceOpen_try index) XRT_NULL_HANDLE.

Definition xrtAIEDeviceOpenExclusive_try (index : Z) : M Z :=
  handle ← ext (ext_xrtDeviceOpen index);
  open_aie_context handle exclusive;;
  mret handle.

Definition xrtAIEDeviceOpenExclusive (index : Z) : M Z :=
  catch_and_report (xrtAIEDeviceOpenExclusive_try index) XRT_NULL_HANDLE.

Definition xrtAIEDeviceOpenShared_try (index : Z) : M Z :=
  handle ← ext (ext_xrtDeviceOpen index);
  open_aie_context handle shared;;
  mret handle.

Definition xrtAIEDeviceOpenShared (index : Z) : M Z :=
  catch_and_report (xrtAIEDeviceOpenShared_try index) XRT_NULL_HANDLE.

Definition xrtSyncBOAIE_try (handle bohdl : Z) (gmioName : string) (dir size offset : Z) : M Z :=
  sync_aie_bo handle bohdl gmioName dir size offset;; mret 0.

Definition xrtSyncBOAIE (handle bohdl : Z) (gmioName : string) (dir size offset : Z) : M Z :=
  catch_and_report (xrtSyncBOAIE_try handle bohdl gmioName dir size offset) (-1).

Definition xrtAIESyncBO (handle bohdl : Z) (gmioName : string) (dir size offset : Z) : M Z :=
  xrtSyncBOAIE handle bohdl gmioName dir size offset.

Definition xrtResetAIEArray_try (handle : Z) : M Z :=
  reset_aie handle;; mret 0.

Definition xrtResetAIEArray (handle : Z) : M Z :=
  catch_and_report (xrtResetAIEArray_try handle) (-1).

Definition xrtAIEResetArray (handle : Z) : M Z :=
  xrtResetAIEArray handle.

Definition xrtSyncBOAIENB_try (handle bohdl : Z) (gmioName : string) (dir size offset : Z) : M Z :=
  sync_aie_bo_nb handle bohdl gmioName dir size offset;; mret 0.

Definition xrtSyncBOAIENB (handle bohdl : Z) (gmioName : string) (dir size offset : Z) : M Z :=
  catch_and_report (xrtSyncBOAIENB_try handle bohdl gmioName dir size offset) (-1).

Definition xrtGMIOWait_try (handle : Z) (gmioName : string) : M Z :=
  wait_gmio handle gmioName;; mret 0.

Definition xrtGMIOWait (handle : Z) (gmioName : string) : M Z :=
  catch_and_report (xrtGMIOWait_try handle gmioName) (-1).

Definition xrtAIEStartProfiling_try (handle option : Z) (port1Name port2Name : string)
    (value : Z) : M Z :=
  event ← create_profiling_event handle;
  scope_exit
    (if decide (option < 0 ∨ option > 3)
     then throw (xrt_core_error (- EINVAL) "Not a valid profiling option")
     else
       hdl ← profiling_impl_start_profiling event option port1Name port2Name value;
       if decide (hdl ≠ invalid_handle)
       then profiling_cache_assign hdl event;; mret hdl
       else throw (xrt_core_error (- EINVAL) "Not a valid profiling handle"))
    (profiling_ptr_release event).

Definition xrtAIEStartProfiling (handle option : Z) (port1Name port2Name : string)
    (value : Z) : M Z :=
  catch_and_report (xrtAIEStartProfiling_try handle option port1Name port2Name value) (-1).

(** The device handle parameter of the next two is unnamed and unused. *)
Definition xrtAIEReadProfiling_try (pHandle : Z) : M Z :=
  it ← profiling_cache_find pHandle;
  match it with
  | Some p => profiling_impl_read_profiling p
  | None => throw (xrt_core_error (- EINVAL) "No such profiling handle")
  end.

Definition xrtAIEReadProfiling (handle pHandle : Z) : M Z :=
  catch_and_report (xrtAIEReadProfiling_try pHandle) UINT64_MAX.

Definition xrtAIEStopProfiling_try (pHandle : Z) : M unit :=
  it ← profiling_cache_find pHandle;
  match it with
  | Some p =>
      profiling_impl_stop_profiling p;;
      profiling_cache_erase pHandle;;
      mret tt
  | None => throw (xrt_core_error (- EINVAL) "No such profiling handle")
  end.

Definition xrtAIEStopProfiling (handle pHandle : Z) : M unit :=
  catch_and_report (xrtAIEStopProfiling_try pHandle) tt.

(** ** All C entry points at once *)

#[local] Instance M_fmap : FMap M := fun A B f m w =>
  match m w with
  | (Ok a, w1) => (Ok (f a), w1)
  | (Throw e, w1) => (Throw e, w1)
  | (Abort, w1) => (Abort, w1)
  end.

(** A call of a C entry point with its arguments. *)
Inductive capi_call : Type :=
| call_xrtGraphOpen (dev_handle : Z) (xclbin_uuid : Z) (graph_name : string)
| call_xrtGraphOpenExclusive (dev_handle : Z) (xclbin_uuid : Z) (graph_name : string)
| call_xrtGraphOpenShared (dev_handle : Z) (xclbin_uuid : Z) (graph_name : string)
| call_xrtGraphClose (graph_hdl : Z)
| call_xrtGraphReset (graph_hdl : Z)
| call_xrtGraphTimeStamp (graph_hdl : Z)
| call_xrtGraphRun (graph_hdl : Z) (iterations : Z)
| call_xrtGraphWaitDone (graph_hdl : Z) (timeoutMilliSec : Z)
| call_xrtGraphWait (graph_hdl : Z) (cycle : Z)
| call_xrtGraphSuspend (graph_hdl : Z)
| call_xrtGraphResume (graph_hdl : Z)
| call_xrtGraphEnd (graph_hdl : Z) (cycle : Z)
| call_xrtGraphUpdateRTP (graph_hdl : Z) (port : string) (buffer : string) (size : Z)
| call_xrtGraphReadRTP (graph_hdl : Z) (port : string) (size : Z)
| call_xrtAIEDeviceOpen (index : Z)
| call_xrtAIEDeviceOpenExclusive (index : Z)
| call_xrtAIEDeviceOpenShared (index : Z)
| call_xrtAIESyncBO (handle : Z) (bohdl : Z) (gmioName : string) (dir : Z) (size : Z) (offset : Z)
| call_xrtSyncBOAIE (handle : Z) (bohdl : Z) (gmioName : string) (dir : Z) (size : Z) (offset : Z)
| call_xrtAIEResetArray (handle : Z)
| call_xrtResetAIEArray (handle : Z)
| call_xrtSyncBOAIENB (handle : Z) (bohdl : Z) (gmioName : string) (dir : Z) (size : Z) (offset : Z)
| call_xrtGMIOWait (handle : Z) (gmioName : string)
| call_xrtAIEStartProfiling (handle : Z) (option : Z) (port1Name : string) (port2Name : string) (value : Z)
| call_xrtAIEReadProfiling (handle : Z) (pHandle : Z)
| call_xrtAIEStopProfiling (handle : Z) (pHandle : Z).

(** The entry point run. *)
Definition capi (c : capi_call) : M retval :=
  match c with
  | call_xrtGraphOpen dev_handle xclbin_uuid graph_name =>
      RHandle <$> xrtGraphOpen dev_handle xclbin_uuid graph_name
  | call_xrtGraphOpenExclusive dev_handle xclbin_uuid graph_name =>
      RHandle <$> xrtGraphOpenExclusive dev_handle xclbin_uuid graph_name
  | call_xrtGraphOpenShared dev_handle xclbin_uuid graph_name =>
      RHandle <$> xrtGraphOpenShared dev_handle xclbin_uuid graph_name
  | call_xrtGraphClose graph_hdl =>
      (fun _ => RVoid) <$> xrtGraphClose graph_hdl
  | call_xrtGraphReset graph_hdl =>
      RInt <$> xrtGraphReset graph_hdl
  | call_xrtGraphTimeStamp graph_hdl =>
      RUInt64 <$> xrtGraphTimeStamp graph_hdl
  | call_xrtGraphRun graph_hdl iterations =>
      RInt <$> xrtGraphRun graph_hdl iterations
  | call_xrtGraphWaitDone graph_hdl timeoutMilliSec =>
      RInt <$> xrtGraphWaitDone graph_hdl timeoutMilliSec
  | call_xrtGraphWait graph_hdl cycle =>
      RInt <$> xrtGraphWait graph_hdl cycle
  | call_xrtGraphSuspend graph_hdl =>
      RInt <$> xrtGraphSuspend graph_hdl
  | call_xrtGraphResume graph_hdl =>
      RInt <$> xrtGraphResume graph_hdl
  | call_xrtGraphEnd graph_hdl cycle =>
      RInt <$> xrtGraphEnd graph_hdl cycle
  | call_xrtGraphUpdateRTP graph_hdl port buffer size =>
      RInt <$> xrtGraphUpdateRTP graph_hdl port buffer size
  | call_xrtGraphReadRTP graph_hdl port size =>
      RInt <$> xrtGraphReadRTP graph_hdl port size
  | call_xrtAIEDeviceOpen index =>
      RHandle <$> xrtAIEDeviceOpen index
  | call_xrtAIEDeviceOpenExclusive index =>
      RHandle <$> xrtAIEDeviceOpenExclusive index
  | call_xrtAIEDeviceOpenShared index =>
      RHandle <$> xrtAIEDeviceOpenShared index
  | call_xrtAIESyncBO handle bohdl gmioName dir size offset =>
      RInt <$> xrtAIESyncBO handle bohdl gmioName dir size offset
  | call_xrtSyncBOAIE handle bohdl gmioName dir size offset =>
      RInt <$> xrtSyncBOAIE handle bohdl gmioName dir size offset
  | call_xrtAIEResetArray handle =>
      RInt <$> xrtAIEResetArray handle
  | call_xrtResetAIEArray handle =>
      RInt <$> xrtResetAIEArray handle
  | call_xrtSyncBOAIENB handle bohdl gmioName dir size offset =>
      RInt <$> xrtSyncBOAIENB handle bohdl gmioName dir size offset
  | call_xrtGMIOWait handle gmioName =>
      RInt <$> xrtGMIOWait handle gmioName
  | call_xrtAIEStartProfiling handle option port1Name port2Name value =>
      RInt <$> xrtAIEStartProfiling handle option port1Name port2Name value
  | call_xrtAIEReadProfiling handle pHandle =>
      RUInt64 <$> xrtAIEReadProfiling handle pHandle
  | call_xrtAIEStopProfiling handle pHandle =>
      (fun _ => RVoid) <$> xrtAIEStopProfiling handle pHandle
  end.

(** Its [try] block. *)
Definition capi_try (c : capi_call) : M retval :=
  match c with
  | call_xrtGraphOpen dev_handle xclbin_uuid graph_name =>
      RHandle <$> xrtGraphOpen_try dev_handle xclbin_uuid graph_name
  | call_xrtGraphOpenExclusive dev_handle xclbin_uuid graph_name =>
      RHandle <$> xrtGraphOpenExclusive_try dev_handle xclbin_uuid graph_name
  | call_xrtGraphOpenShared dev_handle xclbin_uuid graph_name =>
      RHandle <$> xrtGraphOpenShared_try dev_handle xclbin_uuid graph_name
  | call_xrtGraphClose graph_hdl =>
      (fun _ => RVoid) <$> xrtGraphClose_try graph_hdl
  | call_xrtGraphReset graph_hdl =>
      RInt <$> xrtGraphReset_try graph_hdl
  | call_xrtGraphTimeStamp graph_hdl =>
      RUInt64 <$> xrtGraphTimeStamp_try graph_hdl
  | call_xrtGraphRun graph_hdl iterations =>
      RInt <$> xrtGraphRun_try graph_hdl iterations
  | call_xrtGraphWaitDone graph_hdl timeoutMilliSec =>
      RInt <$> xrtGraphWaitDone_try graph_hdl timeoutMilliSec
  | call_xrtGraphWait graph_hdl cycle =>
      RInt <$> xrtGraphWait_try graph_hdl cycle
  | call_xrtGraphSuspend graph_hdl =>
      RInt <$> xrtGraphSuspend_try graph_hdl
  | call_xrtGraphResume graph_hdl =>
      RInt <$> xrtGraphResume_try graph_hdl
  | call_xrtGraphEnd graph_hdl cycle =>
      RInt <$> xrtGraphEnd_try graph_hdl cycle
  | call_xrtGraphUpdateRTP graph_hdl port buffer size =>
      RInt <$> xrtGraphUpdateRTP_try graph_hdl port buffer size
  | call_xrtGraphReadRTP graph_hdl port size =>
      RInt <$> xrtGraphReadRTP_try graph_hdl port size
  | call_xrtAIEDeviceOpen index =>
      RHandle <$> xrtAIEDeviceOpen_try index
  | call_xrtAIEDeviceOpenExclusive index =>
      RHandle <$> xrtAIEDeviceOpenExclusive_try index
  | call_xrtAIEDeviceOpenShared index =>
      RHandle <$> xrtAIEDeviceOpenShared_try index
  | call_xrtAIESyncBO handle bohdl gmioName dir size offset =>
      RInt <$> xrtSyncBOAIE_try handle bohdl gmioName dir size offset
  | call_xrtSyncBOAIE handle bohdl gmioName dir size offset =>
      RInt <$> xrtSyncBOAIE_try handle bohdl gmioName dir size offset
  | call_xrtAIEResetArray handle =>
      RInt <$> xrtResetAIEArray_try handle
  | call_xrtResetAIEArray handle =>
      RInt <$> xrtResetAIEArray_try handle
  | call_xrtSyncBOAIENB handle bohdl gmioName dir size offset =>
      RInt <$> xrtSyncBOAIENB_try handle bohdl gmioName dir size offset
  | call_xrtGMIOWait handle gmioName =>
      RInt <$> xrtGMIOWait_try handle gmioName
  | call_xrtAIEStartProfiling handle option port1Name port2Name value =>
      RInt <$> xrtAIEStartProfiling_try handle option port1Name port2Name value
  | call_xrtAIEReadProfiling _ pHandle =>
      RUInt64 <$> xrtAIEReadProfiling_try pHandle
  | call_xrtAIEStopProfiling _ pHandle =>
      (fun _ => RVoid) <$> xrtAIEStopProfiling_try pHandle
  end.

(** The value it returns after a handler ran. *)
Definition sentinel (c : capi_call) : retval :=
  match c with
  | call_xrtGraphOpen _ _ _
  | call_xrtGraphOpenExclusive _ _ _
  | call_xrtGraphOpenShared _ _ _
  | call_xrtAIEDeviceOpen _
  | call_xrtAIEDeviceOpenExclusive _
  | call_xrtAIEDeviceOpenShared _ => RHandle XRT_NULL_HANDLE
  | call_xrtGraphClose _
  | call_xrtAIEStopProfiling _ _ => RVoid
  | call_xrtGraphReset _
  | call_xrtGraphRun _ _
  | call_xrtGraphWaitDone _ _
  | call_xrtGraphWait _ _
  | call_xrtGraphSuspend _
  | call_xrtGraphResume _
  | call_xrtGraphEnd _ _
  | call_xrtGraphUpdateRTP _ _ _ _
  | call_xrtGraphReadRTP _ _ _
  | call_xrtAIESyncBO _ _ _ _ _ _
  | call_xrtSyncBOAIE _ _ _ _ _ _
  | call_xrtAIEResetArray _
  | call_xrtResetAIEArray _
  | call_xrtSyncBOAIENB _ _ _ _ _ _
  | call_xrtGMIOWait _ _
  | call_xrtAIEStartProfiling _ _ _ _ _ => RInt (-1)
  | call_xrtGraphTimeStamp _
  | call_xrtAIEReadProfiling _ _ => RUInt64 UINT64_MAX
  end.

(** The entry points that change a registry when they succeed. *)
Definition mutates_registry (c : capi_call) : bool :=
  match c with
  | call_xrtGraphOpen _ _ _
  | call_xrtGraphOpenExclusive _ _ _
  | call_xrtGraphOpenShared _ _ _
  | call_xrtGraphClose _
  | call_xrtAIEStartProfiling _ _ _ _ _
  | call_xrtAIEStopProfiling _ _ => true
  | _ => false
  end.

(** A sequence of calls, one after the other, as long as the process
    lives. *)
Fixpoint run_calls (cs : list capi_call) (w : world Env) : world Env :=
  match cs with
  | [] => w
  | c :: cs' =>
      match capi c w with
      | (Ok _, w1) => run_calls cs' w1
      | (_, w1) => w1
      end
  end.

(** ** Vocabulary of the statements *)

(** [m] leaves the part [π] of the state as it found it. *)
Definition keeps {A X : Type} (π : world Env -> X) (m : M A) : Prop :=
  forall w, π (m w).2 = π w.

(** The two registries. *)
Definition registries (w : world Env) : gmap Z Z * gmap Z Z :=
  (graph_cache w, profiling_cache w).

(** [errno] and the message sink. *)
Definition diagnostics (w : world Env) : Z * list message :=
  (errno w, message_log w).

(** The state after the handler for [e] ran. *)
Definition reported (e : exn) (w : world Env) : world Env :=
  match e with
  | XrtCoreError code what =>
      set_errno code
        (set_message_log (message_log w ++ [Message severity_error "XRT" what]) w)
  | StdException what =>
      set_message_log (message_log w ++ [Message severity_error "XRT" what]) w
  end.

(** The entry points that work on graph objects. *)
Definition touches_graphs (c : capi_call) : bool :=
  match c with
  | call_xrtAIEDeviceOpen _
  | call_xrtAIEDeviceOpenExclusive _
  | call_xrtAIEDeviceOpenShared _
  | call_xrtAIESyncBO _ _ _ _ _ _
  | call_xrtSyncBOAIE _ _ _ _ _ _
  | call_xrtAIEResetArray _
  | call_xrtResetAIEArray _
  | call_xrtSyncBOAIENB _ _ _ _ _ _
  | call_xrtGMIOWait _ _
  | call_xrtAIEStartProfiling _ _ _ _ _
  | call_xrtAIEReadProfiling _ _
  | call_xrtAIEStopProfiling _ _ => false
  | _ => true
  end.

(** For the entry points that forward to a method of a graph object: the
    graph handle they are given and the device operation they forward to,
    as a function of the driver's handle. *)
Definition graph_method_op (c : capi_call) : option (Z * (Z -> device_op)) :=
  match c with
  | call_xrtGraphReset h => Some (h, op_reset_graph)
  | call_xrtGraphTimeStamp h => Some (h, op_get_timestamp)
  | call_xrtGraphRun h iterations => Some (h, fun g => op_run_graph g iterations)
  | call_xrtGraphWaitDone h timeout => Some (h, fun g => op_wait_graph_done g timeout)
  | call_xrtGraphWait h cycle => Some (h, fun g => op_wait_graph g cycle)
  | call_xrtGraphSuspend h => Some (h, op_suspend_graph)
  | call_xrtGraphResume h => Some (h, op_resume_graph)
  | call_xrtGraphEnd h cycle => Some (h, fun g => op_end_graph g cycle)
  | call_xrtGraphUpdateRTP h port buffer size =>
      Some (h, fun g => op_update_graph_rtp g port buffer size)
  | call_xrtGraphReadRTP h port size => Some (h, fun g => op_read_graph_rtp g port size)
  | _ => None
  end.

(** An outcome that is not an exception on its way to the caller. *)
Definition no_exception {A : Type} (r : outcome A) : Prop :=
  match r with
  | Throw _ => False
  | _ => True
  end.



(** The graph objects as the devices know them: the device and the driver's
    handle of every object in the heap. *)
Definition live_graph_handles (w : world Env) : list (Z * Z) :=
  (fun ps => (g_device (pointee ps.2), g_handle (pointee ps.2))) <$> map_to_list (graph_heap w).

(** The part of the state the life of graph objects is about. *)
Definition graph_ledger (w : world Env) :
    gmap Z (shared_obj graph_impl) * gmap Z Z * list (Z * Z) * list (Z * Z) :=
  (graph_heap w, graph_cache w, opened_handles (trace w), closed_handles (trace w)).

(** Every failure the environment reported while [m] ran from [w] has its
    message in a line [m] logged. *)
Definition every_failure_logged {A : Type} (m : M A) (w : world Env) : Prop :=
  forall e, e ∈ failures (issued m w) ->
            Message severity_error "XRT" (exn_what e) ∈ logged m w.

(** The three entry points that open a device for AIE use: the index they
    are given and the access mode they ask for. *)
Definition aie_device_open (c : capi_call) : option (Z * access_mode) :=
  match c with
  | call_xrtAIEDeviceOpen index => Some (index, primary)
  | call_xrtAIEDeviceOpenExclusive index => Some (index, exclusive)
  | call_xrtAIEDeviceOpenShared index => Some (index, shared)
  | _ => None
  end.

(** The three entry points that open a graph. *)
Definition is_graph_open (c : capi_call) : bool :=
  match c with
  | call_xrtGraphOpen _ _ _
  | call_xrtGraphOpenExclusive _ _ _
  | call_xrtGraphOpenShared _ _ _ => true
  | _ => false
  end.

(** What a successful call does to the pair of registries: an open binds
    the handle it returns, a close removes the handle it is given, a start
    binds the profiling handle it returns, a stop removes the profiling
    handle it is given, and nothing else changes. *)
Definition registry_effect (c : capi_call) (v : retval)
    (before after : gmap Z Z * gmap Z Z) : Prop :=
  match c with
  | call_xrtGraphOpen _ _ _
  | call_xrtGraphOpenExclusive _ _ _
  | call_xrtGraphOpenShared _ _ _ =>
      exists h, v = RHandle h /\ after = (<[h := h]> before.1, before.2)
  | call_xrtGraphClose h =>
      is_Some (before.1 !! h) /\ after = (delete h before.1, before.2)
  | call_xrtAIEStartProfiling _ _ _ _ _ =>
      exists hdl p, v = RInt hdl /\ after = (before.1, <[hdl := p]> before.2)
  | call_xrtAIEStopProfiling _ pHandle =>
      is_Some (before.2 !! pHandle) /\ after = (before.1, delete pHandle before.2)
  | _ => after = before
  end.

(** Every registered graph handle is the address of a live graph object
    that the registry alone owns. *)
Definition graph_registry_sound (w : world Env) : Prop :=
  forall k p, graph_cache w !! k = Some p ->
              k = p /\ exists o, graph_heap w !! p = Some (Shared o 1).

(** Every live graph object is registered under its address. *)
Definition graph_heap_registered (w : world Env) : Prop :=
  forall p s, graph_heap w !! p = Some s -> graph_cache w !! p = Some p.

(** Every graph handle a device handed out was given back to it once, or
    belongs to a live graph object. *)
Definition ledger_balanced (w : world Env) : Prop :=
  closed_handles (trace w) ++ live_graph_handles w ≡ₚ opened_handles (trace w).

Definition graph_inv (w : world Env) : Prop :=
  graph_registry_sound w /\ graph_heap_registered w /\ ledger_balanced w.


(** ** The rest of the object-oriented graph surface *)

(** [xrt::graph::reset]. *)
Definition graph_reset (handle : Z) : M unit :=
  profiling_wrapper "xrt::graph::reset" (graph_impl_reset handle).

(** [xrt::graph::get_timestamp]. *)
Definition graph_get_timestamp (handle : Z) : M Z :=
  profiling_wrapper "xrt::graph::get_timestamp" (graph_impl_get_timestamp handle).

(** [xrt::graph::run(uint32_t iterations)]: [graph_impl::run] takes an
    [int], so the 32-bit unsigned count is converted on the call. *)
Definition graph_run (handle : Z) (iterations : Z) : M unit :=
  profiling_wrapper "xrt::graph::run" (graph_impl_run handle (static_cast_int iterations)).

(** [xrt::graph::suspend]. *)
Definition graph_suspend (handle : Z) : M unit :=
  profiling_wrapper "xrt::graph::suspend" (graph_impl_suspend handle).

(** [xrt::graph::resume]. *)
Definition graph_resume (handle : Z) : M unit :=
  profiling_wrapper "xrt::graph::resume" (graph_impl_resume handle).

(** [xrt::graph::end]. *)
Definition graph_end (handle : Z) (cycles : Z) : M unit :=
  profiling_wrapper "xrt::graph::end" (graph_impl_end handle cycles).

(** [xrt::graph::update_port]. *)
Definition graph_update_port (handle : Z) (port_name value : string) (bytes : Z) : M unit :=
  profiling_wrapper "xrt::graph::update_port"
    (graph_impl_update_rtp handle port_name value bytes).

(** [xrt::graph::read_port]. *)
Definition graph_read_port (handle : Z) (port_name : string) (bytes : Z) : M unit :=
  profiling_wrapper "xrt::graph::read_port" (graph_impl_read_rtp handle port_name bytes).

(** ** More vocabulary *)

(** What a graph entry point returns for the value [v] the device gave:
    the value itself for the time stamp and the timed wait, 0 otherwise. *)
Definition graph_method_value (c : capi_call) (v : Z) : retval :=
  match c with
  | call_xrtGraphTimeStamp _ => RUInt64 v
  | call_xrtGraphWaitDone _ _ => RInt v
  | _ => RInt 0
  end.

(** The arguments and the access mode of the three graph-open entry
    points. *)
Definition graph_open_args (c : capi_call) : option (Z * Z * string * access_mode) :=
  match c with
  | call_xrtGraphOpen dhdl u name => Some (dhdl, u, name, primary)
  | call_xrtGraphOpenExclusive dhdl u name => Some (dhdl, u, name, exclusive)
  | call_xrtGraphOpenShared dhdl u name => Some (dhdl, u, name, shared)
  | _ => None
  end.


(** Every registered profiling handle is bound to a live profiling object
    that holds this very handle, a valid one, and that the registry alone
    owns. *)
Definition profiling_registry_sound (w : world Env) : Prop :=
  forall h p, profiling_cache w !! h = Some p ->
    h <> invalid_handle /\
    exists d, profiling_heap w !! p = Some (Shared (Build_profiling_impl d h) 1).

(** Every live profiling object is registered under the handle it holds. *)
Definition profiling_heap_registered (w : world Env) : Prop :=
  forall p s, profiling_heap w !! p = Some s ->
    profiling_cache w !! profiling_hdl (pointee s) = Some p.

Definition profiling_inv (w : world Env) : Prop :=
  profiling_registry_sound w /\ profiling_heap_registered w.

(** The part of the state the life of profiling objects is about. *)
Definition profiling_state (w : world Env) :
    gmap Z (shared_obj profiling_impl) * gmap Z Z :=
  (profiling_heap w, profiling_cache w).

(** The entry points that create or destroy profiling objects. *)
Definition changes_profiling (c : capi_call) : bool :=
  match c with
  | call_xrtAIEStartProfiling _ _ _ _ _
  | call_xrtAIEStopProfiling _ _ => true
  | _ => false
  end.

(** [m] never ends in [std::terminate]. *)
Definition never_aborts {A : Type} (m : M A) : Prop :=
  forall w, (m w).1 <> Abort.

(** The methods of [xrt::graph] that work on an open graph, with their
    arguments. *)
Inductive graph_method : Type :=
| method_reset
| method_get_timestamp
| method_run (iterations : Z)
| method_wait_ms (timeout_ms : Z)
| method_wait_cycles (cycles : Z)
| method_suspend
| method_resume
| method_end (cycles : Z)
| method_update_port (port_name value : string) (bytes : Z)
| method_read_port (port_name : string) (bytes : Z).

(** The method called on the object [handle]; [get_timestamp] is the only
    one that returns a value. *)
Definition graph_method_call (m : graph_method) (handle : Z) : M (option Z) :=
  match m with
  | method_reset => graph_reset handle;; mret None
  | method_get_timestamp => Some <$> graph_get_timestamp handle
  | method_run iterations => graph_run handle iterations;; mret None
  | method_wait_ms timeout_ms => graph_wait_ms handle timeout_ms;; mret None
  | method_wait_cycles cycles => graph_wait_cycles handle cycles;; mret None
  | method_suspend => graph_suspend handle;; mret None
  | method_resume => graph_resume handle;; mret None
  | method_end cycles => graph_end handle cycles;; mret None
  | method_update_port port_name value bytes =>
      graph_update_port handle port_name value bytes;; mret None
  | method_read_port port_name bytes => graph_read_port handle port_name bytes;; mret None
  end.

(** The device operation a method ends in, for the driver's handle [g]. *)
Definition graph_method_device_op (m : graph_method) (g : Z) : device_op :=
  match m with
  | method_reset => op_reset_graph g
  | method_get_timestamp => op_get_timestamp g
  | method_run iterations => op_run_graph g (static_cast_int iterations)
  | method_wait_ms timeout_ms =>
      if decide (timeout_ms = 0)
      then op_wait_graph g 0
      else op_wait_graph_done g (static_cast_int timeout_ms)
  | method_wait_cycles cycles => op_wait_graph g cycles
  | method_suspend => op_suspend_graph g
  | method_resume => op_resume_graph g
  | method_end cycles => op_end_graph g cycles
  | method_update_port port_name value bytes => op_update_graph_rtp g port_name value bytes
  | method_read_port port_name bytes => op_read_graph_rtp g port_name bytes
  end.

(** What the caller of a method gets for the value [v] of the device. *)
Definition graph_method_result (m : graph_method) (v : Z) : option Z :=
  match m with
  | method_get_timestamp => Some v
  | _ => None
  end.

(** For the entry points that resolve a device handle and forward one
    operation to that device: the device handle, the buffer handle they
    turn into a buffer object on the way (if any), and the operation, as a
    function of the buffer object. *)
Definition device_entry (c : capi_call) : option (Z * option Z * (Z -> device_op)) :=
  match c with
  | call_xrtAIESyncBO handle bohdl gmioName dir size offset
  | call_xrtSyncBOAIE handle bohdl gmioName dir size offset =>
      Some (handle, Some bohdl, fun bo => op_sync_aie_bo bo gmioName dir size offset)
  | call_xrtSyncBOAIENB handle bohdl gmioName dir size offset =>
      Some (handle, Some bohdl, fun bo => op_sync_aie_bo_nb bo gmioName dir size offset)
  | call_xrtAIEResetArray handle
  | call_xrtResetAIEArray handle => Some (handle, None, fun _ => op_reset_aie)
  | call_xrtGMIOWait handle gmioName => Some (handle, None, fun _ => op_wait_gmio gmioName)
  | _ => None
  end.

(** What a successful call does to the number of entries of the two
    registries: an open adds one entry, at a handle that was not
    registered; a close and a stop remove one; a start adds one when the
    handle it returns was not registered, and leaves the number as it was
    when it was; every other call changes nothing. *)
Definition entries_effect (c : capi_call) (v : retval)
    (before after : gmap Z Z * gmap Z Z) : Prop :=
  match c with
  | call_xrtGraphOpen _ _ _
  | call_xrtGraphOpenExclusive _ _ _
  | call_xrtGraphOpenShared _ _ _ =>
      exists h, v = RHandle h /\ before.1 !! h = None /\
                size after.1 = S (size before.1) /\ after.2 = before.2
  | call_xrtGraphClose h =>
      is_Some (before.1 !! h) /\ S (size after.1) = size before.1 /\ after.2 = before.2
  | call_xrtAIEStartProfiling _ _ _ _ _ =>
      exists hdl, v = RInt hdl /\ after.1 = before.1 /\
                  size after.2 =
                  match before.2 !! hdl with
                  | Some _ => size before.2
                  | None => S (size before.2)
                  end
  | call_xrtAIEStopProfiling _ pHandle =>
      is_Some (before.2 !! pHandle) /\ S (size after.2) = size before.2 /\
      after.1 = before.1
  | _ => after = before
  end.

(** ** Basic facts about the computations *)

Lemma bind_run {A B : Type} (m : M A) (k : A -> M B) (w : world Env) :
  (m ≫= k) w =
  match m w with
  | (Ok a, w1) => k a w1
  | (Throw e, w1) => (Throw e, w1)
  | (Abort, w1) => (Abort, w1)
  end.
Proof. reflexivity. Qed.

Lemma fmap_run {A B : Type} (f : A -> B) (m : M A) (w : world Env) :
  (f <$> m) w =
  match m w with
  | (Ok a, w1) => (Ok (f a), w1)
  | (Throw e, w1) => (Throw e, w1)
  | (Abort, w1) => (Abort, w1)
  end.
Proof. reflexivity. Qed.

Lemma ext_run (c : ext_call) (w : world Env) :
  ext c w = (match answer c w with Normal v => Ok v | Raise e => Throw e end,
             answered c w).
Proof.
  unfold ext, answered, answer.
  destruct (respond c (env w)) as [r e]; simpl.
  destruct r; reflexivity.
Qed.

(** Unfolding the entry points and what they are made of. *)
Ltac unfold_entry_points :=
  unfold xrtGraphOpen, xrtGraphOpenExclusive, xrtGraphOpenShared, xrtGraphClose,
    xrtGraphReset, xrtGraphTimeStamp, xrtGraphRun, xrtGraphWaitDone, xrtGraphWait,
    xrtGraphSuspend, xrtGraphResume, xrtGraphEnd, xrtGraphUpdateRTP,
    xrtGraphReadRTP, xrtAIEDeviceOpen, xrtAIEDeviceOpenExclusive,
    xrtAIEDeviceOpenShared, xrtAIESyncBO, xrtSyncBOAIE, xrtAIEResetArray,
    xrtResetAIEArray, xrtSyncBOAIENB, xrtGMIOWait, xrtAIEStartProfiling,
    xrtAIEReadProfiling, xrtAIEStopProfiling.

Ltac unfold_try_blocks :=
  unfold xrtGraphOpen_try, xrtGraphOpenExclusive_try, xrtGraphOpenShared_try,
    xrtGraphClose_try, xrtGraphReset_try, xrtGraphTimeStamp_try, xrtGraphRun_try,
    xrtGraphWaitDone_try, xrtGraphWait_try, xrtGraphSuspend_try,
    xrtGraphResume_try, xrtGraphEnd_try, xrtGraphUpdateRTP_try,
    xrtGraphReadRTP_try, xrtAIEDeviceOpen_try, xrtAIEDeviceOpenExclusive_try,
    xrtAIEDeviceOpenShared_try, xrtSyncBOAIE_try, xrtResetAIEArray_try,
    xrtSyncBOAIENB_try, xrtGMIOWait_try, xrtAIEStartProfiling_try,
    xrtAIEReadProfiling_try, xrtAIEStopProfiling_try.

Ltac unfold_helpers :=
  unfold open_graph, close_graph, open_aie_context, sync_aie_bo, reset_aie,
    sync_aie_bo_nb, wait_gmio, create_profiling_event, get_core_device,
    graph_impl_reset, graph_impl_get_timestamp, graph_impl_run,
    graph_impl_wait_int, graph_impl_wait_uint64, graph_impl_suspend,
    graph_impl_resume, graph_impl_end, graph_impl_update_rtp,
    graph_impl_read_rtp, profiling_impl_start_profiling,
    profiling_impl_read_profiling, profiling_impl_stop_profiling, device_call.

(** ** What a computation leaves untouched *)

Section Keeps.

Context {X : Type} (π : world Env -> X) (allowed : ext_call -> bool).

Hypothesis π_env : forall e w, π (set_env e w) = π w.
Hypothesis π_trace :
  forall c r w, allowed c = true -> π (set_trace (trace w ++ [(c, r)]) w) = π w.
Hypothesis allowed_other : forall c, is_graph_lifecycle c = false -> allowed c = true.
Hypothesis allowed_lifecycle : forall c, is_graph_lifecycle c = true -> allowed c = true.
Hypothesis π_graph_heap : forall h w, π (set_graph_heap h w) = π w.
Hypothesis π_profiling_heap : forall h w, π (set_profiling_heap h w) = π w.
Hypothesis π_graph_cache : forall c w, π (set_graph_cache c w) = π w.
Hypothesis π_profiling_cache : forall c w, π (set_profiling_cache c w) = π w.
Hypothesis π_errno : forall z w, π (set_errno z w) = π w.
Hypothesis π_message_log : forall l w, π (set_message_log l w) = π w.

Lemma keeps_ret {A : Type} (a : A) : keeps π (mret a : M A).
Proof. intros w. reflexivity. Qed.

Lemma keeps_throw {A : Type} (e : exn) : keeps π (throw e : M A).
Proof. intros w. reflexivity. Qed.

Lemma keeps_bind {A B : Type} (m : M A) (k : A -> M B) :
  keeps π m -> (forall a, keeps π (k a)) -> keeps π (m ≫= k).
Proof.
  intros Hm Hk w. rewrite bind_run. specialize (Hm w).
  destruct (m w) as [[a|e|] w1]; simpl in *; try assumption.
  rewrite Hk. assumption.
Qed.

Lemma keeps_fmap {A B : Type} (f : A -> B) (m : M A) :
  keeps π m -> keeps π (f <$> m).
Proof.
  intros Hm w. rewrite fmap_run. specialize (Hm w).
  destruct (m w) as [[a|e|] w1]; simpl in *; assumption.
Qed.

Lemma keeps_scope_exit {A : Type} (body : M A) (cleanup : M unit) :
  keeps π body -> keeps π cleanup -> keeps π (scope_exit body cleanup).
Proof.
  intros Hb Hc w. unfold scope_exit. specialize (Hb w).
  destruct (body w) as [[a|e|] w1]; simpl in *; try assumption;
    specialize (Hc w1); destruct (cleanup w1) as [[[]|e'|] w2]; simpl in *; congruence.
Qed.

Lemma keeps_noexcept {A : Type} (body : M A) :
  keeps π body -> keeps π (noexcept body).
Proof.
  intros Hb w. unfold noexcept. specialize (Hb w).
  destruct (body w) as [[a|e|] w1]; simpl in *; assumption.
Qed.

Lemma keeps_try_catch_all (body : M unit) :
  keeps π body -> keeps π (try_catch_all body).
Proof.
  intros Hb w. unfold try_catch_all. specialize (Hb w).
  destruct (body w) as [[a|e|] w1]; simpl in *; assumption.
Qed.

Lemma keeps_ext (c : ext_call) : allowed c = true -> keeps π (ext c).
Proof.
  intros Hc w. rewrite ext_run. unfold answered. simpl.
  rewrite <- (π_env (respond c (env w)).2 w).
  apply (π_trace c (answer c w) (set_env (respond c (env w)).2 w) Hc).
Qed.

Lemma keeps_ext_other (c : ext_call) : is_graph_lifecycle c = false -> keeps π (ext c).
Proof. intros Hc. apply keeps_ext, allowed_other, Hc. Qed.

Lemma keeps_graph_impl_dtor (o : graph_impl) : keeps π (graph_impl_dtor o).
Proof.
  apply keeps_noexcept, keeps_bind; [|intros; apply keeps_ret].
  apply keeps_ext, allowed_lifecycle. reflexivity.
Qed.

Lemma keeps_profiling_impl_dtor (o : profiling_impl) : keeps π (profiling_impl_dtor o).
Proof.
  apply keeps_noexcept, keeps_try_catch_all, keeps_bind; [|intros; apply keeps_ret].
  apply keeps_ext_other. reflexivity.
Qed.

Lemma keeps_graph_deref (p : Z) : keeps π (graph_deref p).
Proof. intros w. unfold graph_deref. destruct (graph_heap w !! p); reflexivity. Qed.

Lemma keeps_profiling_deref (p : Z) : keeps π (profiling_deref p).
Proof. intros w. unfold profiling_deref. destruct (profiling_heap w !! p); reflexivity. Qed.

Lemma keeps_graph_ptr_copy (p : Z) : keeps π (graph_ptr_copy p).
Proof.
  intros w. unfold graph_ptr_copy.
  destruct (graph_heap w !! p); simpl; [apply π_graph_heap | reflexivity].
Qed.

Lemma keeps_graph_ptr_release (p : Z) : keeps π (graph_ptr_release p).
Proof.
  intros w. unfold graph_ptr_release.
  destruct (graph_heap w !! p) as [[o [|[|n]]]|]; simpl;
    try reflexivity; try apply π_graph_heap;
    rewrite keeps_graph_impl_dtor; apply π_graph_heap.
Qed.

Lemma keeps_make_shared_graph_impl (dev ghdl : Z) : keeps π (make_shared_graph_impl dev ghdl).
Proof. intros w. apply π_graph_heap. Qed.

Lemma keeps_set_profiling_hdl (p h : Z) : keeps π (set_profiling_hdl p h).
Proof.
  intros w. unfold set_profiling_hdl.
  destruct (profiling_heap w !! p); simpl; [apply π_profiling_heap | reflexivity].
Qed.

Lemma keeps_profiling_ptr_copy (p : Z) : keeps π (profiling_ptr_copy p).
Proof.
  intros w. unfold profiling_ptr_copy.
  destruct (profiling_heap w !! p); simpl; [apply π_profiling_heap | reflexivity].
Qed.

Lemma keeps_profiling_ptr_release (p : Z) : keeps π (profiling_ptr_release p).
Proof.
  intros w. unfold profiling_ptr_release.
  destruct (profiling_heap w !! p) as [[o [|[|n]]]|]; simpl;
    try reflexivity; try apply π_profiling_heap;
    rewrite keeps_profiling_impl_dtor; apply π_profiling_heap.
Qed.

Lemma keeps_make_shared_profiling_impl (dev : Z) : keeps π (make_shared_profiling_impl dev).
Proof. intros w. apply π_profiling_heap. Qed.

Lemma keeps_get_graph_hdl (h : Z) : keeps π (get_graph_hdl h).
Proof.
  intros w. unfold get_graph_hdl.
  destruct (graph_cache w !! h) as [p|]; [|reflexivity].
  apply (keeps_bind (graph_ptr_copy p) (fun _ => mret p));
    [apply keeps_graph_ptr_copy | intros; apply keeps_ret].
Qed.

Lemma keeps_profiling_cache_find (key : Z) : keeps π (profiling_cache_find key).
Proof. intros w. reflexivity. Qed.

Lemma keeps_graph_cache_store (key p : Z) : keeps π (graph_cache_store key p).
Proof. intros w. apply π_graph_cache. Qed.

Lemma keeps_profiling_cache_store (key p : Z) : keeps π (profiling_cache_store key p).
Proof. intros w. apply π_profiling_cache. Qed.

(** One step of a proof that a computation built from the pieces above
    keeps [π]. *)
Ltac keeps_step :=
  first
    [ apply keeps_ret
    | apply keeps_throw
    | apply keeps_ext_other; reflexivity
    | apply keeps_ext, allowed_lifecycle; reflexivity
    | apply keeps_graph_deref
    | apply keeps_profiling_deref
    | apply keeps_set_profiling_hdl
    | apply keeps_get_graph_hdl
    | apply keeps_graph_ptr_copy
    | apply keeps_profiling_ptr_copy
    | apply keeps_graph_ptr_release
    | apply keeps_profiling_ptr_release
    | apply keeps_make_shared_graph_impl
    | apply keeps_make_shared_profiling_impl
    | apply keeps_profiling_cache_find
    | apply keeps_graph_cache_store
    | apply keeps_profiling_cache_store
    | apply keeps_fmap
    | apply keeps_scope_exit
    | apply keeps_bind; [|intros ?]
    | match goal with
      | |- keeps _ (if ?b then _ else _) => destruct b
      | |- keeps _ (match ?x with Some _ => _ | None => _ end) => destruct x
      end ].

Lemma keeps_graph_cache_assign (key p : Z) : keeps π (graph_cache_assign key p).
Proof.
  intros w. unfold graph_cache_assign.
  generalize (graph_cache w !! key) as old. intros old. revert w.
  change (keeps π
            (graph_ptr_copy p;;
             graph_cache_store key p;;
             match old with
             | Some q => graph_ptr_release q
             | None => mret tt
             end)).
  repeat keeps_step.
Qed.

Lemma keeps_graph_cache_erase (hdl : Z) : keeps π (graph_cache_erase hdl).
Proof.
  intros w. unfold graph_cache_erase.
  destruct (graph_cache w !! hdl) as [p|]; [|reflexivity].
  assert (H : keeps π (graph_ptr_release p;; mret 1%nat)) by repeat keeps_step.
  rewrite H. apply π_graph_cache.
Qed.

Lemma keeps_profiling_cache_assign (key p : Z) : keeps π (profiling_cache_assign key p).
Proof.
  intros w. unfold profiling_cache_assign.
  generalize (profiling_cache w !! key) as old. intros old. revert w.
  change (keeps π
            (profiling_ptr_copy p;;
             profiling_cache_store key p;;
             match old with
             | Some q => profiling_ptr_release q
             | None => mret tt
             end)).
  repeat keeps_step.
Qed.

Lemma keeps_profiling_cache_erase (key : Z) : keeps π (profiling_cache_erase key).
Proof.
  intros w. unfold profiling_cache_erase.
  destruct (profiling_cache w !! key) as [p|]; [|reflexivity].
  assert (H : keeps π (profiling_ptr_release p;; mret 1%nat)) by repeat keeps_step.
  rewrite H. apply π_profiling_cache.
Qed.

Lemma keeps_report (e : exn) : keeps π (report e).
Proof.
  destruct e as [code what|what]; intros w; simpl.
  - unfold assign_errno. simpl. rewrite π_errno. apply π_message_log.
  - apply π_message_log.
Qed.

Lemma keeps_catch_and_report {A : Type} (body : M A) (fallback : A) :
  keeps π body -> keeps π (catch_and_report body fallback).
Proof.
  intros Hb w. unfold catch_and_report. specialize (Hb w).
  destruct (body w) as [[a|e|] w1]; simpl in *; try assumption.
  rewrite <- Hb.
  apply (keeps_bind (report e) (fun _ => mret fallback));
    [apply keeps_report | intros; apply keeps_ret].
Qed.

Lemma keeps_open_graph (dhdl xclbin_uuid : Z) (graph_name : string) (am : access_mode) :
  keeps π (open_graph dhdl xclbin_uuid graph_name am).
Proof. unfold_helpers. repeat keeps_step. Qed.

Lemma keeps_create_profiling_event (dhdl : Z) : keeps π (create_profiling_event dhdl).
Proof. unfold_helpers. repeat keeps_step. Qed.

Lemma keeps_profiling_impl_start_profiling (this option : Z) (p1 p2 : string) (value : Z) :
  keeps π (profiling_impl_start_profiling this option p1 p2 value).
Proof. unfold_helpers. repeat keeps_step. Qed.

Lemma keeps_profiling_impl_stop_profiling (this : Z) :
  keeps π (profiling_impl_stop_profiling this).
Proof. unfold_helpers. repeat keeps_step. Qed.

Ltac keeps_try_blocks :=
  simpl; unfold_try_blocks; unfold_helpers;
  repeat first
    [ apply keeps_graph_cache_assign
    | apply keeps_graph_cache_erase
    | apply keeps_profiling_cache_assign
    | apply keeps_profiling_cache_erase
    | keeps_step ].

(** The [try] block of every entry point. *)
Lemma keeps_capi_try (c : capi_call) : keeps π (capi_try c).
Proof. destruct c; keeps_try_blocks. Qed.

(** The [try] block of an entry point other than open, close, start and
    stop. *)
Lemma keeps_capi_try_other (c : capi_call) :
  mutates_registry c = false -> keeps π (capi_try c).
Proof. destruct c; try discriminate 1; intros _; keeps_try_blocks. Qed.

(** The [try] block of an entry point that works on no graph object. *)
Lemma keeps_capi_try_nongraph (c : capi_call) :
  touches_graphs c = false -> keeps π (capi_try c).
Proof. destruct c; try discriminate 1; intros _; keeps_try_blocks. Qed.

(** From the [try] block to the whole entry point. *)
Lemma keeps_capi_of_try (c : capi_call) : keeps π (capi_try c) -> keeps π (capi c).
Proof.
  intros H.
  destruct c; simpl in *; unfold_entry_points;
    apply keeps_fmap, keeps_catch_and_report;
    intros w; specialize (H w); rewrite fmap_run in H;
    match goal with |- context [?f w] => destruct (f w) as [[a|e|] w1] end;
    exact H.
Qed.

End Keeps.

Lemma keeps_diagnostics_capi_try (c : capi_call) : keeps diagnostics (capi_try c).
Proof. apply (keeps_capi_try diagnostics (fun _ => true)); intros; reflexivity. Qed.

Lemma keeps_registries_capi (c : capi_call) :
  mutates_registry c = false -> keeps registries (capi c).
Proof.
  intros Hc. apply keeps_capi_of_try; [reflexivity .. |].
  apply (keeps_capi_try_other registries (fun _ => true)); try (intros; reflexivity).
  exact Hc.
Qed.

Lemma opened_handles_snoc (t : list (ext_call * reply)) (c : ext_call) (r : reply) :
  is_graph_lifecycle c = false -> opened_handles (t ++ [(c, r)]) = opened_handles t.
Proof.
  intros Hc. unfold opened_handles. rewrite omap_app. simpl.
  destruct c as [| | | |d []]; try discriminate Hc; apply app_nil_r.
Qed.

Lemma closed_handles_snoc (t : list (ext_call * reply)) (c : ext_call) (r : reply) :
  is_graph_lifecycle c = false -> closed_handles (t ++ [(c, r)]) = closed_handles t.
Proof.
  intros Hc. unfold closed_handles. rewrite omap_app. simpl.
  destruct c as [| | | |d []]; try discriminate Hc; apply app_nil_r.
Qed.

(** ** The boundary of an entry point *)

Lemma catch_and_report_run {A : Type} (body : M A) (fallback : A) (w : world Env) :
  catch_and_report body fallback w =
  match body w with
  | (Ok a, w1) => (Ok a, w1)
  | (Throw e, w1) => (Ok fallback, reported e w1)
  | (Abort, w1) => (Abort, w1)
  end.
Proof.
  unfold catch_and_report.
  destruct (body w) as [[a|e|] w1]; try reflexivity.
  destruct e; reflexivity.
Qed.

Lemma capi_boundary (c : capi_call) (w : world Env) :
  capi c w =
  match capi_try c w with
  | (Ok v, w1) => (Ok v, w1)
  | (Throw e, w1) => (Ok (sentinel c), reported e w1)
  | (Abort, w1) => (Abort, w1)
  end.
Proof.
  destruct c; simpl; rewrite !fmap_run;
    unfold xrtGraphOpen, xrtGraphOpenExclusive, xrtGraphOpenShared, xrtGraphClose,
      xrtGraphReset, xrtGraphTimeStamp, xrtGraphRun, xrtGraphWaitDone, xrtGraphWait,
      xrtGraphSuspend, xrtGraphResume, xrtGraphEnd, xrtGraphUpdateRTP,
      xrtGraphReadRTP, xrtAIEDeviceOpen, xrtAIEDeviceOpenExclusive,
      xrtAIEDeviceOpenShared, xrtAIESyncBO, xrtSyncBOAIE, xrtAIEResetArray,
      xrtResetAIEArray, xrtSyncBOAIENB, xrtGMIOWait, xrtAIEStartProfiling,
      xrtAIEReadProfiling, xrtAIEStopProfiling;
    rewrite catch_and_report_run;
    match goal with |- context [?f w] => destruct (f w) as [[a|e|] w1] end;
    reflexivity.
Qed.

Lemma reported_log (e : exn) (w : world Env) :
  message_log (reported e w) =
  message_log w ++ [Message severity_error "XRT" (exn_what e)].
Proof. destruct e; reflexivity. Qed.

Lemma reported_trace (e : exn) (w : world Env) : trace (reported e w) = trace w.
Proof. destruct e; reflexivity. Qed.

(** ** The values returned on success *)








Lemma logged_reported (c : capi_call) (w w1 : world Env) (e : exn) :
  message_log w1 = message_log w ->
  drop (length (message_log w)) (message_log (reported e w1)) =
  [Message severity_error "XRT" (exn_what e)].
Proof. intros H. rewrite reported_log, H. apply drop_app_length. Qed.

Lemma profiling_impl_dtor_run (o : profiling_impl) (w : world Env) :
  profiling_impl_dtor o w =
  (Ok tt, answered (ext_device (p_device o) (op_stop_profiling (profiling_hdl o))) w).
Proof.
  unfold profiling_impl_dtor, noexcept, try_catch_all, device_call.
  rewrite bind_run, ext_run.
  destruct (answer _ w); reflexivity.
Qed.

(** ** Running the pieces *)

Lemma issued_snoc {A : Type} (m : M A) (w : world Env) (t : list (ext_call * reply)) :
  trace (m w).2 = trace w ++ t -> issued m w = t.
Proof. intros H. unfold issued. rewrite H. apply drop_app_length. Qed.

Lemma graph_deref_run (p : Z) (s : shared_obj graph_impl) (w : world Env) :
  graph_heap w !! p = Some s -> graph_deref p w = (Ok (pointee s), w).
Proof. intros H. unfold graph_deref. rewrite H. reflexivity. Qed.

Lemma profiling_deref_run (p : Z) (s : shared_obj profiling_impl) (w : world Env) :
  profiling_heap w !! p = Some s -> profiling_deref p w = (Ok (pointee s), w).
Proof. intros H. unfold profiling_deref. rewrite H. reflexivity. Qed.

Lemma graph_impl_dtor_run (o : graph_impl) (w : world Env) :
  graph_impl_dtor o w =
  (match answer (ext_device (g_device o) (op_close_graph (g_handle o))) w with
   | Normal _ => Ok tt
   | Raise _ => Abort
   end,
   answered (ext_device (g_device o) (op_close_graph (g_handle o))) w).
Proof.
  unfold graph_impl_dtor, noexcept, device_call.
  rewrite bind_run, ext_run.
  destruct (answer _ w); reflexivity.
Qed.

Lemma graph_ptr_release_last (p : Z) (o : graph_impl) (w : world Env) :
  graph_heap w !! p = Some (Shared o 1) ->
  graph_ptr_release p w =
  graph_impl_dtor o (set_graph_heap (delete p (graph_heap w)) w).
Proof. intros H. unfold graph_ptr_release. rewrite H. reflexivity. Qed.

Lemma profiling_ptr_release_last (p : Z) (o : profiling_impl) (w : world Env) :
  profiling_heap w !! p = Some (Shared o 1) ->
  profiling_ptr_release p w =
  (Ok tt, answered (ext_device (p_device o) (op_stop_profiling (profiling_hdl o)))
                   (set_profiling_heap (delete p (profiling_heap w)) w)).
Proof.
  intros H. unfold profiling_ptr_release. rewrite H.
  apply profiling_impl_dtor_run.
Qed.

Lemma xrtAIEStartProfiling_bad_option_run
    (handle option : Z) (port1Name port2Name : string) (value : Z) (w : world Env) :
  option < 0 \/ option > 3 ->
  xrtAIEStartProfiling handle option port1Name port2Name value w =
  match answer (ext_get_core_device handle) w with
  | Raise e => (Ok (-1), reported e (answered (ext_get_core_device handle) w))
  | Normal d =>
      (Ok (-1),
       reported (xrt_core_error (- EINVAL) "Not a valid profiling option")
         (answered (ext_device d (op_stop_profiling invalid_handle))
            (set_profiling_heap
               (delete (alloc (live (answered (ext_get_core_device handle) w)))
                  (profiling_heap w))
               (answered (ext_get_core_device handle) w))))
  end.
Proof.
  intros Hopt. unfold xrtAIEStartProfiling. rewrite catch_and_report_run.
  unfold xrtAIEStartProfiling_try, create_profiling_event, get_core_device.
  rewrite !bind_run, ext_run.
  destruct (answer (ext_get_core_device handle) w) as [d|e] eqn:E; [|reflexivity].
  unfold make_shared_profiling_impl, scope_exit.
  destruct (decide (option < 0 ∨ option > 3)) as [_|Hn]; [|contradiction].
  unfold throw.
  erewrite profiling_ptr_release_last by (simpl; apply lookup_insert_eq).
  simpl. rewrite delete_insert_eq. reflexivity.
Qed.

Lemma profiling_start_run
    (this : Z) (s : shared_obj profiling_impl) (option : Z) (port1_name port2_name : string)
    (value : Z) (w : world Env) :
  profiling_heap w !! this = Some s ->
  issued (profiling_start this option port1_name port2_name value) w =
  [(ext_device (p_device (pointee s)) (op_start_profiling option port1_name port2_name value),
    answer (ext_device (p_device (pointee s))
              (op_start_profiling option port1_name port2_name value)) w)].
Proof.
  intros Hs. apply issued_snoc.
  unfold profiling_start, profiling_wrapper, profiling_impl_start_profiling, device_call.
  rewrite bind_run, (profiling_deref_run _ _ _ Hs), bind_run, ext_run.
  destruct (answer _ w) eqn:E; [|simpl; rewrite E; reflexivity].
  rewrite bind_run. unfold set_profiling_hdl. simpl. rewrite Hs. simpl.
  rewrite E. reflexivity.
Qed.

(** ** What open, close, start and stop do to the registries *)

Lemma bind_ok_inv {A B : Type} (m : M A) (k : A -> M B) (w w2 : world Env) (b : B) :
  (m ≫= k) w = (Ok b, w2) -> exists a w1, m w = (Ok a, w1) /\ k a w1 = (Ok b, w2).
Proof.
  rewrite bind_run. destruct (m w) as [[a|e|] w1]; try discriminate 1.
  intros H. exists a, w1. auto.
Qed.

Lemma fmap_ok_inv {A B : Type} (f : A -> B) (m : M A) (w w1 : world Env) (b : B) :
  (f <$> m) w = (Ok b, w1) -> exists a, m w = (Ok a, w1) /\ b = f a.
Proof.
  rewrite fmap_run. destruct (m w) as [[a|e|] w0]; try discriminate 1.
  intros H. injection H as <- <-. exists a. auto.
Qed.

Lemma scope_exit_ok_inv {A : Type} (body : M A) (cleanup : M unit)
    (w w2 : world Env) (a : A) :
  scope_exit body cleanup w = (Ok a, w2) ->
  exists w1, body w = (Ok a, w1) /\ cleanup w1 = (Ok tt, w2).
Proof.
  unfold scope_exit. destruct (body w) as [[a0|e|] w1]; try discriminate 1;
    destruct (cleanup w1) as [[[]|e'|] w3] eqn:Hc; try discriminate 1.
  intros H. injection H as <- <-. exists w1. auto.
Qed.

Lemma mret_ok_inv {A : Type} (a b : A) (w w1 : world Env) :
  (mret a : M A) w = (Ok b, w1) -> a = b /\ w = w1.
Proof. intros H. injection H as <- <-. auto. Qed.

Lemma kept {A X : Type} (π : world Env -> X) (m : M A) (w w1 : world Env) (r : outcome A) :
  keeps π m -> m w = (r, w1) -> π w1 = π w.
Proof. intros K H. specialize (K w). rewrite H in K. exact K. Qed.

Lemma keeps_registries_graph_ptr_copy (p : Z) : keeps registries (graph_ptr_copy p).
Proof. apply keeps_graph_ptr_copy; intros; reflexivity. Qed.

Lemma keeps_registries_graph_ptr_release (p : Z) : keeps registries (graph_ptr_release p).
Proof. apply (keeps_graph_ptr_release registries (fun _ => true)); intros; reflexivity. Qed.

Lemma keeps_registries_profiling_ptr_copy (p : Z) : keeps registries (profiling_ptr_copy p).
Proof. apply keeps_profiling_ptr_copy; intros; reflexivity. Qed.

Lemma keeps_registries_profiling_ptr_release (p : Z) :
  keeps registries (profiling_ptr_release p).
Proof. apply (keeps_profiling_ptr_release registries (fun _ => true)); intros; reflexivity. Qed.

Lemma keeps_registries_open_graph (dhdl u : Z) (name : string) (am : access_mode) :
  keeps registries (open_graph dhdl u name am).
Proof. apply (keeps_open_graph registries (fun _ => true)); intros; reflexivity. Qed.

Lemma keeps_registries_create_profiling_event (dhdl : Z) :
  keeps registries (create_profiling_event dhdl).
Proof. apply (keeps_create_profiling_event registries (fun _ => true)); intros; reflexivity. Qed.

Lemma keeps_registries_start_profiling (this option : Z) (p1 p2 : string) (value : Z) :
  keeps registries (profiling_impl_start_profiling this option p1 p2 value).
Proof.
  apply (keeps_profiling_impl_start_profiling registries (fun _ => true));
    intros; reflexivity.
Qed.

Lemma keeps_registries_stop_profiling (this : Z) :
  keeps registries (profiling_impl_stop_profiling this).
Proof.
  apply (keeps_profiling_impl_stop_profiling registries (fun _ => true));
    intros; reflexivity.
Qed.

Ltac inv_ok :=
  repeat match goal with
    | H : (_ ≫= _) _ = (Ok _, _) |- _ =>
        let a := fresh "a" in let w := fresh "w" in let H1 := fresh "H" in
        apply bind_ok_inv in H as (a & w & H1 & H)
    | H : scope_exit _ _ _ = (Ok _, _) |- _ =>
        let w := fresh "w" in let H1 := fresh "H" in
        apply scope_exit_ok_inv in H as (w & H1 & H)
    | H : (_ <$> _) _ = (Ok _, _) |- _ =>
        let a := fresh "a" in let H1 := fresh "H" in
        apply fmap_ok_inv in H as (a & H & H1)
    | H : mret _ _ = (Ok _, _) |- _ => apply mret_ok_inv in H as [? ?]; subst
    | H : throw _ _ = (Ok _, _) |- _ => discriminate H
    end.

Lemma graph_cache_assign_ok (key p : Z) (w w1 : world Env) (u : unit) :
  graph_cache_assign key p w = (Ok u, w1) ->
  registries w1 = (<[key := p]> (graph_cache w), profiling_cache w).
Proof.
  unfold graph_cache_assign. intros H. inv_ok.
  apply (kept registries) in H0; [|apply keeps_registries_graph_ptr_copy].
  unfold graph_cache_store in H1. injection H1 as _ <-.
  assert (Hr : registries w1 =
               registries (set_graph_cache (<[key:=p]> (graph_cache w0)) w0)).
  { destruct (graph_cache w !! key).
    - eapply kept; [apply keeps_registries_graph_ptr_release | exact H].
    - inv_ok. reflexivity. }
  rewrite Hr. unfold registries in *. simpl. congruence.
Qed.

Lemma profiling_cache_assign_ok (key p : Z) (w w1 : world Env) (u : unit) :
  profiling_cache_assign key p w = (Ok u, w1) ->
  registries w1 = (graph_cache w, <[key := p]> (profiling_cache w)).
Proof.
  unfold profiling_cache_assign. intros H. inv_ok.
  apply (kept registries) in H0; [|apply keeps_registries_profiling_ptr_copy].
  unfold profiling_cache_store in H1. injection H1 as _ <-.
  assert (Hr : registries w1 =
               registries (set_profiling_cache (<[key:=p]> (profiling_cache w0)) w0)).
  { destruct (profiling_cache w !! key).
    - eapply kept; [apply keeps_registries_profiling_ptr_release | exact H].
    - inv_ok. reflexivity. }
  rewrite Hr. unfold registries in *. simpl. congruence.
Qed.

Lemma open_scope_registries
    (dhdl u : Z) (name : string) (am : access_mode) (w w1 : world Env) (h : Z) :
  (hdl ← open_graph dhdl u name am;
   scope_exit (graph_cache_assign hdl hdl;; mret hdl) (graph_ptr_release hdl)) w
  = (Ok h, w1) ->
  registries w1 = (<[h := h]> (graph_cache w), profiling_cache w).
Proof.
  intros H. inv_ok.
  apply (kept registries) in H0; [|apply keeps_registries_open_graph].
  apply (kept registries) in H; [|apply keeps_registries_graph_ptr_release].
  apply graph_cache_assign_ok in H2.
  rewrite H, H2. unfold registries in *. congruence.
Qed.

Lemma graph_open_registries (c : capi_call) (w w1 : world Env) (v : retval) :
  is_graph_open c = true ->
  capi_try c w = (Ok v, w1) ->
  exists h, v = RHandle h /\
            registries w1 = (<[h := h]> (graph_cache w), profiling_cache w).
Proof.
  intros Hc H.
  destruct c; try discriminate Hc; simpl in H;
    apply fmap_ok_inv in H as (h & H & ->); exists h; (split; [reflexivity|]).
  - apply (open_scope_registries dev_handle xclbin_uuid graph_name primary). exact H.
  - apply (open_scope_registries dev_handle xclbin_uuid graph_name exclusive). exact H.
  - apply (open_scope_registries dev_handle xclbin_uuid graph_name shared). exact H.
Qed.

Lemma graph_cache_erase_run (hdl : Z) (w : world Env) :
  graph_cache_erase hdl w =
  match graph_cache w !! hdl with
  | Some p =>
      (graph_ptr_release p;; mret 1%nat) (set_graph_cache (delete hdl (graph_cache w)) w)
  | None => (Ok 0%nat, w)
  end.
Proof. reflexivity. Qed.

(** Closing a handle that is not registered: the generic failure. *)
Lemma xrtGraphClose_try_absent (hdl : Z) (w : world Env) :
  graph_cache w !! hdl = None ->
  xrtGraphClose_try hdl w = (Throw (StdException "Unexpected internal error"), w).
Proof.
  intros H. unfold xrtGraphClose_try, close_graph.
  rewrite bind_run, graph_cache_erase_run, H. reflexivity.
Qed.

(** Closing a registered handle: the entry goes, however the call ends. *)
Lemma xrtGraphClose_try_present (hdl p : Z) (w : world Env) :
  graph_cache w !! hdl = Some p ->
  registries (xrtGraphClose_try hdl w).2 = (delete hdl (graph_cache w), profiling_cache w) /\
  forall e, (xrtGraphClose_try hdl w).1 <> Throw e.
Proof.
  intros H. unfold xrtGraphClose_try, close_graph.
  rewrite bind_run, graph_cache_erase_run, H, bind_run.
  pose proof (keeps_registries_graph_ptr_release p
                (set_graph_cache (delete hdl (graph_cache w)) w)) as K.
  assert (Hn : forall e, (graph_ptr_release p
                 (set_graph_cache (delete hdl (graph_cache w)) w)).1 <> Throw e).
  { intros e. unfold graph_ptr_release. simpl.
    destruct (graph_heap w !! p) as [[o [|[|n]]]|]; simpl; try discriminate;
      rewrite graph_impl_dtor_run; simpl; destruct (answer _ _); discriminate. }
  destruct (graph_ptr_release p _) as [[[]|e|] w1]; simpl in *.
  - split; [exact K | discriminate].
  - exfalso. exact (Hn e eq_refl).
  - split; [exact K | discriminate].
Qed.

Ltac kept_registries :=
  repeat match goal with
    | H : create_profiling_event _ _ = _ |- _ =>
        apply (kept registries) in H; [|apply keeps_registries_create_profiling_event]
    | H : profiling_impl_start_profiling _ _ _ _ _ _ = _ |- _ =>
        apply (kept registries) in H; [|apply keeps_registries_start_profiling]
    | H : profiling_impl_stop_profiling _ _ = _ |- _ =>
        apply (kept registries) in H; [|apply keeps_registries_stop_profiling]
    | H : profiling_ptr_release _ _ = _ |- _ =>
        apply (kept registries) in H; [|apply keeps_registries_profiling_ptr_release]
    | H : graph_ptr_release _ _ = _ |- _ =>
        apply (kept registries) in H; [|apply keeps_registries_graph_ptr_release]
    | H : profiling_cache_assign _ _ _ = _ |- _ => apply profiling_cache_assign_ok in H
    end.

Lemma start_profiling_registries
    (handle option : Z) (p1 p2 : string) (value : Z) (w w1 : world Env) (hdl : Z) :
  xrtAIEStartProfiling_try handle option p1 p2 value w = (Ok hdl, w1) ->
  exists p, registries w1 = (graph_cache w, <[hdl := p]> (profiling_cache w)).
Proof.
  unfold xrtAIEStartProfiling_try. intros H. inv_ok.
  destruct (decide (option < 0 ∨ option > 3)); inv_ok.
  match goal with H : context [decide (?x ≠ invalid_handle)] |- _ =>
    destruct (decide (x ≠ invalid_handle)) end; inv_ok.
  match goal with H : create_profiling_event _ _ = (Ok ?p, _) |- _ => exists p end.
  kept_registries. unfold registries in *. congruence.
Qed.

Lemma stop_profiling_registries (pHandle : Z) (w w1 : world Env) (u : unit) :
  xrtAIEStopProfiling_try pHandle w = (Ok u, w1) ->
  is_Some (profiling_cache w !! pHandle) /\
  registries w1 = (graph_cache w, delete pHandle (profiling_cache w)).
Proof.
  unfold xrtAIEStopProfiling_try. intros H. inv_ok.
  match goal with H : profiling_cache_find _ _ = _ |- _ =>
    unfold profiling_cache_find in H; injection H as <- <- end.
  destruct (profiling_cache w !! pHandle) as [p|] eqn:Hp; inv_ok.
  split; [eauto|].
  match goal with H : profiling_cache_erase _ ?w0 = _ |- _ =>
    assert (Hp0 : profiling_cache w0 !! pHandle = Some p);
    [ kept_registries; unfold registries in *; congruence
    | unfold profiling_cache_erase in H; rewrite Hp0 in H ] end.
  inv_ok. kept_registries. unfold registries in *. simpl in *. congruence.
Qed.

Lemma graph_close_registries (hdl : Z) (w w1 : world Env) (u : unit) :
  xrtGraphClose_try hdl w = (Ok u, w1) ->
  is_Some (graph_cache w !! hdl) /\
  registries w1 = (delete hdl (graph_cache w), profiling_cache w).
Proof.
  intros H. destruct (graph_cache w !! hdl) as [p|] eqn:Hp.
  - split; [eauto|].
    destruct (xrtGraphClose_try_present hdl p w Hp) as [Hr _].
    rewrite H in Hr. exact Hr.
  - rewrite (xrtGraphClose_try_absent hdl w Hp) in H. discriminate H.
Qed.

Lemma keeps_registries_capi_try (c : capi_call) :
  mutates_registry c = false -> keeps registries (capi_try c).
Proof.
  intros Hc.
  apply (keeps_capi_try_other registries (fun _ => true)); try (intros; reflexivity).
  exact Hc.
Qed.

(** ** The life of a graph object on the C surface *)

Lemma world_eta (w : world Env) :
  w = World (env w) (trace w) (graph_heap w) (profiling_heap w) (graph_cache w)
            (profiling_cache w) (errno w) (message_log w).
Proof. destruct w; reflexivity. Qed.

Lemma graph_method_lifecycle (c : capi_call) (h d g : Z) (op : Z -> device_op) :
  graph_method_op c = Some (h, op) -> is_graph_lifecycle (ext_device d (op g)) = false.
Proof. destruct c; try discriminate 1; intros H; injection H as _ <-; reflexivity. Qed.

(** A block of the shape every graph entry point has, run on a registered
    handle whose object is alive: the pointer is copied, the device is
    called once, the copy is dropped. *)
Lemma graph_scope_run {A : Type} (h p : Z) (o : graph_impl) (n : nat)
    (op : device_op) (f : Z -> A) (body : Z -> M A) (w : world Env) :
  graph_cache w !! h = Some p ->
  graph_heap w !! p = Some (Shared o (S n)) ->
  (forall w', graph_heap w' !! p = Some (Shared o (S (S n))) ->
     body p w' = (match answer (ext_device (g_device o) op) w' with
                  | Normal v => Ok (f v)
                  | Raise e => Throw e
                  end, answered (ext_device (g_device o) op) w')) ->
  (hdl ← get_graph_hdl h; scope_exit (body hdl) (graph_ptr_release hdl)) w =
  (match answer (ext_device (g_device o) op) w with
   | Normal v => Ok (f v)
   | Raise e => Throw e
   end, answered (ext_device (g_device o) op) w).
Proof.
  intros Hc Hh Hbody.
  rewrite bind_run. unfold get_graph_hdl. rewrite Hc.
  rewrite bind_run. unfold graph_ptr_copy. rewrite Hh. simpl.
  unfold scope_exit. rewrite Hbody by (simpl; apply lookup_insert_eq).
  unfold graph_ptr_release. simpl. rewrite lookup_insert_eq.
  rewrite insert_insert_eq, (insert_id _ _ _ Hh).
  unfold answer, answered. simpl.
  destruct (respond (ext_device (g_device o) op) (env w)) as [[v|e] e']; simpl;
    rewrite (world_eta w) at 1; reflexivity.
Qed.

Lemma graph_method_run (c : capi_call) (h : Z) (op : Z -> device_op)
    (p : Z) (o : graph_impl) (n : nat) (w : world Env) :
  graph_method_op c = Some (h, op) ->
  graph_cache w !! h = Some p ->
  graph_heap w !! p = Some (Shared o (S n)) ->
  (capi_try c w).2 = answered (ext_device (g_device o) (op (g_handle o))) w.
Proof.
  intros Hop Hc Hh.
  destruct c; try discriminate Hop; injection Hop as -> <-; simpl;
    rewrite fmap_run; unfold_try_blocks.
  all: match goal with
       | |- context [scope_exit (_;; mret 0)] =>
           erewrite (graph_scope_run _ _ _ _ _ (fun _ => 0) _ _ Hc Hh)
       | |- _ =>
           erewrite (graph_scope_run _ _ _ _ _ (fun v => v) _ _ Hc Hh)
       end.
  all: try (destruct (answer _ w); reflexivity).
  all: intros w' Hw'; unfold_helpers;
    repeat (rewrite ?bind_run, ?(graph_deref_run _ _ _ Hw'), ?ext_run; simpl);
    destruct (answer _ w'); reflexivity.
Qed.

Lemma graph_method_absent (c : capi_call) (h : Z) (op : Z -> device_op) (w : world Env) :
  graph_method_op c = Some (h, op) ->
  graph_cache w !! h = None ->
  (capi_try c w).2 = w.
Proof.
  intros Hop Hc.
  destruct c; try discriminate Hop; injection Hop as -> _; simpl;
    rewrite fmap_run; unfold_try_blocks;
    rewrite bind_run; unfold get_graph_hdl; rewrite Hc; reflexivity.
Qed.

Hypothesis alloc_fresh : forall live : gset Z, alloc live ∉ live.

Lemma fresh_not_registered (w : world Env) :
  graph_registry_sound w -> graph_cache w !! alloc (live w) = None.
Proof.
  intros Hs. destruct (graph_cache w !! alloc (live w)) as [q|] eqn:Hq; [|reflexivity].
  destruct (Hs _ _ Hq) as [<- [o Ho]].
  exfalso. apply (alloc_fresh (live w)). unfold live.
  apply elem_of_union_l, elem_of_dom. eauto.
Qed.

Lemma fresh_not_live (w : world Env) : graph_heap w !! alloc (live w) = None.
Proof.
  apply not_elem_of_dom. intros Hin.
  apply (alloc_fresh (live w)). unfold live. apply elem_of_union_l, Hin.
Qed.

Lemma graph_ptr_copy_run (p : Z) (s : shared_obj graph_impl) (w : world Env) :
  graph_heap w !! p = Some s ->
  graph_ptr_copy p w =
  (Ok tt, set_graph_heap (<[p := Shared (pointee s) (S (use_count s))]> (graph_heap w)) w).
Proof. intros H. unfold graph_ptr_copy. rewrite H. reflexivity. Qed.

Lemma graph_ptr_release_more (p : Z) (o : graph_impl) (n : nat) (w : world Env) :
  graph_heap w !! p = Some (Shared o (S (S n))) ->
  graph_ptr_release p w =
  (Ok tt, set_graph_heap (<[p := Shared o (S n)]> (graph_heap w)) w).
Proof. intros H. unfold graph_ptr_release. rewrite H. reflexivity. Qed.

Lemma graph_cache_assign_fresh (key p : Z) (s : shared_obj graph_impl) (w : world Env) :
  graph_cache w !! key = None ->
  graph_heap w !! p = Some s ->
  graph_cache_assign key p w =
  (Ok tt,
   set_graph_cache (<[key := p]> (graph_cache w))
     (set_graph_heap (<[p := Shared (pointee s) (S (use_count s))]> (graph_heap w)) w)).
Proof.
  intros Hk Hp. unfold graph_cache_assign. rewrite Hk.
  rewrite bind_run, (graph_ptr_copy_run _ _ _ Hp). reflexivity.
Qed.

(** The state a graph open leaves, on a sound registry. *)
Lemma open_scope_run (dhdl u : Z) (name : string) (am : access_mode) (w : world Env) :
  graph_registry_sound w ->
  ((hdl ← open_graph dhdl u name am;
    scope_exit (graph_cache_assign hdl hdl;; mret hdl) (graph_ptr_release hdl)) w).2 =
  let w1 := answered (ext_get_core_device dhdl) w in
  match answer (ext_get_core_device dhdl) w with
  | Raise _ => w1
  | Normal d =>
      let w2 := answered (ext_device d (op_open_graph u name am)) w1 in
      match answer (ext_device d (op_open_graph u name am)) w1 with
      | Raise _ => w2
      | Normal g =>
          set_graph_cache (<[alloc (live w) := alloc (live w)]> (graph_cache w))
            (set_graph_heap
               (<[alloc (live w) := Shared (Build_graph_impl d g) 1]> (graph_heap w)) w2)
      end
  end.
Proof.
  intros Hs. pose proof (fresh_not_registered w Hs) as Hfresh.
  unfold open_graph, get_core_device, device_call.
  rewrite !bind_run, ext_run.
  destruct (answer (ext_get_core_device dhdl) w) as [d|e]; [|reflexivity].
  cbn beta iota zeta. rewrite bind_run, ext_run.
  destruct (answer (ext_device d _) _) as [g|e]; [|reflexivity].
  cbn beta iota zeta. unfold make_shared_graph_impl.
  change (live (answered (ext_device d (op_open_graph u name am))
                  (answered (ext_get_core_device dhdl) w))) with (live w).
  change (graph_heap (answered (ext_device d (op_open_graph u name am))
                        (answered (ext_get_core_device dhdl) w))) with (graph_heap w).
  set (p := alloc (live w)) in *.
  set (w2 := answered (ext_device d (op_open_graph u name am))
               (answered (ext_get_core_device dhdl) w)).
  assert (Hc2 : graph_cache w2 = graph_cache w) by reflexivity.
  clearbody w2.
  set (o := Build_graph_impl d g).
  set (w3 := set_graph_heap (<[p := Shared o 1]> (graph_heap w)) w2).
  assert (H3 : graph_heap w3 !! p = Some (Shared o 1)) by apply lookup_insert_eq.
  assert (Hc3 : graph_cache w3 !! p = None) by (simpl; rewrite Hc2; exact Hfresh).
  unfold scope_exit.
  rewrite bind_run, (graph_cache_assign_fresh p p _ w3 Hc3 H3).
  cbn beta iota zeta. unfold mret at 1, M_ret at 1. cbn beta iota zeta.
  erewrite graph_ptr_release_more by (simpl; apply lookup_insert_eq).
  cbn [snd]. destruct w2. subst w3. simpl in *. rewrite !insert_insert_eq, Hc2.
  reflexivity.
Qed.

(** The state a graph close leaves, on a sound registry. *)
Lemma close_run (h p : Z) (w : world Env) :
  graph_registry_sound w ->
  graph_cache w !! h = Some p ->
  exists o,
    p = h /\ graph_heap w !! h = Some (Shared o 1) /\
    (xrtGraphClose_try h w).2 =
    answered (ext_device (g_device o) (op_close_graph (g_handle o)))
      (set_graph_heap (delete h (graph_heap w))
         (set_graph_cache (delete h (graph_cache w)) w)).
Proof.
  intros Hs Hc. destruct (Hs _ _ Hc) as [<- [o Ho]].
  exists o. repeat split; trivial.
  unfold xrtGraphClose_try, close_graph.
  rewrite bind_run, graph_cache_erase_run, Hc, bind_run.
  rewrite (graph_ptr_release_last h o) by exact Ho.
  rewrite graph_impl_dtor_run.
  destruct (answer _ _); reflexivity.
Qed.

Lemma opened_handles_app (t : list (ext_call * reply)) (c : ext_call) (r : reply) :
  opened_handles (t ++ [(c, r)]) =
  opened_handles t ++
  match c, r with
  | ext_device d (op_open_graph _ _ _), Normal h => [(d, h)]
  | _, _ => []
  end.
Proof.
  unfold opened_handles. rewrite omap_app. f_equal.
  destruct c as [| | | |d []]; try reflexivity. destruct r; reflexivity.
Qed.

Lemma closed_handles_app (t : list (ext_call * reply)) (c : ext_call) (r : reply) :
  closed_handles (t ++ [(c, r)]) =
  closed_handles t ++
  match c with
  | ext_device d (op_close_graph h) => [(d, h)]
  | _ => []
  end.
Proof.
  unfold closed_handles. rewrite omap_app. f_equal.
  destruct c as [| | | |d []]; reflexivity.
Qed.

Lemma graph_ledger_reported (e : exn) (w : world Env) :
  graph_ledger (reported e w) = graph_ledger w.
Proof. destruct e; reflexivity. Qed.

Lemma graph_ledger_answered (c : ext_call) (w : world Env) :
  is_graph_lifecycle c = false -> graph_ledger (answered c w) = graph_ledger w.
Proof.
  intros Hc. unfold graph_ledger. simpl.
  rewrite opened_handles_snoc, closed_handles_snoc by exact Hc. reflexivity.
Qed.

Lemma graph_ledger_open_failed (d u : Z) (name : string) (am : access_mode)
    (e : exn) (w : world Env) :
  answer (ext_device d (op_open_graph u name am)) w = Raise e ->
  graph_ledger (answered (ext_device d (op_open_graph u name am)) w) = graph_ledger w.
Proof.
  intros Ha. unfold graph_ledger. simpl.
  rewrite opened_handles_app, closed_handles_app, Ha, !app_nil_r. reflexivity.
Qed.

Lemma graph_inv_ledger (w w' : world Env) :
  graph_ledger w' = graph_ledger w -> graph_inv w -> graph_inv w'.
Proof.
  unfold graph_ledger. intros H. injection H as Hh Hc Ho Hcl.
  unfold graph_inv, graph_registry_sound, graph_heap_registered, ledger_balanced,
    live_graph_handles.
  rewrite Hh, Hc, Ho, Hcl. auto.
Qed.

Lemma graph_inv_initial (e : Env) : graph_inv (initial_world e).
Proof.
  split; [|split].
  - intros k p H. simpl in H. rewrite lookup_empty in H. discriminate H.
  - intros p s H. simpl in H. rewrite lookup_empty in H. discriminate H.
  - unfold ledger_balanced, live_graph_handles. simpl.
    rewrite map_to_list_empty. reflexivity.
Qed.

Lemma capi_snd (c : capi_call) (w : world Env) :
  (capi c w).2 =
  match (capi_try c w).1 with
  | Throw e => reported e (capi_try c w).2
  | _ => (capi_try c w).2
  end.
Proof.
  rewrite capi_boundary. destruct (capi_try c w) as [[v|e|] w1]; reflexivity.
Qed.

Lemma fmap_snd {A B : Type} (f : A -> B) (m : M A) (w : world Env) :
  ((f <$> m) w).2 = (m w).2.
Proof. rewrite fmap_run. destruct (m w) as [[a|e|] w1]; reflexivity. Qed.

(** A graph open keeps the invariant. *)
Lemma graph_inv_open (dhdl u : Z) (name : string) (am : access_mode) (w : world Env) :
  graph_inv w ->
  graph_inv ((hdl ← open_graph dhdl u name am;
              scope_exit (graph_cache_assign hdl hdl;; mret hdl)
                         (graph_ptr_release hdl)) w).2.
Proof.
  intros Hinv. pose proof Hinv as (Hs & Hr & Hb).
  rewrite (open_scope_run _ _ _ _ _ Hs). cbn zeta.
  destruct (answer (ext_get_core_device dhdl) w) as [d|e] eqn:E1.
  2:{ eapply graph_inv_ledger; [|exact Hinv]. apply graph_ledger_answered. reflexivity. }
  destruct (answer (ext_device d _) _) as [g|e] eqn:E2.
  2:{ eapply graph_inv_ledger; [|exact Hinv].
      rewrite (graph_ledger_open_failed _ _ _ _ _ _ E2).
      apply graph_ledger_answered. reflexivity. }
  pose proof (fresh_not_live w) as Hfresh.
  set (p := alloc (live w)) in *.
  split; [|split].
  - intros k q H. simpl in *. destruct (decide (k = p)) as [->|Hne].
    + rewrite lookup_insert_eq in H. injection H as <-.
      rewrite lookup_insert_eq. eauto.
    + rewrite lookup_insert_ne in H by congruence.
      destruct (Hs _ _ H) as [<- [o Ho]].
      rewrite lookup_insert_ne by congruence. eauto.
  - intros q s H. simpl in *. destruct (decide (q = p)) as [->|Hne].
    + apply lookup_insert_eq.
    + rewrite lookup_insert_ne in H by congruence.
      rewrite lookup_insert_ne by congruence. apply (Hr _ _ H).
  - unfold ledger_balanced, live_graph_handles in *. simpl.
    rewrite !opened_handles_app, !closed_handles_app, E2. simpl.
    rewrite !app_nil_r.
    rewrite (map_to_list_insert _ _ _ Hfresh). simpl.
    rewrite <- Permutation_middle, <- Permutation_cons_append.
    constructor. exact Hb.
Qed.

(** A graph close keeps the invariant. *)
Lemma graph_inv_close (h : Z) (w : world Env) :
  graph_inv w -> graph_inv (xrtGraphClose_try h w).2.
Proof.
  intros Hinv. pose proof Hinv as (Hs & Hr & Hb).
  destruct (graph_cache w !! h) as [p|] eqn:Hc.
  2:{ rewrite (xrtGraphClose_try_absent _ _ Hc). exact Hinv. }
  destruct (close_run h p w Hs Hc) as (o & -> & Ho & ->).
  split; [|split].
  - intros k q H. simpl in *. apply lookup_delete_Some in H as [Hne H].
    destruct (Hs _ _ H) as [<- [o' Ho']].
    split; [reflexivity|].
    exists o'. rewrite lookup_delete_ne by congruence. exact Ho'.
  - intros q s H. simpl in *. apply lookup_delete_Some in H as [Hne H].
    rewrite lookup_delete_ne by congruence. apply (Hr _ _ H).
  - unfold ledger_balanced, live_graph_handles in *. simpl.
    rewrite opened_handles_app, closed_handles_app. simpl. rewrite app_nil_r.
    rewrite <- Hb, <- (map_to_list_delete _ _ _ Ho). simpl.
    rewrite <- app_assoc. reflexivity.
Qed.

Lemma keeps_graph_ledger_capi_try (c : capi_call) :
  touches_graphs c = false -> keeps graph_ledger (capi_try c).
Proof.
  intros Hc.
  apply (keeps_capi_try_nongraph graph_ledger (fun c => negb (is_graph_lifecycle c)));
    try (intros; reflexivity); [| | exact Hc].
  - intros c0 r w H0. apply negb_true_iff in H0. unfold graph_ledger. simpl.
    rewrite opened_handles_snoc, closed_handles_snoc by exact H0. reflexivity.
  - intros c0 H0. rewrite H0. reflexivity.
Qed.

Lemma graph_inv_try (c : capi_call) (w : world Env) :
  graph_inv w -> graph_inv (capi_try c w).2.
Proof.
  intros Hinv.
  destruct (touches_graphs c) eqn:Ht.
  2:{ eapply graph_inv_ledger; [|exact Hinv]. apply keeps_graph_ledger_capi_try, Ht. }
  destruct (graph_method_op c) as [[h op]|] eqn:Hop.
  - destruct (graph_cache w !! h) as [p|] eqn:Hc.
    + destruct (proj1 Hinv _ _ Hc) as [<- [o Ho]].
      rewrite (graph_method_run c h op h o 0 w Hop Hc Ho).
      eapply graph_inv_ledger; [|exact Hinv].
      apply graph_ledger_answered. eapply graph_method_lifecycle, Hop.
    + rewrite (graph_method_absent c h op w Hop Hc). exact Hinv.
  - destruct c; try discriminate Ht; try discriminate Hop; simpl; rewrite fmap_snd.
    + apply graph_inv_open, Hinv.
    + apply graph_inv_open, Hinv.
    + apply graph_inv_open, Hinv.
    + apply graph_inv_close, Hinv.
Qed.

Lemma graph_inv_step (c : capi_call) (w : world Env) :
  graph_inv w -> graph_inv (capi c w).2.
Proof.
  intros Hinv. rewrite capi_snd.
  pose proof (graph_inv_try c w Hinv) as Ht.
  destruct (capi_try c w).1; try exact Ht.
  eapply graph_inv_ledger; [apply graph_ledger_reported | exact Ht].
Qed.

Lemma graph_inv_run (cs : list capi_call) (w : world Env) :
  graph_inv w -> graph_inv (run_calls cs w).
Proof.
  revert w. induction cs as [|c cs IH]; intros w Hinv; simpl; [exact Hinv|].
  pose proof (graph_inv_step c w Hinv) as Hstep.
  destruct (capi c w) as [[v|e|] w1]; simpl in Hstep; auto.
Qed.

Lemma xrtGraphClose_present_run (h p : Z) (w : world Env) :
  graph_registry_sound w ->
  graph_cache w !! h = Some p ->
  exists o,
    p = h /\ graph_heap w !! h = Some (Shared o 1) /\
    (xrtGraphClose h w).2 =
    answered (ext_device (g_device o) (op_close_graph (g_handle o)))
      (set_graph_heap (delete h (graph_heap w))
         (set_graph_cache (delete h (graph_cache w)) w)).
Proof.
  intros Hs Hc.
  destruct (close_run h p w Hs Hc) as (o & -> & Ho & Hrun).
  exists o. repeat split; trivial.
  destruct (xrtGraphClose_try_present h h w Hc) as [_ Hn].
  unfold xrtGraphClose. rewrite catch_and_report_run.
  destruct (xrtGraphClose_try h w) as [[[]|e|] w1]; simpl in *;
    [exact Hrun | exfalso; exact (Hn e eq_refl) | exact Hrun].
Qed.

(** ** The claims *)

(** C1 (amended). At every C entry point, a failure that leaves the [try]
    block -- a structured error or a generic exception, from the device or
    from a registry lookup -- is caught at the boundary: one line with its
    message is logged, the failure value is returned, and no exception ever
    reaches the caller. A block that returns logs nothing. A failure of the
    [stop_profiling] call made by the destructor of a profiling object does
    not leave the destructor and is not logged. *)
Theorem capi_failure_caught_and_logged (c : capi_call) (w : world Env) :
  no_exception (capi c w).1 /\
  match capi_try c w with
  | (Throw e, w1) =>
      capi c w = (Ok (sentinel c), reported e w1) /\
      logged (capi c) w = [Message severity_error "XRT" (exn_what e)]
  | (Ok v, w1) => capi c w = (Ok v, w1) /\ logged (capi c) w = []
  | (Abort, w1) => capi c w = (Abort, w1)
  end /\
  forall (o : profiling_impl) (w' : world Env),
    (profiling_impl_dtor o w').1 = Ok tt /\ logged (profiling_impl_dtor o) w' = [].
Proof.
  split; [|split].
  - rewrite capi_boundary. destruct (capi_try c w) as [[v|e|] w1]; exact I.
  - pose proof (keeps_diagnostics_capi_try c w) as Hd.
    unfold logged. rewrite capi_boundary.
    destruct (capi_try c w) as [[v|e|] w1]; simpl in *; injection Hd as _ Hlog.
    + split; [reflexivity|]. rewrite Hlog. apply drop_all.
    + split; [reflexivity|]. apply (logged_reported c). exact Hlog.
    + reflexivity.
  - intros o w'. unfold logged. rewrite profiling_impl_dtor_run.
    split; [reflexivity | apply drop_all].
Qed.

(** C3 (amended). On a live graph object, the timeout-based wait of the
    object-oriented surface makes exactly one device call: for a timeout
    other than zero, [wait_graph_done] with the timeout reduced to [int];
    for a zero timeout, the cycle-based [wait_graph] with cycle 0. The
    cycle-based wait makes exactly one device call, [wait_graph] with its
    cycle count, for every cycle value. *)
Theorem graph_wait_dispatch (handle : Z) (s : shared_obj graph_impl) (w : world Env) :
  graph_heap w !! handle = Some s ->
  let d := g_device (pointee s) in
  let g := g_handle (pointee s) in
  (forall timeout_ms, timeout_ms <> 0 ->
     issued (graph_wait_ms handle timeout_ms) w =
     [(ext_device d (op_wait_graph_done g (static_cast_int timeout_ms)),
       answer (ext_device d (op_wait_graph_done g (static_cast_int timeout_ms))) w)]) /\
  issued (graph_wait_ms handle 0) w =
  [(ext_device d (op_wait_graph g 0), answer (ext_device d (op_wait_graph g 0)) w)] /\
  (forall cycles,
     issued (graph_wait_cycles handle cycles) w =
     [(ext_device d (op_wait_graph g cycles),
       answer (ext_device d (op_wait_graph g cycles)) w)]).
Proof.
  intros Hs d g. subst d g. repeat split; intros.
  - apply issued_snoc. unfold graph_wait_ms, profiling_wrapper.
    destruct (decide (timeout_ms = 0)); [contradiction|].
    unfold graph_impl_wait_int, device_call.
    repeat (rewrite ?bind_run, ?(graph_deref_run _ _ _ Hs), ?ext_run; simpl).
    destruct (answer _ w) eqn:E; unfold mret, M_ret; simpl; rewrite E; reflexivity.
  - apply issued_snoc. unfold graph_wait_ms, profiling_wrapper.
    destruct (decide (0 = 0)); [|contradiction].
    unfold graph_impl_wait_uint64, device_call.
    repeat (rewrite ?bind_run, ?(graph_deref_run _ _ _ Hs), ?ext_run; simpl).
    destruct (answer _ w) eqn:E; unfold mret, M_ret; simpl; rewrite E; reflexivity.
  - apply issued_snoc. unfold graph_wait_cycles, profiling_wrapper.
    unfold graph_impl_wait_uint64, device_call.
    repeat (rewrite ?bind_run, ?(graph_deref_run _ _ _ Hs), ?ext_run; simpl).
    destruct (answer _ w) eqn:E; unfold mret, M_ret; simpl; rewrite E; reflexivity.
Qed.

(** C4 (amended). A handle returned by a successful [xrtGraphOpen],
    [xrtGraphOpenExclusive] or [xrtGraphOpenShared] is registered; closing
    it removes its entry from the graph registry and logs nothing. A second
    close of the same handle finds no entry and fails with the generic
    [std::runtime_error("Unexpected internal error")], not with the
    invalid-handle error of the other entry points: the message is logged,
    [errno] and the registries stay as they are. *)
Theorem graph_open_close_close (c : capi_call) (w w1 : world Env) (h : Z) :
  is_graph_open c = true ->
  capi_try c w = (Ok (RHandle h), w1) ->
  let w2 := (xrtGraphClose h w1).2 in
  graph_cache w1 !! h = Some h /\
  graph_cache w2 = delete h (graph_cache w1) /\
  logged (xrtGraphClose h) w1 = [] /\
  xrtGraphClose_try h w2 = (Throw (StdException "Unexpected internal error"), w2) /\
  xrtGraphClose h w2 = (Ok tt, reported (StdException "Unexpected internal error") w2) /\
  errno (xrtGraphClose h w2).2 = errno w2 /\
  registries (xrtGraphClose h w2).2 = registries w2 /\
  logged (xrtGraphClose h) w2 = [Message severity_error "XRT" "Unexpected internal error"].
Proof.
  intros Hc Hopen w2.
  destruct (graph_open_registries c w w1 _ Hc Hopen) as (h' & Hh & Hreg).
  injection Hh as <-.
  assert (Hin : graph_cache w1 !! h = Some h).
  { unfold registries in Hreg. injection Hreg as -> _. apply lookup_insert_eq. }
  destruct (xrtGraphClose_try_present h h w1 Hin) as [Hdel Hnothrow].
  assert (Hclose : xrtGraphClose h w1 = xrtGraphClose_try h w1).
  { unfold xrtGraphClose. rewrite catch_and_report_run.
    destruct (xrtGraphClose_try h w1) as [[[]|e|] w3]; try reflexivity.
    exfalso. exact (Hnothrow e eq_refl). }
  assert (Hcache2 : graph_cache w2 = delete h (graph_cache w1)).
  { subst w2. rewrite Hclose. unfold registries in Hdel. congruence. }
  assert (Habsent : graph_cache w2 !! h = None).
  { rewrite Hcache2. apply lookup_delete_eq. }
  assert (Hsecond : xrtGraphClose h w2 =
                    (Ok tt, reported (StdException "Unexpected internal error") w2)).
  { unfold xrtGraphClose.
    rewrite catch_and_report_run, (xrtGraphClose_try_absent h w2 Habsent).
    reflexivity. }
  repeat split; trivial.
  - unfold logged. rewrite Hclose.
    pose proof (keeps_diagnostics_capi_try (call_xrtGraphClose h) w1) as Hd.
    simpl in Hd. rewrite fmap_run in Hd.
    destruct (xrtGraphClose_try h w1) as [[[]|e|] w3]; simpl in *;
      injection Hd as _ ->; apply drop_all.
  - apply xrtGraphClose_try_absent, Habsent.
  - rewrite Hsecond. reflexivity.
  - rewrite Hsecond. reflexivity.
  - unfold logged. rewrite Hsecond. simpl. apply drop_app_length.
Qed.

(** C5. On the C surface, starting profiling with an option outside 0..3
    returns -1 and the device's [start_profiling] is never called; when the
    device handle resolves to a device, the failure reported is
    [xrt_core::error(-EINVAL, "Not a valid profiling option")], whose code
    goes to [errno] (when it does not resolve, the failure of the lookup is
    reported instead). The object-oriented start checks nothing: on a live
    object it passes every option value to the device's [start_profiling]. *)
Theorem start_profiling_option_check
    (handle option : Z) (port1Name port2Name : string) (value : Z) (w : world Env)
    (this : Z) (s : shared_obj profiling_impl) (w' : world Env) :
  option < 0 \/ option > 3 ->
  profiling_heap w' !! this = Some s ->
  let start := xrtAIEStartProfiling handle option port1Name port2Name value in
  (start w).1 = Ok (-1) /\
  Forall (fun cr => is_start_profiling cr.1 = false) (issued start w) /\
  match answer (ext_get_core_device handle) w with
  | Normal _ =>
      errno (start w).2 = error_code (- EINVAL) /\
      logged start w =
      [Message severity_error "XRT" (error_what (- EINVAL) "Not a valid profiling option")]
  | Raise e =>
      errno (start w).2 =
        match e with XrtCoreError code _ => code | StdException _ => errno w end /\
      logged start w = [Message severity_error "XRT" (exn_what e)]
  end /\
  forall opt p1 p2 v,
    issued (profiling_start this opt p1 p2 v) w' =
    [(ext_device (p_device (pointee s)) (op_start_profiling opt p1 p2 v),
      answer (ext_device (p_device (pointee s)) (op_start_profiling opt p1 p2 v)) w')].
Proof.
  intros Hopt Hs start. subst start. unfold logged, issued.
  rewrite (xrtAIEStartProfiling_bad_option_run _ _ _ _ _ _ Hopt).
  destruct (answer (ext_get_core_device handle) w) as [d|e] eqn:E; cbn [fst snd];
    rewrite reported_trace, reported_log; repeat split.
  - simpl. rewrite <- app_assoc, drop_app_length. repeat constructor.
  - simpl. apply drop_app_length.
  - intros. apply profiling_start_run, Hs.
  - simpl. rewrite drop_app_length. repeat constructor.
  - destruct e; reflexivity.
  - simpl. apply drop_app_length.
  - intros. apply profiling_start_run, Hs.
Qed.

(** C6. The destructor of a graph object makes exactly one device call,
    [close_graph] of the handle the object holds; it runs when the last
    [shared_ptr] owning the object is destroyed, which takes the object off
    the heap, and not when another owner remains. On the C surface, after
    any sequence of calls from the start of the process: every graph handle
    a device handed out has been given back to it exactly once or belongs
    to a live graph object; every live graph object is registered under its
    address and owned by the registry alone; [xrtGraphClose] of a
    registered handle removes the entry, which destroys the object -- one
    [close_graph] of its handle, and the object is gone from the heap --
    and [xrtGraphClose] of a handle without an entry calls no device. So no
    handle is closed a second time. *)
Theorem graph_handle_closed_exactly_once
    (cs : list capi_call) (e : Env) (o : graph_impl) (w0 : world Env) :
  issued (graph_impl_dtor o) w0 =
    [(ext_device (g_device o) (op_close_graph (g_handle o)),
      answer (ext_device (g_device o) (op_close_graph (g_handle o))) w0)] /\
  (forall p,
     match graph_heap w0 !! p with
     | Some (Shared o' 1) =>
         issued (graph_ptr_release p) w0 =
           [(ext_device (g_device o') (op_close_graph (g_handle o')),
             answer (ext_device (g_device o') (op_close_graph (g_handle o'))) w0)] /\
         graph_heap (graph_ptr_release p w0).2 !! p = None
     | Some (Shared o' (S (S n))) =>
         issued (graph_ptr_release p) w0 = [] /\
         graph_heap (graph_ptr_release p w0).2 !! p = Some (Shared o' (S n))
     | _ => True
     end) /\
  let w := run_calls cs (initial_world e) in
  ledger_balanced w /\
  graph_heap_registered w /\
  forall h,
    match graph_cache w !! h with
    | Some p =>
        exists o',
          p = h /\ graph_heap w !! h = Some (Shared o' 1) /\
          issued (xrtGraphClose h) w =
            [(ext_device (g_device o') (op_close_graph (g_handle o')),
              answer (ext_device (g_device o') (op_close_graph (g_handle o'))) w)] /\
          graph_heap (xrtGraphClose h w).2 = delete h (graph_heap w) /\
          graph_cache (xrtGraphClose h w).2 = delete h (graph_cache w)
    | None => issued (xrtGraphClose h) w = []
    end.
Proof.
  split; [|split].
  - apply issued_snoc. rewrite graph_impl_dtor_run. reflexivity.
  - intros p. destruct (graph_heap w0 !! p) as [[o' [|[|n]]]|] eqn:Hp; try exact I.
    + rewrite (graph_ptr_release_last _ _ _ Hp), graph_impl_dtor_run.
      split; [|apply lookup_delete_eq].
      apply issued_snoc. rewrite (graph_ptr_release_last _ _ _ Hp), graph_impl_dtor_run.
      reflexivity.
    + unfold issued. rewrite (graph_ptr_release_more _ _ _ _ Hp). simpl.
      split; [apply drop_all | apply lookup_insert_eq].
  - intros w.
    pose proof (graph_inv_run cs _ (graph_inv_initial e)) as (Hs & Hr & Hb).
    fold w in Hs, Hr, Hb.
    split; [exact Hb|]. split; [exact Hr|].
    intros h. destruct (graph_cache w !! h) as [p|] eqn:Hc.
    + destruct (xrtGraphClose_present_run h p w Hs Hc) as (o' & -> & Ho & Hrun).
      exists o'. repeat split; trivial.
      * apply issued_snoc. rewrite Hrun. reflexivity.
      * rewrite Hrun. reflexivity.
      * rewrite Hrun. reflexivity.
    + unfold issued, xrtGraphClose.
      rewrite catch_and_report_run, (xrtGraphClose_try_absent _ _ Hc).
      simpl. apply drop_all.
Qed.

(** C7. Each of the three AIE device-open entry points calls
    [xrtDeviceOpen], then resolves the handle it got and asks that device
    for an AIE context in the entry point's access mode, and returns the
    handle when all three calls succeed. When the device was opened and the
    context is not established -- the lookup or [open_aie_context] fails --
    the failure is reported, null is returned, and no call closing the
    device is made; nor is one made on any other path. *)
Theorem aie_device_open_context
    (c : capi_call) (index : Z) (am : access_mode) (w : world Env) :
  aie_device_open c = Some (index, am) ->
  let w1 := answered (ext_xrtDeviceOpen index) w in
  match answer (ext_xrtDeviceOpen index) w with
  | Raise e => capi c w = (Ok (RHandle XRT_NULL_HANDLE), reported e w1)
  | Normal handle =>
      let w2 := answered (ext_get_core_device handle) w1 in
      match answer (ext_get_core_device handle) w1 with
      | Raise e => capi c w = (Ok (RHandle XRT_NULL_HANDLE), reported e w2)
      | Normal device =>
          let w3 := answered (ext_device device (op_open_aie_context am)) w2 in
          match answer (ext_device device (op_open_aie_context am)) w2 with
          | Raise e => capi c w = (Ok (RHandle XRT_NULL_HANDLE), reported e w3)
          | Normal _ => capi c w = (Ok (RHandle handle), w3)
          end
      end
  end /\
  Forall (fun cr => is_device_close cr.1 = false) (issued (capi c) w).
Proof.
  intros Hc w1.
  assert (Hrun :
    capi c w =
    match answer (ext_xrtDeviceOpen index) w with
    | Raise e => (Ok (RHandle XRT_NULL_HANDLE), reported e w1)
    | Normal handle =>
        match answer (ext_get_core_device handle) w1 with
        | Raise e =>
            (Ok (RHandle XRT_NULL_HANDLE),
             reported e (answered (ext_get_core_device handle) w1))
        | Normal device =>
            match answer (ext_device device (op_open_aie_context am))
                         (answered (ext_get_core_device handle) w1) with
            | Raise e =>
                (Ok (RHandle XRT_NULL_HANDLE),
                 reported e (answered (ext_device device (op_open_aie_context am))
                               (answered (ext_get_core_device handle) w1)))
            | Normal _ =>
                (Ok (RHandle handle),
                 answered (ext_device device (op_open_aie_context am))
                   (answered (ext_get_core_device handle) w1))
            end
        end
    end).
  { subst w1. rewrite capi_boundary.
    destruct c; try discriminate Hc; injection Hc as -> <-; simpl;
      unfold_try_blocks; unfold open_aie_context, get_core_device, device_call;
      rewrite fmap_run, bind_run, ext_run;
      (destruct (answer (ext_xrtDeviceOpen index) w) as [handle|e]; [|reflexivity]);
      rewrite !bind_run, ext_run;
      (destruct (answer (ext_get_core_device handle) _) as [device|e]; [|reflexivity]);
      rewrite bind_run, ext_run;
      destruct (answer (ext_device device _) _); reflexivity. }
  split.
  - rewrite Hrun.
    destruct (answer (ext_xrtDeviceOpen index) w) as [handle|e]; [|reflexivity].
    simpl. destruct (answer (ext_get_core_device handle) w1) as [device|e]; [|reflexivity].
    destruct (answer (ext_device device _) _); reflexivity.
  - unfold issued. rewrite Hrun.
    destruct (answer (ext_xrtDeviceOpen index) w) as [handle|e]; cbn [snd].
    + destruct (answer (ext_get_core_device handle) w1) as [device|e]; cbn [snd].
      * destruct (answer (ext_device device _) _); cbn [snd];
          rewrite ?reported_trace; subst w1; simpl;
          rewrite <- !app_assoc, drop_app_length; repeat constructor.
      * rewrite reported_trace. subst w1. simpl.
        rewrite <- !app_assoc, drop_app_length. repeat constructor.
    + rewrite reported_trace. subst w1. simpl.
      rewrite drop_app_length. repeat constructor.
Qed.

(** C8. Reading or stopping before a successful start fails on both
    surfaces. On an object whose handle is [invalid_handle], the
    object-oriented read and stop throw [xrt_core::error(-EINVAL, "Not a
    valid profiling handle")] and change nothing. For a profiling handle
    absent from the registry, [xrtAIEReadProfiling] and
    [xrtAIEStopProfiling] fail with [xrt_core::error(-EINVAL, "No such
    profiling handle")]: the error is reported, and the read returns the
    largest 64-bit unsigned value. *)
Theorem profiling_read_stop_need_start
    (this : Z) (s : shared_obj profiling_impl) (handle pHandle : Z) (w : world Env) :
  profiling_heap w !! this = Some s ->
  profiling_hdl (pointee s) = invalid_handle ->
  profiling_cache w !! pHandle = None ->
  profiling_read this w =
    (Throw (xrt_core_error (- EINVAL) "Not a valid profiling handle"), w) /\
  profiling_stop this w =
    (Throw (xrt_core_error (- EINVAL) "Not a valid profiling handle"), w) /\
  xrtAIEReadProfiling handle pHandle w =
    (Ok UINT64_MAX, reported (xrt_core_error (- EINVAL) "No such profiling handle") w) /\
  xrtAIEStopProfiling handle pHandle w =
    (Ok tt, reported (xrt_core_error (- EINVAL) "No such profiling handle") w).
Proof.
  intros Hs Hinv Hnone. repeat split.
  - unfold profiling_read, profiling_wrapper, profiling_impl_read_profiling.
    rewrite bind_run, (profiling_deref_run _ _ _ Hs).
    destruct (decide _); [reflexivity | contradiction].
  - unfold profiling_stop, profiling_wrapper, profiling_impl_stop_profiling.
    rewrite bind_run, (profiling_deref_run _ _ _ Hs).
    destruct (decide _); [reflexivity | contradiction].
  - unfold xrtAIEReadProfiling. rewrite catch_and_report_run.
    unfold xrtAIEReadProfiling_try, profiling_cache_find.
    rewrite bind_run, Hnone. reflexivity.
  - unfold xrtAIEStopProfiling. rewrite catch_and_report_run.
    unfold xrtAIEStopProfiling_try, profiling_cache_find.
    rewrite bind_run, Hnone. reflexivity.
Qed.

(** C10. The destructor of a profiling object calls the device's
    [stop_profiling] with the handle the object holds, whatever it is --
    [invalid_handle] included -- and returns normally whether the device
    answered or threw; the state changes by that one call only. The
    explicit stop, on an object that holds [invalid_handle], throws before
    it calls the device. *)
Theorem profiling_destructor_stops_and_suppresses
    (o : profiling_impl) (w : world Env) (this : Z) :
  profiling_impl_dtor o w =
  (Ok tt, answered (ext_device (p_device o) (op_stop_profiling (profiling_hdl o))) w) /\
  profiling_impl_dtor (Build_profiling_impl (p_device o) invalid_handle) w =
  (Ok tt, answered (ext_device (p_device o) (op_stop_profiling (-1))) w) /\
  match profiling_heap w !! this with
  | Some s =>
      if decide (profiling_hdl (pointee s) = invalid_handle)
      then profiling_impl_stop_profiling this w =
           (Throw (xrt_core_error (- EINVAL) "Not a valid profiling handle"), w)
      else True
  | None => True
  end.
Proof.
  split; [apply profiling_impl_dtor_run|]. split; [apply profiling_impl_dtor_run|].
  destruct (profiling_heap w !! this) as [s|] eqn:Hs; [|exact I].
  destruct (decide (profiling_hdl (pointee s) = invalid_handle)) as [Hi|]; [|exact I].
  unfold profiling_impl_stop_profiling.
  rewrite bind_run, (profiling_deref_run _ _ _ Hs).
  destruct (decide _); [reflexivity | contradiction].
Qed.


(** ** More on the graph entry points *)

Lemma graph_method_try_run (c : capi_call) (h : Z) (op : Z -> device_op)
    (p : Z) (o : graph_impl) (n : nat) (w : world Env) :
  graph_method_op c = Some (h, op) ->
  graph_cache w !! h = Some p ->
  graph_heap w !! p = Some (Shared o (S n)) ->
  capi_try c w =
  (match answer (ext_device (g_device o) (op (g_handle o))) w with
   | Normal v => Ok (graph_method_value c v)
   | Raise e => Throw e
   end, answered (ext_device (g_device o) (op (g_handle o))) w).
Proof.
  intros Hop Hc Hh.
  destruct c; try discriminate Hop; injection Hop as -> <-; simpl;
    rewrite fmap_run; unfold_try_blocks.
  all: match goal with
       | |- context [scope_exit (_;; mret 0)] =>
           match goal with
           | |- _ = (_, answered (ext_device _ ?x) _) =>
               rewrite (graph_scope_run _ _ _ _ x (fun _ => 0) _ _ Hc Hh)
           end
       | |- _ = (_, answered (ext_device _ ?x) _) =>
           rewrite (graph_scope_run _ _ _ _ x (fun v => v) _ _ Hc Hh)
       end.
  all: try (intros w' Hw'; unfold_helpers;
    repeat (rewrite ?bind_run, ?(graph_deref_run _ _ _ Hw'), ?ext_run; simpl);
    destruct (answer _ w'); reflexivity).
  all: match goal with |- context [answer ?c ?ww] => destruct (answer c ww) end;
    reflexivity.
Qed.

Lemma graph_method_try_absent (c : capi_call) (h : Z) (op : Z -> device_op) (w : world Env) :
  graph_method_op c = Some (h, op) ->
  graph_cache w !! h = None ->
  capi_try c w = (Throw (xrt_core_error (- EINVAL) "No such graph handle"), w).
Proof.
  intros Hop Hc.
  destruct c; try discriminate Hop; injection Hop as -> _; simpl;
    rewrite fmap_run; unfold_try_blocks;
    rewrite bind_run; unfold get_graph_hdl; rewrite Hc; reflexivity.
Qed.

(** X1. Reset, time stamp, run, both waits, suspend, resume, end and the
    two runtime-parameter calls, given a handle that is not registered,
    call no device: they report [xrt_core::error(-EINVAL, "No such graph
    handle")] and return their failure value; nothing else changes. *)
Theorem graph_entry_unknown_handle
    (c : capi_call) (h : Z) (op : Z -> device_op) (w : world Env) :
  graph_method_op c = Some (h, op) ->
  graph_cache w !! h = None ->
  capi c w =
  (Ok (sentinel c), reported (xrt_core_error (- EINVAL) "No such graph handle") w).
Proof.
  intros Hop Hc.
  rewrite capi_boundary, (graph_method_try_absent c h op w Hop Hc). reflexivity.
Qed.

(** X2. The same ten entry points, given a registered handle of a live
    graph object, make exactly one device call: the operation they stand
    for, on the object's device, with the driver's handle of the object and
    their own arguments. When the device answers they return 0, or its
    answer for the time stamp and the timed wait; when it throws they
    report the failure and return their failure value. The heap, the use
    count of the object and the registries are as before. *)
Theorem graph_entry_forwards_once
    (c : capi_call) (h : Z) (op : Z -> device_op)
    (p : Z) (o : graph_impl) (n : nat) (w : world Env) :
  graph_method_op c = Some (h, op) ->
  graph_cache w !! h = Some p ->
  graph_heap w !! p = Some (Shared o (S n)) ->
  capi c w =
  match answer (ext_device (g_device o) (op (g_handle o))) w with
  | Normal v =>
      (Ok (graph_method_value c v),
       answered (ext_device (g_device o) (op (g_handle o))) w)
  | Raise e =>
      (Ok (sentinel c),
       reported e (answered (ext_device (g_device o) (op (g_handle o))) w))
  end.
Proof.
  intros Hop Hc Hh.
  rewrite capi_boundary, (graph_method_try_run c h op p o n w Hop Hc Hh).
  destruct (answer _ w); reflexivity.
Qed.

(** X3. Once [xrtGraphClose] has run on a registered handle, each of the
    ten graph entry points fails on that handle as on one that was never
    opened: no device call, [xrt_core::error(-EINVAL, "No such graph
    handle")] reported, the failure value returned. *)
Theorem graph_entry_after_close
    (c : capi_call) (h : Z) (op : Z -> device_op) (p : Z) (w : world Env) :
  graph_method_op c = Some (h, op) ->
  graph_cache w !! h = Some p ->
  let w1 := (xrtGraphClose h w).2 in
  graph_cache w1 !! h = None /\
  capi c w1 =
  (Ok (sentinel c), reported (xrt_core_error (- EINVAL) "No such graph handle") w1).
Proof.
  intros Hop Hc w1.
  assert (Hnone : graph_cache w1 !! h = None).
  { subst w1. destruct (xrtGraphClose_try_present h p w Hc) as [Hreg Hn].
    unfold xrtGraphClose. rewrite catch_and_report_run.
    destruct (xrtGraphClose_try h w) as [[[]|e|] w2]; simpl in *.
    - injection Hreg as -> _. apply lookup_delete_eq.
    - exfalso. exact (Hn e eq_refl).
    - injection Hreg as -> _. apply lookup_delete_eq. }
  split; [exact Hnone|].
  rewrite capi_boundary, (graph_method_try_absent c h op w1 Hop Hnone). reflexivity.
Qed.

(** ** More on opening a graph *)

Lemma open_scope_result (dhdl u : Z) (name : string) (am : access_mode) (w : world Env) :
  graph_registry_sound w ->
  (hdl ← open_graph dhdl u name am;
   scope_exit (graph_cache_assign hdl hdl;; mret hdl) (graph_ptr_release hdl)) w =
  match answer (ext_get_core_device dhdl) w with
  | Raise e => (Throw e, answered (ext_get_core_device dhdl) w)
  | Normal d =>
      match answer (ext_device d (op_open_graph u name am))
                   (answered (ext_get_core_device dhdl) w) with
      | Raise e =>
          (Throw e, answered (ext_device d (op_open_graph u name am))
                      (answered (ext_get_core_device dhdl) w))
      | Normal g =>
          (Ok (alloc (live w)),
           set_graph_cache (<[alloc (live w) := alloc (live w)]> (graph_cache w))
             (set_graph_heap
                (<[alloc (live w) := Shared (Build_graph_impl d g) 1]> (graph_heap w))
                (answered (ext_device d (op_open_graph u name am))
                   (answered (ext_get_core_device dhdl) w))))
      end
  end.
Proof.
  intros Hs. pose proof (fresh_not_registered w Hs) as Hfresh.
  unfold open_graph, get_core_device, device_call.
  rewrite !bind_run, ext_run.
  destruct (answer (ext_get_core_device dhdl) w) as [d|e]; [|reflexivity].
  cbn beta iota zeta. rewrite bind_run, ext_run.
  destruct (answer (ext_device d _) _) as [g|e]; [|reflexivity].
  cbn beta iota zeta. unfold make_shared_graph_impl.
  change (live (answered (ext_device d (op_open_graph u name am))
                  (answered (ext_get_core_device dhdl) w))) with (live w).
  change (graph_heap (answered (ext_device d (op_open_graph u name am))
                        (answered (ext_get_core_device dhdl) w))) with (graph_heap w).
  set (p := alloc (live w)) in *.
  set (w2 := answered (ext_device d (op_open_graph u name am))
               (answered (ext_get_core_device dhdl) w)).
  assert (Hc2 : graph_cache w2 = graph_cache w) by reflexivity.
  clearbody w2.
  set (o := Build_graph_impl d g).
  set (w3 := set_graph_heap (<[p := Shared o 1]> (graph_heap w)) w2).
  assert (H3 : graph_heap w3 !! p = Some (Shared o 1)) by apply lookup_insert_eq.
  assert (Hc3 : graph_cache w3 !! p = None) by (simpl; rewrite Hc2; exact Hfresh).
  unfold scope_exit.
  rewrite bind_run, (graph_cache_assign_fresh p p _ w3 Hc3 H3).
  cbn beta iota zeta. unfold mret at 1, M_ret at 1. cbn beta iota zeta.
  erewrite graph_ptr_release_more by (simpl; apply lookup_insert_eq).
  destruct w2. subst w3. simpl in *. rewrite !insert_insert_eq, Hc2.
  reflexivity.
Qed.

Lemma capi_try_open (c : capi_call) (dhdl u : Z) (name : string) (am : access_mode)
    (w : world Env) :
  graph_open_args c = Some (dhdl, u, name, am) ->
  capi_try c w =
  (RHandle <$> (hdl ← open_graph dhdl u name am;
                scope_exit (graph_cache_assign hdl hdl;; mret hdl)
                           (graph_ptr_release hdl))) w.
Proof.
  intros Hc. destruct c; try discriminate Hc; injection Hc as -> -> -> <-; reflexivity.
Qed.

Lemma sentinel_open (c : capi_call) (dhdl u : Z) (name : string) (am : access_mode) :
  graph_open_args c = Some (dhdl, u, name, am) -> sentinel c = RHandle XRT_NULL_HANDLE.
Proof. destruct c; try discriminate 1; reflexivity. Qed.

(** X4. What a graph open does, on a registry whose entries are sound (as
    they are in every state the entry points reach). If the device handle
    does not resolve, or the device refuses the graph, the failure is
    reported, null is returned, and nothing is allocated or registered. If
    both succeed, a new graph object holding the device and the driver's
    handle is allocated at an address that was not registered, it is
    registered under that address with the registry as its only owner, and
    the address is returned; every other entry is left as it was. *)
Theorem graph_open_outcome
    (c : capi_call) (dhdl u : Z) (name : string) (am : access_mode) (w : world Env) :
  graph_open_args c = Some (dhdl, u, name, am) ->
  graph_registry_sound w ->
  let w1 := answered (ext_get_core_device dhdl) w in
  graph_cache w !! alloc (live w) = None /\
  match answer (ext_get_core_device dhdl) w with
  | Raise e => capi c w = (Ok (RHandle XRT_NULL_HANDLE), reported e w1)
  | Normal d =>
      let w2 := answered (ext_device d (op_open_graph u name am)) w1 in
      match answer (ext_device d (op_open_graph u name am)) w1 with
      | Raise e => capi c w = (Ok (RHandle XRT_NULL_HANDLE), reported e w2)
      | Normal g =>
          capi c w =
          (Ok (RHandle (alloc (live w))),
           set_graph_cache (<[alloc (live w) := alloc (live w)]> (graph_cache w))
             (set_graph_heap
                (<[alloc (live w) := Shared (Build_graph_impl d g) 1]> (graph_heap w))
                w2))
      end
  end.
Proof.
  intros Hc Hs w1. split; [apply fresh_not_registered, Hs|].
  rewrite capi_boundary, (capi_try_open c _ _ _ _ w Hc), fmap_run,
    (open_scope_result _ _ _ _ w Hs), (sentinel_open c _ _ _ _ Hc).
  subst w1.
  destruct (answer (ext_get_core_device dhdl) w) as [d|e]; [|reflexivity].
  cbn zeta.
  destruct (answer (ext_device d _) _) as [g|e]; reflexivity.
Qed.

(** X5. A handle returned by a successful open leads back to the graph it
    was opened for: each of the ten graph entry points, called with that
    handle right after the open, makes its one call on the device the open
    resolved, with the driver's handle the device gave for the graph. *)
Theorem graph_open_then_use
    (c c' : capi_call) (dhdl u : Z) (name : string) (am : access_mode)
    (op : Z -> device_op) (d g : Z) (w : world Env) :
  graph_open_args c = Some (dhdl, u, name, am) ->
  graph_registry_sound w ->
  answer (ext_get_core_device dhdl) w = Normal d ->
  answer (ext_device d (op_open_graph u name am))
         (answered (ext_get_core_device dhdl) w) = Normal g ->
  graph_method_op c' = Some (alloc (live w), op) ->
  (capi c w).1 = Ok (RHandle (alloc (live w))) /\
  let w' := (capi c w).2 in
  capi c' w' =
  match answer (ext_device d (op g)) w' with
  | Normal v => (Ok (graph_method_value c' v), answered (ext_device d (op g)) w')
  | Raise e => (Ok (sentinel c'), reported e (answered (ext_device d (op g)) w'))
  end.
Proof.
  intros Hc Hs H1 H2 Hop.
  assert (Hrun : capi c w =
    (Ok (RHandle (alloc (live w))),
     set_graph_cache (<[alloc (live w) := alloc (live w)]> (graph_cache w))
       (set_graph_heap
          (<[alloc (live w) := Shared (Build_graph_impl d g) 1]> (graph_heap w))
          (answered (ext_device d (op_open_graph u name am))
             (answered (ext_get_core_device dhdl) w))))).
  { rewrite capi_boundary, (capi_try_open c _ _ _ _ w Hc), fmap_run,
      (open_scope_result _ _ _ _ w Hs), H1, H2. reflexivity. }
  rewrite Hrun. split; [reflexivity|]. cbv zeta. cbn [snd].
  set (w' := set_graph_cache _ _).
  assert (Hcache : graph_cache w' !! alloc (live w) = Some (alloc (live w)))
    by apply lookup_insert_eq.
  assert (Hheap : graph_heap w' !! alloc (live w) = Some (Shared (Build_graph_impl d g) 1))
    by apply lookup_insert_eq.
  rewrite capi_boundary,
    (graph_method_try_run c' _ op _ (Build_graph_impl d g) 0 w' Hop Hcache Hheap).
  simpl. destruct (answer _ w'); reflexivity.
Qed.

(** ** A failed call and the registries *)

Lemma bind_throw_inv {A B : Type} (m : M A) (k : A -> M B) (w w2 : world Env) (e : exn) :
  (m ≫= k) w = (Throw e, w2) ->
  m w = (Throw e, w2) \/ exists a w1, m w = (Ok a, w1) /\ k a w1 = (Throw e, w2).
Proof.
  rewrite bind_run. destruct (m w) as [[a|e'|] w1]; try discriminate 1.
  - intros H. right. exists a, w1. auto.
  - intros H. left. injection H as -> ->. reflexivity.
Qed.

Lemma fmap_throw_inv {A B : Type} (f : A -> B) (m : M A) (w w1 : world Env) (e : exn) :
  (f <$> m) w = (Throw e, w1) -> m w = (Throw e, w1).
Proof.
  rewrite fmap_run. destruct (m w) as [[a|e'|] w0]; try discriminate 1.
  intros H. injection H as -> ->. reflexivity.
Qed.

Lemma scope_exit_throw_inv {A : Type} (body : M A) (cleanup : M unit)
    (w w2 : world Env) (e : exn) :
  scope_exit body cleanup w = (Throw e, w2) ->
  exists w1, body w = (Throw e, w1) /\ cleanup w1 = (Ok tt, w2).
Proof.
  unfold scope_exit. destruct (body w) as [[a0|e'|] w1]; try discriminate 1;
    destruct (cleanup w1) as [[[]|e''|] w3] eqn:Hc; try discriminate 1.
  intros H. injection H as <- <-. exists w1. auto.
Qed.

Lemma graph_ptr_release_no_throw (p : Z) (w w1 : world Env) (e : exn) :
  graph_ptr_release p w <> (Throw e, w1).
Proof.
  unfold graph_ptr_release.
  destruct (graph_heap w !! p) as [[o [|[|n]]]|]; try discriminate;
    rewrite graph_impl_dtor_run; destruct (answer _ _); discriminate.
Qed.

Lemma profiling_ptr_release_no_throw (p : Z) (w w1 : world Env) (e : exn) :
  profiling_ptr_release p w <> (Throw e, w1).
Proof.
  unfold profiling_ptr_release.
  destruct (profiling_heap w !! p) as [[o [|[|n]]]|]; try discriminate;
    rewrite profiling_impl_dtor_run; discriminate.
Qed.

Lemma graph_cache_assign_no_throw (key p : Z) (w w1 : world Env) (e : exn) :
  graph_cache_assign key p w <> (Throw e, w1).
Proof.
  unfold graph_cache_assign. rewrite !bind_run. unfold graph_ptr_copy.
  destruct (graph_heap w !! p); [|discriminate]. cbn beta iota zeta.
  unfold graph_cache_store. cbn beta iota zeta.
  destruct (graph_cache w !! key); [apply graph_ptr_release_no_throw | discriminate].
Qed.

Lemma profiling_cache_assign_no_throw (key p : Z) (w w1 : world Env) (e : exn) :
  profiling_cache_assign key p w <> (Throw e, w1).
Proof.
  unfold profiling_cache_assign. rewrite !bind_run. unfold profiling_ptr_copy.
  destruct (profiling_heap w !! p); [|discriminate]. cbn beta iota zeta.
  unfold profiling_cache_store. cbn beta iota zeta.
  destruct (profiling_cache w !! key); [apply profiling_ptr_release_no_throw | discriminate].
Qed.

Lemma profiling_cache_erase_no_throw (key : Z) (w w1 : world Env) (e : exn) :
  profiling_cache_erase key w <> (Throw e, w1).
Proof.
  unfold profiling_cache_erase.
  destruct (profiling_cache w !! key) as [p|]; [|discriminate].
  rewrite bind_run. intros H.
  destruct (profiling_ptr_release p _) as [[[]|e'|] w2] eqn:Hr; try discriminate H.
  exact (profiling_ptr_release_no_throw _ _ _ _ Hr).
Qed.

Ltac inv_throw :=
  repeat match goal with
    | H : (_ <$> _) _ = (Throw _, _) |- _ => apply fmap_throw_inv in H
    | H : scope_exit _ _ _ = (Throw _, _) |- _ =>
        let w := fresh "w" in let H1 := fresh "H" in
        apply scope_exit_throw_inv in H as (w & H & H1)
    | H : (_ ≫= _) _ = (Throw _, _) |- _ =>
        let a := fresh "a" in let w := fresh "w" in let H1 := fresh "H" in
        apply bind_throw_inv in H as [H | (a & w & H1 & H)]
    | H : mret _ _ = (Throw _, _) |- _ => discriminate H
    | H : graph_cache_assign _ _ _ = (Throw _, _) |- _ =>
        exfalso; exact (graph_cache_assign_no_throw _ _ _ _ _ H)
    | H : profiling_cache_assign _ _ _ = (Throw _, _) |- _ =>
        exfalso; exact (profiling_cache_assign_no_throw _ _ _ _ _ H)
    | H : profiling_cache_erase _ _ = (Throw _, _) |- _ =>
        exfalso; exact (profiling_cache_erase_no_throw _ _ _ _ H)
    end.

Ltac kept_registries_more :=
  repeat match goal with
    | H : open_graph _ _ _ _ _ = _ |- _ =>
        apply (kept registries) in H; [|apply keeps_registries_open_graph]
    | H : throw _ _ = (_, _) |- _ => injection H as _ H
    end;
  kept_registries.

Lemma open_scope_failed (dhdl u : Z) (name : string) (am : access_mode)
    (w w1 : world Env) (e : exn) :
  (hdl ← open_graph dhdl u name am;
   scope_exit (graph_cache_assign hdl hdl;; mret hdl) (graph_ptr_release hdl)) w
  = (Throw e, w1) ->
  registries w1 = registries w.
Proof.
  intros H. inv_throw. kept_registries_more. exact H.
Qed.

Lemma close_failed (hdl : Z) (w w1 : world Env) (e : exn) :
  xrtGraphClose_try hdl w = (Throw e, w1) -> registries w1 = registries w.
Proof.
  intros H. destruct (graph_cache w !! hdl) as [p|] eqn:Hp.
  - exfalso. exact (proj2 (xrtGraphClose_try_present hdl p w Hp) e
                      (f_equal fst H)).
  - rewrite (xrtGraphClose_try_absent hdl w Hp) in H. injection H as _ <-. reflexivity.
Qed.

Lemma start_profiling_failed
    (handle option : Z) (p1 p2 : string) (value : Z) (w w1 : world Env) (e : exn) :
  xrtAIEStartProfiling_try handle option p1 p2 value w = (Throw e, w1) ->
  registries w1 = registries w.
Proof.
  unfold xrtAIEStartProfiling_try. intros H. inv_throw.
  - kept_registries_more. exact H.
  - destruct (decide (option < 0 ∨ option > 3)).
    + kept_registries_more. unfold registries in *. congruence.
    + inv_throw.
      * kept_registries_more. unfold registries in *. congruence.
      * match goal with H : context [decide (?x ≠ invalid_handle)] |- _ =>
          destruct (decide (x ≠ invalid_handle)) end; inv_throw.
        kept_registries_more. unfold registries in *. congruence.
Qed.

Lemma stop_profiling_failed (pHandle : Z) (w w1 : world Env) (e : exn) :
  xrtAIEStopProfiling_try pHandle w = (Throw e, w1) -> registries w1 = registries w.
Proof.
  unfold xrtAIEStopProfiling_try. intros H. inv_throw.
  - discriminate H.
  - match goal with H : profiling_cache_find _ _ = _ |- _ =>
      unfold profiling_cache_find in H; injection H as <- <- end.
    destruct (profiling_cache w !! pHandle) as [p|]; inv_throw.
    + kept_registries_more. exact H.
    + kept_registries_more. congruence.
Qed.

(** X6. An entry point that fails leaves both registries as they were:
    this holds for graph open, graph close, profiling start and profiling
    stop as for the other entry points. No failed open or start leaves a
    binding behind, no failed close or stop removes one. *)
Theorem failed_call_keeps_registries (c : capi_call) (w : world Env) :
  match capi_try c w with
  | (Throw e, w1) =>
      capi c w = (Ok (sentinel c), reported e w1) /\
      registries (capi c w).2 = registries w
  | _ => True
  end.
Proof.
  rewrite capi_boundary.
  destruct (capi_try c w) as [[v|e|] w1] eqn:H; try exact I.
  split; [reflexivity|]. cbn [snd].
  assert (Hr : registries w1 = registries w).
  { destruct (mutates_registry c) eqn:Hc.
    - destruct c; try discriminate Hc; simpl in H; apply fmap_throw_inv in H.
      + exact (open_scope_failed _ _ _ _ _ _ _ H).
      + exact (open_scope_failed _ _ _ _ _ _ _ H).
      + exact (open_scope_failed _ _ _ _ _ _ _ H).
      + exact (close_failed _ _ _ _ H).
      + exact (start_profiling_failed _ _ _ _ _ _ _ _ H).
      + exact (stop_profiling_failed _ _ _ _ H).
    - exact (kept registries _ _ _ _ (keeps_registries_capi_try c Hc) H). }
  destruct e; exact Hr.
Qed.

(** ** Profiling on the C surface *)

Lemma profiling_ptr_copy_run (p : Z) (s : shared_obj profiling_impl) (w : world Env) :
  profiling_heap w !! p = Some s ->
  profiling_ptr_copy p w =
  (Ok tt, set_profiling_heap
            (<[p := Shared (pointee s) (S (use_count s))]> (profiling_heap w)) w).
Proof. intros H. unfold profiling_ptr_copy. rewrite H. reflexivity. Qed.

Lemma profiling_ptr_release_more (p : Z) (o : profiling_impl) (n : nat) (w : world Env) :
  profiling_heap w !! p = Some (Shared o (S (S n))) ->
  profiling_ptr_release p w =
  (Ok tt, set_profiling_heap (<[p := Shared o (S n)]> (profiling_heap w)) w).
Proof. intros H. unfold profiling_ptr_release. rewrite H. reflexivity. Qed.

Lemma set_profiling_hdl_run (p h : Z) (s : shared_obj profiling_impl) (w : world Env) :
  profiling_heap w !! p = Some s ->
  set_profiling_hdl p h w =
  (Ok tt, set_profiling_heap
            (<[p := Shared (Build_profiling_impl (p_device (pointee s)) h) (use_count s)]>
               (profiling_heap w)) w).
Proof. intros H. unfold set_profiling_hdl. rewrite H. reflexivity. Qed.

Lemma profiling_impl_start_profiling_run
    (this : Z) (s : shared_obj profiling_impl) (option : Z) (p1 p2 : string) (value : Z)
    (w : world Env) :
  profiling_heap w !! this = Some s ->
  let start := ext_device (p_device (pointee s)) (op_start_profiling option p1 p2 value) in
  profiling_impl_start_profiling this option p1 p2 value w =
  match answer start w with
  | Raise e => (Throw e, answered start w)
  | Normal h =>
      (Ok h,
       set_profiling_heap
         (<[this := Shared (Build_profiling_impl (p_device (pointee s)) h) (use_count s)]>
            (profiling_heap w)) (answered start w))
  end.
Proof.
  intros Hs start. unfold profiling_impl_start_profiling, device_call.
  rewrite bind_run, (profiling_deref_run _ _ _ Hs), bind_run, ext_run. fold start.
  destruct (answer start w) as [h|e]; [|reflexivity].
  cbn beta iota. rewrite bind_run, (set_profiling_hdl_run this h s) by exact Hs.
  reflexivity.
Qed.

Lemma profiling_impl_stop_profiling_run (this : Z) (o : profiling_impl) (n : nat)
    (w : world Env) :
  profiling_heap w !! this = Some (Shared o n) ->
  profiling_hdl o <> invalid_handle ->
  let stop := ext_device (p_device o) (op_stop_profiling (profiling_hdl o)) in
  profiling_impl_stop_profiling this w =
  match answer stop w with
  | Raise e => (Throw e, answered stop w)
  | Normal _ =>
      (Ok tt,
       set_profiling_heap
         (<[this := Shared (Build_profiling_impl (p_device o) invalid_handle) n]>
            (profiling_heap w)) (answered stop w))
  end.
Proof.
  intros Hs Hv stop. unfold profiling_impl_stop_profiling, device_call.
  rewrite bind_run, (profiling_deref_run _ _ _ Hs). cbn beta iota. cbn [pointee].
  destruct (decide (profiling_hdl o = invalid_handle)) as [|_]; [contradiction|].
  rewrite bind_run, ext_run. fold stop.
  destruct (answer stop w) as [v|e]; [|reflexivity].
  cbn beta iota.
  rewrite (set_profiling_hdl_run this invalid_handle (Shared o n)) by exact Hs.
  reflexivity.
Qed.

Lemma profiling_impl_read_profiling_run (this : Z) (s : shared_obj profiling_impl)
    (w : world Env) :
  profiling_heap w !! this = Some s ->
  profiling_hdl (pointee s) <> invalid_handle ->
  profiling_impl_read_profiling this w =
  ext (ext_device (p_device (pointee s)) (op_read_profiling (profiling_hdl (pointee s)))) w.
Proof.
  intros Hs Hv. unfold profiling_impl_read_profiling, device_call.
  rewrite bind_run, (profiling_deref_run _ _ _ Hs).
  destruct (decide _) as [|_]; [contradiction | reflexivity].
Qed.

Lemma live_answered (c : ext_call) (w : world Env) : live (answered c w) = live w.
Proof. reflexivity. Qed.

Lemma fresh_not_live_profiling (w : world Env) :
  profiling_heap w !! alloc (live w) = None.
Proof.
  apply not_elem_of_dom. intros Hin.
  apply (alloc_fresh (live w)). unfold live. apply elem_of_union_r, Hin.
Qed.

(** The block of [xrtAIEStartProfiling] up to the point where the handle
    the device returned is registered. *)
Lemma start_profiling_try_run
    (handle option : Z) (p1 p2 : string) (value : Z) (w : world Env) :
  ~ (option < 0 \/ option > 3) ->
  let w1 := answered (ext_get_core_device handle) w in
  let p := alloc (live w) in
  xrtAIEStartProfiling_try handle option p1 p2 value w =
  match answer (ext_get_core_device handle) w with
  | Raise e => (Throw e, w1)
  | Normal d =>
      let start := ext_device d (op_start_profiling option p1 p2 value) in
      let gone :=
        answered (ext_device d (op_stop_profiling invalid_handle))
          (set_profiling_heap (delete p (profiling_heap w)) (answered start w1)) in
      match answer start w1 with
      | Raise e => (Throw e, gone)
      | Normal hdl =>
          if decide (hdl = invalid_handle)
          then (Throw (xrt_core_error (- EINVAL) "Not a valid profiling handle"), gone)
          else
            scope_exit (profiling_cache_assign hdl p;; mret hdl) (profiling_ptr_release p)
              (set_profiling_heap
                 (<[p := Shared (Build_profiling_impl d hdl) 1]> (profiling_heap w))
                 (answered start w1))
      end
  end.
Proof.
  intros Hopt w1 p.
  unfold xrtAIEStartProfiling_try, create_profiling_event, get_core_device.
  rewrite !bind_run, ext_run. fold w1.
  destruct (answer (ext_get_core_device handle) w) as [d|e]; [|reflexivity].
  cbn beta iota zeta.
  unfold make_shared_profiling_impl. cbn beta iota zeta.
  change (alloc (live w1)) with p.
  destruct (decide (option < 0 ∨ option > 3)) as [|_]; [contradiction|].
  set (w2 := set_profiling_heap _ w1).
  assert (Hp : profiling_heap w2 !! p =
               Some (Shared (Build_profiling_impl d invalid_handle) 1))
    by (subst w2; simpl; apply lookup_insert_eq).
  unfold scope_exit at 1. rewrite bind_run.
  rewrite (profiling_impl_start_profiling_run p _ option p1 p2 value w2 Hp).
  cbn [pointee p_device use_count].
  change (answer (ext_device d (op_start_profiling option p1 p2 value)) w2)
    with (answer (ext_device d (op_start_profiling option p1 p2 value)) w1).
  destruct (answer (ext_device d (op_start_profiling option p1 p2 value)) w1)
    as [hdl|e] eqn:E.
  - destruct (decide (hdl = invalid_handle)) as [->|Hne].
    + destruct (decide (invalid_handle ≠ invalid_handle)) as [|_]; [contradiction|].
      unfold throw.
      erewrite profiling_ptr_release_last by (simpl; apply lookup_insert_eq).
      subst w2. simpl. rewrite insert_insert_eq, delete_insert_eq. reflexivity.
    + destruct (decide (hdl ≠ invalid_handle)) as [_|]; [|contradiction].
      subst w2. simpl. rewrite insert_insert_eq. reflexivity.
  - erewrite profiling_ptr_release_last by (simpl; apply lookup_insert_eq).
    subst w2. simpl. rewrite delete_insert_eq. reflexivity.
Qed.

Lemma profiling_register_fresh (hdl p : Z) (o : profiling_impl) (w : world Env) :
  profiling_cache w !! hdl = None ->
  profiling_heap w !! p = Some (Shared o 1) ->
  scope_exit (profiling_cache_assign hdl p;; mret hdl) (profiling_ptr_release p) w =
  (Ok hdl,
   set_profiling_cache (<[hdl := p]> (profiling_cache w))
     (set_profiling_heap (<[p := Shared o 1]> (profiling_heap w)) w)).
Proof.
  intros Hc Hp. unfold scope_exit, profiling_cache_assign.
  rewrite bind_run, Hc, bind_run, (profiling_ptr_copy_run _ _ _ Hp).
  unfold profiling_cache_store. cbn beta iota zeta. cbn [pointee use_count].
  rewrite bind_run. cbn beta iota zeta. unfold mret at 1, M_ret at 1. cbn beta iota.
  unfold mret at 1, M_ret at 1. cbn beta iota.
  erewrite profiling_ptr_release_more by (simpl; apply lookup_insert_eq).
  simpl. rewrite insert_insert_eq. reflexivity.
Qed.

Lemma profiling_register_replace (hdl p q : Z) (o o' : profiling_impl) (w : world Env) :
  profiling_cache w !! hdl = Some q ->
  q <> p ->
  profiling_heap w !! p = Some (Shared o 1) ->
  profiling_heap w !! q = Some (Shared o' 1) ->
  scope_exit (profiling_cache_assign hdl p;; mret hdl) (profiling_ptr_release p) w =
  (Ok hdl,
   set_profiling_heap (<[p := Shared o 1]> (delete q (profiling_heap w)))
     (answered (ext_device (p_device o') (op_stop_profiling (profiling_hdl o')))
        (set_profiling_cache (<[hdl := p]> (profiling_cache w)) w))).
Proof.
  intros Hc Hqp Hp Hq. unfold scope_exit, profiling_cache_assign.
  rewrite bind_run, Hc, bind_run, (profiling_ptr_copy_run _ _ _ Hp).
  unfold profiling_cache_store. cbn beta iota zeta. cbn [pointee use_count].
  rewrite bind_run. cbn beta iota zeta.
  erewrite (profiling_ptr_release_last q o')
    by (simpl; rewrite lookup_insert_ne by (intros ->; contradiction); exact Hq).
  cbn beta iota. unfold mret at 1, M_ret at 1. cbn beta iota.
  erewrite profiling_ptr_release_more
    by (simpl; rewrite lookup_delete_ne by exact Hqp; apply lookup_insert_eq).
  simpl. rewrite (delete_insert_ne (profiling_heap w) q p) by exact Hqp.
  rewrite insert_insert_eq. reflexivity.
Qed.

Lemma start_profiling_run
    (handle option : Z) (p1 p2 : string) (value : Z) (w : world Env) :
  0 <= option <= 3 ->
  let run := xrtAIEStartProfiling handle option p1 p2 value w in
  let w1 := answered (ext_get_core_device handle) w in
  match answer (ext_get_core_device handle) w with
  | Raise e => run = (Ok (-1), reported e w1)
  | Normal d =>
      let start := ext_device d (op_start_profiling option p1 p2 value) in
      let w2 := answered start w1 in
      let w3 := answered (ext_device d (op_stop_profiling invalid_handle)) w2 in
      match answer start w1 with
      | Raise e => run = (Ok (-1), reported e w3)
      | Normal hdl =>
          if decide (hdl = invalid_handle)
          then run =
               (Ok (-1),
                reported (xrt_core_error (- EINVAL) "Not a valid profiling handle") w3)
          else
            profiling_cache w !! hdl = None ->
            run =
            (Ok hdl,
             set_profiling_cache (<[hdl := alloc (live w)]> (profiling_cache w))
               (set_profiling_heap
                  (<[alloc (live w) := Shared (Build_profiling_impl d hdl) 1]>
                     (profiling_heap w))
                  w2))
      end
  end.
Proof.
  intros Hopt run w1. subst run w1. unfold xrtAIEStartProfiling.
  rewrite catch_and_report_run.
  pose proof (start_profiling_try_run handle option p1 p2 value w ltac:(lia)) as Hrun.
  cbv zeta in Hrun. rewrite (delete_id _ _ (fresh_not_live_profiling w)) in Hrun.
  revert Hrun.
  destruct (answer (ext_get_core_device handle) w) as [d|e];
    [|intros ->; reflexivity].
  cbv zeta.
  destruct (answer (ext_device d _) _) as [hdl|e]; [|intros ->; reflexivity].
  destruct (decide (hdl = invalid_handle)) as [->|Hne]; [intros ->; reflexivity|].
  intros -> Hc.
  erewrite profiling_register_fresh
    by first [exact Hc | simpl; apply lookup_insert_eq].
  simpl. rewrite insert_insert_eq. reflexivity.
Qed.

(** X7. What [xrtAIEStartProfiling] does with an option in 0..3. The
    device handle is resolved, a profiling object is created, and the
    device's [start_profiling] is called. If the handle does not resolve,
    the failure is reported and -1 returned. If [start_profiling] throws,
    or returns [invalid_handle] (then the failure is
    [xrt_core::error(-EINVAL, "Not a valid profiling handle")]), the
    failure is reported, -1 is returned, and the object is destroyed, whose
    destructor calls the device's [stop_profiling] with [invalid_handle];
    heap and registry are as before. If it returns a valid handle that is
    not registered, the object, holding that handle, is registered under
    it with the registry as its only owner, and the handle is returned. *)
Theorem start_profiling_outcome
    (handle option : Z) (p1 p2 : string) (value : Z) (w : world Env) :
  0 <= option <= 3 ->
  let run := xrtAIEStartProfiling handle option p1 p2 value w in
  let w1 := answered (ext_get_core_device handle) w in
  match answer (ext_get_core_device handle) w with
  | Raise e => run = (Ok (-1), reported e w1)
  | Normal d =>
      let start := ext_device d (op_start_profiling option p1 p2 value) in
      let w2 := answered start w1 in
      let w3 := answered (ext_device d (op_stop_profiling invalid_handle)) w2 in
      match answer start w1 with
      | Raise e => run = (Ok (-1), reported e w3)
      | Normal hdl =>
          if decide (hdl = invalid_handle)
          then run =
               (Ok (-1),
                reported (xrt_core_error (- EINVAL) "Not a valid profiling handle") w3)
          else
            profiling_cache w !! hdl = None ->
            run =
            (Ok hdl,
             set_profiling_cache (<[hdl := alloc (live w)]> (profiling_cache w))
               (set_profiling_heap
                  (<[alloc (live w) := Shared (Build_profiling_impl d hdl) 1]>
                     (profiling_heap w))
                  w2))
      end
  end.
Proof. exact (start_profiling_run handle option p1 p2 value w). Qed.

(** X8. When the device hands out a profiling handle that is still
    registered, [xrtAIEStartProfiling] binds the handle to the new object
    and destroys the object it was bound to: on a registry whose entries
    are sound, the destructor of the old object calls the device's
    [stop_profiling] with that same handle, the one the call returns. *)
Theorem start_profiling_reused_handle
    (handle option : Z) (p1 p2 : string) (value : Z) (d hdl q : Z) (w : world Env) :
  0 <= option <= 3 ->
  profiling_registry_sound w ->
  answer (ext_get_core_device handle) w = Normal d ->
  answer (ext_device d (op_start_profiling option p1 p2 value))
         (answered (ext_get_core_device handle) w) = Normal hdl ->
  hdl <> invalid_handle ->
  profiling_cache w !! hdl = Some q ->
  exists d',
    profiling_heap w !! q = Some (Shared (Build_profiling_impl d' hdl) 1) /\
    xrtAIEStartProfiling handle option p1 p2 value w =
    (Ok hdl,
     set_profiling_heap
       (<[alloc (live w) := Shared (Build_profiling_impl d hdl) 1]>
          (delete q (profiling_heap w)))
       (answered (ext_device d' (op_stop_profiling hdl))
          (set_profiling_cache (<[hdl := alloc (live w)]> (profiling_cache w))
             (answered (ext_device d (op_start_profiling option p1 p2 value))
                (answered (ext_get_core_device handle) w))))).
Proof.
  intros Hopt Hs Hd Hh Hne Hc.
  destruct (Hs _ _ Hc) as [_ [d' Hq]]. exists d'. split; [exact Hq|].
  assert (Hqp : q <> alloc (live w)).
  { intros ->. rewrite fresh_not_live_profiling in Hq. discriminate Hq. }
  unfold xrtAIEStartProfiling.
  rewrite catch_and_report_run, start_profiling_try_run by lia.
  rewrite Hd. cbn zeta. rewrite Hh.
  destruct (decide (hdl = invalid_handle)) as [|_]; [contradiction|].
  erewrite (profiling_register_replace hdl (alloc (live w)) q)
    by first [ exact Hc | exact Hqp | simpl; apply lookup_insert_eq
             | simpl; rewrite lookup_insert_ne by (apply not_eq_sym, Hqp); exact Hq ].
  simpl. rewrite (delete_insert_ne (profiling_heap w) q (alloc (live w))) by exact Hqp.
  rewrite insert_insert_eq. reflexivity.
Qed.

Lemma stop_profiling_try_run (h p : Z) (o : profiling_impl) (w : world Env) :
  profiling_cache w !! h = Some p ->
  profiling_heap w !! p = Some (Shared o 1) ->
  profiling_hdl o <> invalid_handle ->
  let stop := ext_device (p_device o) (op_stop_profiling (profiling_hdl o)) in
  xrtAIEStopProfiling_try h w =
  match answer stop w with
  | Raise e => (Throw e, answered stop w)
  | Normal _ =>
      (Ok tt,
       answered (ext_device (p_device o) (op_stop_profiling invalid_handle))
         (set_profiling_heap (delete p (profiling_heap w))
            (set_profiling_cache (delete h (profiling_cache w)) (answered stop w))))
  end.
Proof.
  intros Hc Hp Hv stop. unfold xrtAIEStopProfiling_try, profiling_cache_find.
  rewrite bind_run, Hc, bind_run.
  rewrite (profiling_impl_stop_profiling_run p o 1 w Hp Hv). fold stop.
  destruct (answer stop w) as [v|e]; [|reflexivity].
  cbn beta iota. rewrite bind_run. unfold profiling_cache_erase.
  cbn [profiling_cache set_profiling_heap answered set_trace set_env].
  rewrite Hc, bind_run.
  erewrite profiling_ptr_release_last by (simpl; apply lookup_insert_eq).
  simpl. rewrite delete_insert_eq. reflexivity.
Qed.

Lemma stop_profiling_run (handle h p : Z) (o : profiling_impl) (w : world Env) :
  profiling_cache w !! h = Some p ->
  profiling_heap w !! p = Some (Shared o 1) ->
  profiling_hdl o <> invalid_handle ->
  let stop := ext_device (p_device o) (op_stop_profiling (profiling_hdl o)) in
  xrtAIEStopProfiling handle h w =
  match answer stop w with
  | Raise e => (Ok tt, reported e (answered stop w))
  | Normal _ =>
      (Ok tt,
       answered (ext_device (p_device o) (op_stop_profiling invalid_handle))
         (set_profiling_heap (delete p (profiling_heap w))
            (set_profiling_cache (delete h (profiling_cache w)) (answered stop w))))
  end.
Proof.
  intros Hc Hp Hv stop. unfold xrtAIEStopProfiling.
  rewrite catch_and_report_run, (stop_profiling_try_run h p o w Hc Hp Hv). fold stop.
  destruct (answer stop w); reflexivity.
Qed.

(** X9. [xrtAIEStopProfiling] of a registered handle whose object holds a
    valid handle calls the device's [stop_profiling] with the handle the
    object holds. If that call throws, the failure is reported and the
    entry and the object stay as they are. If it returns, the entry is
    erased and the object destroyed, and its destructor calls
    [stop_profiling] once more, with [invalid_handle]: a successful stop is
    two device calls. *)
Theorem stop_profiling_outcome (handle h p : Z) (o : profiling_impl) (w : world Env) :
  profiling_cache w !! h = Some p ->
  profiling_heap w !! p = Some (Shared o 1) ->
  profiling_hdl o <> invalid_handle ->
  let stop := ext_device (p_device o) (op_stop_profiling (profiling_hdl o)) in
  xrtAIEStopProfiling handle h w =
  match answer stop w with
  | Raise e => (Ok tt, reported e (answered stop w))
  | Normal _ =>
      (Ok tt,
       answered (ext_device (p_device o) (op_stop_profiling invalid_handle))
         (set_profiling_heap (delete p (profiling_heap w))
            (set_profiling_cache (delete h (profiling_cache w)) (answered stop w))))
  end.
Proof. exact (stop_profiling_run handle h p o w). Qed.

Lemma read_profiling_run
    (handle h p : Z) (s : shared_obj profiling_impl) (w : world Env) :
  profiling_cache w !! h = Some p ->
  profiling_heap w !! p = Some s ->
  profiling_hdl (pointee s) <> invalid_handle ->
  let read :=
    ext_device (p_device (pointee s)) (op_read_profiling (profiling_hdl (pointee s))) in
  xrtAIEReadProfiling handle h w =
  match answer read w with
  | Normal v => (Ok v, answered read w)
  | Raise e => (Ok UINT64_MAX, reported e (answered read w))
  end.
Proof.
  intros Hc Hp Hv read. unfold xrtAIEReadProfiling.
  rewrite catch_and_report_run. unfold xrtAIEReadProfiling_try, profiling_cache_find.
  rewrite bind_run, Hc. cbn beta iota.
  rewrite (profiling_impl_read_profiling_run p s w Hp Hv), ext_run. fold read.
  destruct (answer read w); reflexivity.
Qed.

(** X10. [xrtAIEReadProfiling] of a registered handle whose object holds a
    valid handle makes one device call, [read_profiling] of the handle the
    object holds on the object's device, and returns the counter value the
    device gave; if the device throws, the failure is reported and the
    largest 64-bit unsigned value is returned. The object and the registry
    are not touched. *)
Theorem read_profiling_outcome
    (handle h p : Z) (s : shared_obj profiling_impl) (w : world Env) :
  profiling_cache w !! h = Some p ->
  profiling_heap w !! p = Some s ->
  profiling_hdl (pointee s) <> invalid_handle ->
  let read :=
    ext_device (p_device (pointee s)) (op_read_profiling (profiling_hdl (pointee s))) in
  xrtAIEReadProfiling handle h w =
  match answer read w with
  | Normal v => (Ok v, answered read w)
  | Raise e => (Ok UINT64_MAX, reported e (answered read w))
  end.
Proof. exact (read_profiling_run handle h p s w). Qed.

(** ** The profiling registry over a run *)

Ltac keeps_profiling_state :=
  repeat first
    [ apply (keeps_open_graph _ (fun _ => true)); intros; reflexivity
    | apply (keeps_graph_cache_assign _ (fun _ => true)); intros; reflexivity
    | apply (keeps_graph_cache_erase _ (fun _ => true)); intros; reflexivity
    | apply (keeps_graph_ptr_release _ (fun _ => true)); intros; reflexivity
    | apply keeps_ret
    | apply keeps_throw
    | apply keeps_fmap
    | apply keeps_scope_exit
    | apply keeps_bind; [|intros ?]
    | match goal with |- keeps _ (if ?b then _ else _) => destruct b end ].

Lemma keeps_profiling_state_capi_try (c : capi_call) :
  changes_profiling c = false -> keeps profiling_state (capi_try c).
Proof.
  intros Hc. destruct (mutates_registry c) eqn:Hm.
  - destruct c; try discriminate Hc; try discriminate Hm; simpl;
      unfold_try_blocks; unfold close_graph; keeps_profiling_state.
  - apply (keeps_capi_try_other profiling_state (fun _ => true));
      try (intros; reflexivity). exact Hm.
Qed.

Lemma keeps_profiling_state_capi (c : capi_call) :
  changes_profiling c = false -> keeps profiling_state (capi c).
Proof.
  intros Hc. apply keeps_capi_of_try; [reflexivity .. |].
  apply keeps_profiling_state_capi_try, Hc.
Qed.

Lemma profiling_inv_state (w w' : world Env) :
  profiling_state w' = profiling_state w -> profiling_inv w -> profiling_inv w'.
Proof.
  unfold profiling_state, profiling_inv, profiling_registry_sound,
    profiling_heap_registered.
  intros H. injection H as -> ->. auto.
Qed.

Lemma profiling_inv_initial (e : Env) : profiling_inv (initial_world e).
Proof.
  split.
  - intros h p H. simpl in H. rewrite lookup_empty in H. discriminate H.
  - intros p s H. simpl in H. rewrite lookup_empty in H. discriminate H.
Qed.

Lemma profiling_inv_register_fresh (hdl p d : Z) (w w' : world Env) :
  profiling_inv w ->
  hdl <> invalid_handle ->
  profiling_heap w !! p = None ->
  profiling_cache w !! hdl = None ->
  profiling_state w' =
    (<[p := Shared (Build_profiling_impl d hdl) 1]> (profiling_heap w),
     <[hdl := p]> (profiling_cache w)) ->
  profiling_inv w'.
Proof.
  intros [Hs Hr] Hne Hp Hc H. unfold profiling_state in H. injection H as Hh' Hc'.
  split.
  - intros k p' Hk. rewrite Hc' in Hk. rewrite Hh'.
    destruct (decide (k = hdl)) as [->|Hkh].
    + rewrite lookup_insert_eq in Hk. injection Hk as <-.
      split; [exact Hne|]. exists d. apply lookup_insert_eq.
    + rewrite lookup_insert_ne in Hk by auto.
      destruct (Hs _ _ Hk) as [Hk1 [d' Hd']]. split; [exact Hk1|]. exists d'.
      rewrite lookup_insert_ne; [exact Hd'|]. congruence.
  - intros p' s Hs'. rewrite Hh' in Hs'. rewrite Hc'.
    destruct (decide (p' = p)) as [->|Hpp].
    + rewrite lookup_insert_eq in Hs'. injection Hs' as <-. apply lookup_insert_eq.
    + rewrite lookup_insert_ne in Hs' by auto.
      pose proof (Hr _ _ Hs') as Hreg.
      rewrite lookup_insert_ne; [exact Hreg|]. congruence.
Qed.

Lemma profiling_inv_register_replace (hdl p q d : Z) (w w' : world Env) :
  profiling_inv w ->
  hdl <> invalid_handle ->
  profiling_heap w !! p = None ->
  profiling_cache w !! hdl = Some q ->
  profiling_state w' =
    (<[p := Shared (Build_profiling_impl d hdl) 1]> (delete q (profiling_heap w)),
     <[hdl := p]> (profiling_cache w)) ->
  profiling_inv w'.
Proof.
  intros [Hs Hr] Hne Hp Hc H. unfold profiling_state in H. injection H as Hh' Hc'.
  destruct (Hs _ _ Hc) as [_ [dq Hq]].
  split.
  - intros k p' Hk. rewrite Hc' in Hk. rewrite Hh'.
    destruct (decide (k = hdl)) as [->|Hkh].
    + rewrite lookup_insert_eq in Hk. injection Hk as <-.
      split; [exact Hne|]. exists d. apply lookup_insert_eq.
    + rewrite lookup_insert_ne in Hk by auto.
      destruct (Hs _ _ Hk) as [Hk1 [d' Hd']]. split; [exact Hk1|]. exists d'.
      rewrite lookup_insert_ne by congruence.
      rewrite lookup_delete_ne; [exact Hd'|]. congruence.
  - intros p' s Hs'. rewrite Hh' in Hs'. rewrite Hc'.
    destruct (decide (p' = p)) as [->|Hpp].
    + rewrite lookup_insert_eq in Hs'. injection Hs' as <-. apply lookup_insert_eq.
    + rewrite lookup_insert_ne in Hs' by auto.
      apply lookup_delete_Some in Hs' as [Hqp Hs'].
      pose proof (Hr _ _ Hs') as Hreg.
      rewrite lookup_insert_ne; [exact Hreg|]. congruence.
Qed.

Lemma profiling_inv_erase (h p : Z) (w w' : world Env) :
  profiling_inv w ->
  profiling_cache w !! h = Some p ->
  profiling_state w' = (delete p (profiling_heap w), delete h (profiling_cache w)) ->
  profiling_inv w'.
Proof.
  intros [Hs Hr] Hc H. unfold profiling_state in H. injection H as Hh' Hc'.
  destruct (Hs _ _ Hc) as [_ [dp Hp]].
  split.
  - intros k p' Hk. rewrite Hc' in Hk. rewrite Hh'.
    apply lookup_delete_Some in Hk as [Hkh Hk].
    destruct (Hs _ _ Hk) as [Hk1 [d' Hd']]. split; [exact Hk1|]. exists d'.
    rewrite lookup_delete_ne; [exact Hd'|]. congruence.
  - intros p' s Hs'. rewrite Hh' in Hs'. rewrite Hc'.
    apply lookup_delete_Some in Hs' as [Hpp Hs'].
    pose proof (Hr _ _ Hs') as Hreg.
    rewrite lookup_delete_ne; [exact Hreg|]. congruence.
Qed.

Lemma profiling_inv_start
    (handle option : Z) (p1 p2 : string) (value : Z) (w : world Env) :
  profiling_inv w ->
  profiling_inv (xrtAIEStartProfiling handle option p1 p2 value w).2.
Proof.
  intros Hinv. pose proof (fresh_not_live_profiling w) as Hp.
  destruct (decide (option < 0 ∨ option > 3)) as [Hopt|Hopt].
  { rewrite (xrtAIEStartProfiling_bad_option_run _ _ _ _ _ _ Hopt).
    destruct (answer (ext_get_core_device handle) w) as [d|e].
    - eapply profiling_inv_state; [|exact Hinv].
      cbn [snd]. destruct (xrt_core_error _ _); unfold profiling_state; simpl;
        rewrite (delete_id _ _ Hp); reflexivity.
    - eapply profiling_inv_state; [|exact Hinv]. destruct e; reflexivity. }
  unfold xrtAIEStartProfiling. rewrite catch_and_report_run.
  rewrite (start_profiling_try_run _ _ _ _ _ _ Hopt).
  rewrite (delete_id _ _ Hp).
  destruct (answer (ext_get_core_device handle) w) as [d|e].
  2:{ eapply profiling_inv_state; [|exact Hinv]. destruct e; reflexivity. }
  cbv zeta.
  destruct (answer (ext_device d _) _) as [hdl|e].
  2:{ eapply profiling_inv_state; [|exact Hinv]. destruct e; reflexivity. }
  destruct (decide (hdl = invalid_handle)) as [->|Hne].
  { eapply profiling_inv_state; [|exact Hinv].
    cbn [snd]. destruct (xrt_core_error _ _); reflexivity. }
  destruct (profiling_cache w !! hdl) as [q|] eqn:Hc.
  - destruct (proj1 Hinv _ _ Hc) as [_ [d' Hq]].
    assert (Hqp : q <> alloc (live w)) by congruence.
    erewrite (profiling_register_replace hdl (alloc (live w)) q)
      by first [ exact Hc | exact Hqp | simpl; apply lookup_insert_eq
               | simpl; rewrite lookup_insert_ne by (apply not_eq_sym, Hqp); exact Hq ].
    eapply (profiling_inv_register_replace hdl (alloc (live w)) q d);
      [exact Hinv | exact Hne | exact Hp | exact Hc |].
    unfold profiling_state. simpl.
    rewrite (delete_insert_ne (profiling_heap w) q (alloc (live w))) by exact Hqp.
    rewrite insert_insert_eq. reflexivity.
  - erewrite profiling_register_fresh
      by first [exact Hc | simpl; apply lookup_insert_eq].
    eapply (profiling_inv_register_fresh hdl (alloc (live w)) d);
      [exact Hinv | exact Hne | exact Hp | exact Hc |].
    unfold profiling_state. simpl. rewrite insert_insert_eq. reflexivity.
Qed.

Lemma profiling_inv_stop (handle h : Z) (w : world Env) :
  profiling_inv w -> profiling_inv (xrtAIEStopProfiling handle h w).2.
Proof.
  intros Hinv. destruct (profiling_cache w !! h) as [p|] eqn:Hc.
  - destruct (proj1 Hinv _ _ Hc) as [Hne [d Hp]].
    rewrite (stop_profiling_run handle h p _ w Hc Hp Hne).
    cbn [p_device profiling_hdl].
    destruct (answer _ w) as [v|e].
    + eapply (profiling_inv_erase h p); [exact Hinv | exact Hc | reflexivity].
    + eapply profiling_inv_state; [|exact Hinv]. destruct e; reflexivity.
  - unfold xrtAIEStopProfiling. rewrite catch_and_report_run.
    unfold xrtAIEStopProfiling_try, profiling_cache_find. rewrite bind_run, Hc.
    eapply profiling_inv_state; [|exact Hinv].
    cbn [snd]. unfold throw. cbn [snd]. destruct (xrt_core_error _ _); reflexivity.
Qed.

Lemma profiling_inv_step (c : capi_call) (w : world Env) :
  profiling_inv w -> profiling_inv (capi c w).2.
Proof.
  intros Hinv. destruct (changes_profiling c) eqn:Hc.
  - destruct c; try discriminate Hc; simpl; rewrite fmap_snd.
    + apply profiling_inv_start, Hinv.
    + apply profiling_inv_stop, Hinv.
  - eapply profiling_inv_state; [|exact Hinv].
    apply keeps_profiling_state_capi, Hc.
Qed.

Lemma profiling_inv_run (cs : list capi_call) (w : world Env) :
  profiling_inv w -> profiling_inv (run_calls cs w).
Proof.
  revert w. induction cs as [|c cs IH]; intros w Hinv; simpl; [exact Hinv|].
  pose proof (profiling_inv_step c w Hinv) as Hstep.
  destruct (capi c w) as [[v|e|] w1]; simpl in Hstep; auto.
Qed.

Lemma profiling_entry_absent (handle h : Z) (w : world Env) :
  profiling_cache w !! h = None ->
  xrtAIEReadProfiling handle h w =
    (Ok UINT64_MAX, reported (xrt_core_error (- EINVAL) "No such profiling handle") w) /\
  xrtAIEStopProfiling handle h w =
    (Ok tt, reported (xrt_core_error (- EINVAL) "No such profiling handle") w).
Proof.
  intros Hc. split.
  - unfold xrtAIEReadProfiling. rewrite catch_and_report_run.
    unfold xrtAIEReadProfiling_try, profiling_cache_find.
    rewrite bind_run, Hc. reflexivity.
  - unfold xrtAIEStopProfiling. rewrite catch_and_report_run.
    unfold xrtAIEStopProfiling_try, profiling_cache_find.
    rewrite bind_run, Hc. reflexivity.
Qed.

(** X11. After any sequence of calls to the C entry points from the start
    of the process, every registered profiling handle is bound to a live
    profiling object that holds this very handle -- never
    [invalid_handle] -- and that the registry alone owns, and every live
    profiling object is registered under the handle it holds. So on the C
    surface the handle a caller passes is the handle the device gets: read
    and stop of a registered handle never fail with "Not a valid profiling
    handle", they reach the device with that handle. *)
Theorem profiling_registry_invariant (cs : list capi_call) (e : Env) (handle h : Z) :
  let w := run_calls cs (initial_world e) in
  profiling_heap_registered w /\
  match profiling_cache w !! h with
  | Some p =>
      h <> invalid_handle /\
      exists d,
        profiling_heap w !! p = Some (Shared (Build_profiling_impl d h) 1) /\
        issued (xrtAIEReadProfiling handle h) w =
          [(ext_device d (op_read_profiling h), answer (ext_device d (op_read_profiling h)) w)] /\
        take 1 (issued (xrtAIEStopProfiling handle h) w) =
          [(ext_device d (op_stop_profiling h), answer (ext_device d (op_stop_profiling h)) w)]
  | None =>
      issued (xrtAIEReadProfiling handle h) w = [] /\
      issued (xrtAIEStopProfiling handle h) w = []
  end.
Proof.
  intros w.
  pose proof (profiling_inv_run cs _ (profiling_inv_initial e)) as [Hs Hr]. fold w in Hs, Hr.
  split; [exact Hr|].
  destruct (profiling_cache w !! h) as [p|] eqn:Hc.
  - destruct (Hs _ _ Hc) as [Hne [d Hp]]. split; [exact Hne|]. exists d.
    split; [exact Hp|]. split.
    + apply issued_snoc.
      rewrite (read_profiling_run handle h p _ w Hc Hp Hne). cbn [pointee p_device profiling_hdl].
      destruct (answer _ w) as [v|ex] eqn:E; cbn [snd]; rewrite ?reported_trace;
        simpl; rewrite E; reflexivity.
    + unfold issued.
      rewrite (stop_profiling_run handle h p _ w Hc Hp Hne). cbn [p_device profiling_hdl].
      destruct (answer _ w) as [v|ex] eqn:E; cbn [snd]; rewrite ?reported_trace;
        simpl; rewrite E; rewrite <- ?app_assoc, drop_app_length; reflexivity.
  - destruct (profiling_entry_absent handle h w Hc) as [Hread Hstop].
    unfold issued. rewrite Hread, Hstop. cbn [snd].
    rewrite !reported_trace, drop_all. auto.
Qed.

(** ** When the process is terminated *)

Lemma never_aborts_ret {A : Type} (a : A) : never_aborts (mret a : M A).
Proof. intros w. discriminate. Qed.

Lemma never_aborts_throw {A : Type} (e : exn) : never_aborts (throw e : M A).
Proof. intros w. discriminate. Qed.

Lemma never_aborts_ext (c : ext_call) : never_aborts (ext c).
Proof. intros w. rewrite ext_run. destruct (answer c w); discriminate. Qed.

Lemma never_aborts_bind {A B : Type} (m : M A) (k : A -> M B) :
  never_aborts m -> (forall a, never_aborts (k a)) -> never_aborts (m ≫= k).
Proof.
  intros Hm Hk w. rewrite bind_run. specialize (Hm w).
  destruct (m w) as [[a|e|] w1]; [apply Hk | discriminate | exfalso; apply Hm; reflexivity].
Qed.

Lemma never_aborts_fmap {A B : Type} (f : A -> B) (m : M A) :
  never_aborts m -> never_aborts (f <$> m).
Proof.
  intros Hm w. rewrite fmap_run. specialize (Hm w).
  destruct (m w) as [[a|e|] w1];
    [discriminate | discriminate | exfalso; apply Hm; reflexivity].
Qed.

Lemma capi_abort (c : capi_call) (w : world Env) :
  (capi c w).1 = Abort <-> (capi_try c w).1 = Abort.
Proof.
  rewrite capi_boundary. destruct (capi_try c w) as [[v|e|] w1]; simpl;
    split; try discriminate; reflexivity.
Qed.

(** The entry points that work on no object of the two registries. *)
Lemma never_aborts_capi_try_device (c : capi_call) :
  touches_graphs c = false -> changes_profiling c = false ->
  (forall handle pHandle, c <> call_xrtAIEReadProfiling handle pHandle) ->
  never_aborts (capi_try c).
Proof.
  intros Hg Hp Hr.
  destruct c; try discriminate Hg; try discriminate Hp;
    try (exfalso; eapply Hr; reflexivity);
    simpl; unfold_try_blocks; unfold_helpers;
    repeat first
      [ apply never_aborts_ret
      | apply never_aborts_ext
      | apply never_aborts_fmap
      | apply never_aborts_bind; [|intros ?] ].
Qed.

Lemma close_try_result (h : Z) (o : graph_impl) (w : world Env) :
  graph_cache w !! h = Some h ->
  graph_heap w !! h = Some (Shared o 1) ->
  let close := ext_device (g_device o) (op_close_graph (g_handle o)) in
  xrtGraphClose_try h w =
  (match answer close w with
   | Normal _ => Ok tt
   | Raise _ => Abort
   end,
   answered close
     (set_graph_heap (delete h (graph_heap w))
        (set_graph_cache (delete h (graph_cache w)) w))).
Proof.
  intros Hc Ho close. unfold xrtGraphClose_try, close_graph.
  rewrite bind_run, graph_cache_erase_run, Hc, bind_run.
  rewrite (graph_ptr_release_last h o) by exact Ho.
  rewrite graph_impl_dtor_run. fold close.
  change (answer close (set_graph_heap _ _)) with (answer close w).
  destruct (answer close w); reflexivity.
Qed.

Lemma start_profiling_no_abort
    (handle option : Z) (p1 p2 : string) (value : Z) (w : world Env) :
  profiling_registry_sound w ->
  (xrtAIEStartProfiling handle option p1 p2 value w).1 <> Abort.
Proof.
  intros Hs. pose proof (fresh_not_live_profiling w) as Hp.
  destruct (decide (option < 0 ∨ option > 3)) as [Hopt|Hopt].
  { rewrite (xrtAIEStartProfiling_bad_option_run _ _ _ _ _ _ Hopt).
    destruct (answer (ext_get_core_device handle) w); discriminate. }
  unfold xrtAIEStartProfiling. rewrite catch_and_report_run.
  rewrite (start_profiling_try_run _ _ _ _ _ _ Hopt).
  destruct (answer (ext_get_core_device handle) w) as [d|e]; [|discriminate].
  cbv zeta.
  destruct (answer (ext_device d _) _) as [hdl|e]; [|discriminate].
  destruct (decide (hdl = invalid_handle)) as [->|Hne]; [discriminate|].
  destruct (profiling_cache w !! hdl) as [q|] eqn:Hc.
  - destruct (Hs _ _ Hc) as [_ [d' Hq]].
    assert (Hqp : q <> alloc (live w)) by congruence.
    erewrite (profiling_register_replace hdl (alloc (live w)) q)
      by first [ exact Hc | exact Hqp | simpl; apply lookup_insert_eq
               | simpl; rewrite lookup_insert_ne by (apply not_eq_sym, Hqp); exact Hq ].
    discriminate.
  - erewrite profiling_register_fresh
      by first [exact Hc | simpl; apply lookup_insert_eq].
    discriminate.
Qed.

Lemma read_profiling_no_abort (handle h : Z) (w : world Env) :
  profiling_registry_sound w -> (xrtAIEReadProfiling handle h w).1 <> Abort.
Proof.
  intros Hs. destruct (profiling_cache w !! h) as [p|] eqn:Hc.
  - destruct (Hs _ _ Hc) as [Hne [d Hp]].
    rewrite (read_profiling_run handle h p _ w Hc Hp Hne).
    destruct (answer _ w); discriminate.
  - rewrite (proj1 (profiling_entry_absent handle h w Hc)). discriminate.
Qed.

Lemma stop_profiling_no_abort (handle h : Z) (w : world Env) :
  profiling_registry_sound w -> (xrtAIEStopProfiling handle h w).1 <> Abort.
Proof.
  intros Hs. destruct (profiling_cache w !! h) as [p|] eqn:Hc.
  - destruct (Hs _ _ Hc) as [Hne [d Hp]].
    rewrite (stop_profiling_run handle h p _ w Hc Hp Hne).
    destruct (answer _ w); discriminate.
  - rewrite (proj2 (profiling_entry_absent handle h w Hc)). discriminate.
Qed.

Lemma fmap_fst_abort {A B : Type} (f : A -> B) (m : M A) (w : world Env) :
  ((f <$> m) w).1 = Abort -> (m w).1 = Abort.
Proof.
  rewrite fmap_run. destruct (m w) as [[a|e|] w1]; try discriminate 1. reflexivity.
Qed.

Lemma capi_abort_inv (c : capi_call) (w : world Env) :
  graph_registry_sound w ->
  profiling_registry_sound w ->
  (capi c w).1 = Abort ->
  exists h o ex,
    c = call_xrtGraphClose h /\
    graph_cache w !! h = Some h /\
    graph_heap w !! h = Some (Shared o 1) /\
    answer (ext_device (g_device o) (op_close_graph (g_handle o))) w = Raise ex.
Proof.
  intros Hg Hp Ha.
  destruct (graph_method_op c) as [[h op]|] eqn:Hop.
  { exfalso. apply capi_abort in Ha.
    destruct (graph_cache w !! h) as [p|] eqn:Hc.
    - destruct (Hg _ _ Hc) as [<- [o Ho]].
      rewrite (graph_method_try_run c h op h o 0 w Hop Hc Ho) in Ha.
      simpl in Ha. destruct (answer _ w); discriminate Ha.
    - rewrite (graph_method_try_absent c h op w Hop Hc) in Ha. discriminate Ha. }
  destruct (graph_open_args c) as [[[[dhdl u] name] am]|] eqn:Hopen.
  { exfalso. apply capi_abort in Ha.
    rewrite (capi_try_open c _ _ _ _ w Hopen), fmap_run,
      (open_scope_result _ _ _ _ w Hg) in Ha.
    destruct (answer _ w); [|discriminate Ha].
    destruct (answer _ _); discriminate Ha. }
  destruct c; try discriminate Hop; try discriminate Hopen.
  all: try (exfalso; apply capi_abort in Ha; revert Ha;
            apply never_aborts_capi_try_device; [reflexivity | reflexivity | discriminate]).
  - apply capi_abort in Ha. simpl in Ha. apply fmap_fst_abort in Ha.
    destruct (graph_cache w !! graph_hdl) as [p|] eqn:Hc.
    + destruct (Hg _ _ Hc) as [<- [o Ho]].
      rewrite (close_try_result graph_hdl o w Hc Ho) in Ha. simpl in Ha.
      destruct (answer _ w) as [v|ex] eqn:E; [discriminate Ha|].
      exists graph_hdl, o, ex. auto.
    + rewrite (xrtGraphClose_try_absent _ _ Hc) in Ha. discriminate Ha.
  - exfalso. simpl in Ha. apply fmap_fst_abort in Ha.
    exact (start_profiling_no_abort _ _ _ _ _ w Hp Ha).
  - exfalso. simpl in Ha. apply fmap_fst_abort in Ha.
    exact (read_profiling_no_abort _ _ w Hp Ha).
  - exfalso. simpl in Ha. apply fmap_fst_abort in Ha.
    exact (stop_profiling_no_abort _ _ w Hp Ha).
Qed.

(** X12. The process is terminated in one situation only. After any
    sequence of calls to the C entry points from the start of the process,
    a further call ends in [std::terminate] exactly when it is
    [xrtGraphClose] of a registered handle and the device's [close_graph],
    called by the destructor of the graph object, throws. No other entry
    point terminates the process, whatever the devices answer, and none
    uses a pointer to an object that is gone. *)
Theorem terminate_only_when_close_graph_throws
    (cs : list capi_call) (e : Env) (c : capi_call) :
  let w := run_calls cs (initial_world e) in
  (capi c w).1 = Abort <->
  exists h o ex,
    c = call_xrtGraphClose h /\
    graph_cache w !! h = Some h /\
    graph_heap w !! h = Some (Shared o 1) /\
    answer (ext_device (g_device o) (op_close_graph (g_handle o))) w = Raise ex.
Proof.
  intros w.
  pose proof (graph_inv_run cs _ (graph_inv_initial e)) as (Hg & _ & _).
  pose proof (profiling_inv_run cs _ (profiling_inv_initial e)) as [Hp _].
  fold w in Hg, Hp. split.
  - apply capi_abort_inv; assumption.
  - intros (h & o & ex & -> & Hc & Ho & Hex).
    apply capi_abort. simpl. rewrite fmap_run, (close_try_result h o w Hc Ho), Hex.
    reflexivity.
Qed.

(** ** The object-oriented surface *)

(** X13. Every method of [xrt::graph], called on a live graph object, makes
    exactly one device call, on the object's device with the driver's
    handle the object holds. A failure of the device leaves the method as
    the exception the device threw: nothing is logged, [errno] is not
    assigned, and the state changes by the device call alone. What the
    device returns is dropped, the time stamp apart: the timed [wait]
    returns nothing, so the status of [wait_graph_done] does not reach the
    caller. *)
Theorem graph_method_forwards
    (m : graph_method) (handle : Z) (s : shared_obj graph_impl) (w : world Env) :
  graph_heap w !! handle = Some s ->
  let call :=
    ext_device (g_device (pointee s)) (graph_method_device_op m (g_handle (pointee s))) in
  graph_method_call m handle w =
  (match answer call w with
   | Normal v => Ok (graph_method_result m v)
   | Raise e => Throw e
   end, answered call w).
Proof.
  intros Hs call. subst call.
  destruct m; simpl;
    unfold graph_reset, graph_get_timestamp, graph_run, graph_wait_ms, graph_wait_cycles,
      graph_suspend, graph_resume, graph_end, graph_update_port, graph_read_port,
      profiling_wrapper;
    try match goal with |- context [decide (?t = 0)] => destruct (decide (t = 0)) end;
    unfold_helpers;
    repeat (rewrite ?bind_run, ?fmap_run, ?(graph_deref_run _ _ _ Hs), ?ext_run; simpl);
    destruct (answer _ w); reflexivity.
Qed.

Lemma static_cast_int_id (z : Z) : - 2 ^ 31 <= z < 2 ^ 31 -> static_cast_int z = z.
Proof. intros H. unfold static_cast_int. rewrite Z.mod_small by lia. lia. Qed.

Lemma static_cast_int_high (z : Z) :
  2 ^ 31 <= z < 2 ^ 32 -> static_cast_int z = z - 2 ^ 32.
Proof.
  intros H. unfold static_cast_int.
  replace (z + 2 ^ 31) with (z - 2 ^ 31 + 1 * 2 ^ 32) by lia.
  rewrite Z.mod_add by lia. rewrite Z.mod_small by lia. lia.
Qed.

Lemma static_cast_int_multiple (k : Z) : static_cast_int (k * 2 ^ 32) = 0.
Proof.
  unfold static_cast_int. rewrite Z.add_comm, Z.mod_add by lia. reflexivity.
Qed.

Lemma graph_run_issued (handle iterations : Z) (s : shared_obj graph_impl) (w : world Env) :
  graph_heap w !! handle = Some s ->
  let call := ext_device (g_device (pointee s))
                (op_run_graph (g_handle (pointee s)) (static_cast_int iterations)) in
  issued (graph_run handle iterations) w = [(call, answer call w)].
Proof.
  intros Hs call. apply issued_snoc.
  unfold graph_run, profiling_wrapper, graph_impl_run, device_call.
  repeat (rewrite ?bind_run, ?(graph_deref_run _ _ _ Hs), ?ext_run; simpl).
  fold call. destruct (answer call w) eqn:E; unfold mret, M_ret; simpl; rewrite E; reflexivity.
Qed.

Lemma graph_wait_ms_issued (handle timeout_ms : Z) (s : shared_obj graph_impl)
    (w : world Env) :
  graph_heap w !! handle = Some s ->
  timeout_ms <> 0 ->
  let call := ext_device (g_device (pointee s))
                (op_wait_graph_done (g_handle (pointee s)) (static_cast_int timeout_ms)) in
  issued (graph_wait_ms handle timeout_ms) w = [(call, answer call w)].
Proof.
  intros Hs Hne call. apply issued_snoc.
  unfold graph_wait_ms, profiling_wrapper.
  destruct (decide (timeout_ms = 0)); [contradiction|].
  unfold graph_impl_wait_int, device_call.
  repeat (rewrite ?bind_run, ?(graph_deref_run _ _ _ Hs), ?ext_run; simpl).
  fold call. destruct (answer call w) eqn:E; unfold mret, M_ret; simpl; rewrite E; reflexivity.
Qed.

(** X14. The two conversions to [int] on the object-oriented graph surface.
    [xrt::graph::run] takes a 32-bit unsigned count and hands it to
    [graph_impl::run(int)]: a count below 2^31 reaches the device's
    [run_graph] unchanged, a count from 2^31 on reaches it reduced by 2^32,
    a negative number. The timed [wait] casts its millisecond count to
    [int]: a non-zero count in the range of [int] reaches
    [wait_graph_done] unchanged, and a non-zero multiple of 2^32 reaches it
    as the timeout 0 -- it is not turned into the cycle-based wait that a
    zero count selects. (A conversion out of range wraps modulo 2^32.) *)
Theorem graph_int_conversions
    (handle : Z) (s : shared_obj graph_impl) (w : world Env) (n : Z) :
  graph_heap w !! handle = Some s ->
  let d := g_device (pointee s) in
  let g := g_handle (pointee s) in
  let once (op : device_op) := [(ext_device d op, answer (ext_device d op) w)] in
  (0 <= n < 2 ^ 31 -> issued (graph_run handle n) w = once (op_run_graph g n)) /\
  (2 ^ 31 <= n < 2 ^ 32 ->
   issued (graph_run handle n) w = once (op_run_graph g (n - 2 ^ 32))) /\
  (n <> 0 -> - 2 ^ 31 <= n < 2 ^ 31 ->
   issued (graph_wait_ms handle n) w = once (op_wait_graph_done g n)) /\
  (n <> 0 ->
   issued (graph_wait_ms handle (n * 2 ^ 32)) w = once (op_wait_graph_done g 0)).
Proof.
  intros Hs d g once. subst d g once. cbv beta. repeat split.
  - intros Hn. rewrite (graph_run_issued _ _ _ _ Hs), static_cast_int_id by lia.
    reflexivity.
  - intros Hn. rewrite (graph_run_issued _ _ _ _ Hs), static_cast_int_high by lia.
    reflexivity.
  - intros Hne Hn.
    rewrite (graph_wait_ms_issued _ _ _ _ Hs Hne), static_cast_int_id by lia.
    reflexivity.
  - intros Hne.
    rewrite (graph_wait_ms_issued _ _ _ _ Hs), static_cast_int_multiple by lia.
    reflexivity.
Qed.


(** ** Round trips *)

Lemma graph_open_success
    (c : capi_call) (dhdl u : Z) (name : string) (am : access_mode) (d g : Z)
    (w : world Env) :
  graph_open_args c = Some (dhdl, u, name, am) ->
  graph_registry_sound w ->
  answer (ext_get_core_device dhdl) w = Normal d ->
  answer (ext_device d (op_open_graph u name am))
         (answered (ext_get_core_device dhdl) w) = Normal g ->
  capi c w =
  (Ok (RHandle (alloc (live w))),
   set_graph_cache (<[alloc (live w) := alloc (live w)]> (graph_cache w))
     (set_graph_heap
        (<[alloc (live w) := Shared (Build_graph_impl d g) 1]> (graph_heap w))
        (answered (ext_device d (op_open_graph u name am))
           (answered (ext_get_core_device dhdl) w)))).
Proof.
  intros Hc Hs H1 H2.
  rewrite capi_boundary, (capi_try_open c _ _ _ _ w Hc), fmap_run,
    (open_scope_result _ _ _ _ w Hs), H1, H2. reflexivity.
Qed.

(** X16. Open, then close. When a graph open succeeds on a registry whose
    entries are sound, [xrtGraphClose] of the handle it returned makes one
    device call: [close_graph], on the device the open resolved, of the
    driver's handle that device gave for the graph. It ends normally when
    the device returns and in [std::terminate] when the device throws;
    either way the graph heap and the graph registry are then exactly what
    they were before the open. *)
Theorem graph_open_close_round_trip
    (c : capi_call) (dhdl u : Z) (name : string) (am : access_mode) (d g : Z)
    (w : world Env) :
  graph_open_args c = Some (dhdl, u, name, am) ->
  graph_registry_sound w ->
  answer (ext_get_core_device dhdl) w = Normal d ->
  answer (ext_device d (op_open_graph u name am))
         (answered (ext_get_core_device dhdl) w) = Normal g ->
  let h := alloc (live w) in
  let w1 := (capi c w).2 in
  let close := ext_device d (op_close_graph g) in
  let w2 := (xrtGraphClose h w1).2 in
  (capi c w).1 = Ok (RHandle h) /\
  issued (xrtGraphClose h) w1 = [(close, answer close w1)] /\
  (xrtGraphClose h w1).1 =
    match answer close w1 with Normal _ => Ok tt | Raise _ => Abort end /\
  graph_heap w2 = graph_heap w /\
  graph_cache w2 = graph_cache w.
Proof.
  intros Hc Hs H1 H2 h w1 close w2. subst w2 w1.
  rewrite (graph_open_success c _ _ _ _ d g w Hc Hs H1 H2). fold h. cbn [fst snd].
  split; [reflexivity|].
  set (w1 := set_graph_cache _ _).
  assert (Hcache : graph_cache w1 !! h = Some h) by apply lookup_insert_eq.
  assert (Hheap : graph_heap w1 !! h = Some (Shared (Build_graph_impl d g) 1))
    by apply lookup_insert_eq.
  assert (Hrun : xrtGraphClose h w1 =
    (match answer close w1 with Normal _ => Ok tt | Raise _ => Abort end,
     answered close
       (set_graph_heap (delete h (graph_heap w1))
          (set_graph_cache (delete h (graph_cache w1)) w1)))).
  { unfold xrtGraphClose.
    rewrite catch_and_report_run, (close_try_result h _ w1 Hcache Hheap).
    cbn [g_device g_handle]. fold close. destruct (answer close w1); reflexivity. }
  rewrite Hrun. cbn [fst snd]. split; [|split; [reflexivity|]].
  - apply issued_snoc. rewrite Hrun. reflexivity.
  - subst w1. simpl. rewrite !delete_insert_eq.
    split; apply delete_id; [apply fresh_not_live | apply fresh_not_registered, Hs].
Qed.

(** X17. Start, read, stop. When [xrtAIEStartProfiling] succeeds with a
    handle that was not registered, [xrtAIEReadProfiling] of that handle
    is the device's [read_profiling] of it, on the device the start
    resolved, and [xrtAIEStopProfiling] of it calls that device's
    [stop_profiling] with it. When this call returns, the stop makes a
    second call, [stop_profiling(invalid_handle)] from the destructor, and
    the profiling heap and the profiling registry are then exactly what
    they were before the start. *)
Theorem profiling_start_read_stop_round_trip
    (handle option : Z) (p1 p2 : string) (value : Z) (d hdl : Z) (any : Z)
    (w : world Env) :
  0 <= option <= 3 ->
  answer (ext_get_core_device handle) w = Normal d ->
  answer (ext_device d (op_start_profiling option p1 p2 value))
         (answered (ext_get_core_device handle) w) = Normal hdl ->
  hdl <> invalid_handle ->
  profiling_cache w !! hdl = None ->
  let w1 := (xrtAIEStartProfiling handle option p1 p2 value w).2 in
  let read := ext_device d (op_read_profiling hdl) in
  let stop := ext_device d (op_stop_profiling hdl) in
  (xrtAIEStartProfiling handle option p1 p2 value w).1 = Ok hdl /\
  xrtAIEReadProfiling any hdl w1 =
    match answer read w1 with
    | Normal v => (Ok v, answered read w1)
    | Raise e => (Ok UINT64_MAX, reported e (answered read w1))
    end /\
  match answer stop w1 with
  | Raise e => xrtAIEStopProfiling any hdl w1 = (Ok tt, reported e (answered stop w1))
  | Normal v =>
      let w2 := (xrtAIEStopProfiling any hdl w1).2 in
      issued (xrtAIEStopProfiling any hdl) w1 =
        [(stop, answer stop w1);
         (ext_device d (op_stop_profiling invalid_handle),
          answer (ext_device d (op_stop_profiling invalid_handle)) (answered stop w1))] /\
      profiling_heap w2 = profiling_heap w /\
      profiling_cache w2 = profiling_cache w
  end.
Proof.
  intros Hopt Hd Hh Hne Hc w1 read stop. subst w1.
  pose proof (start_profiling_run handle option p1 p2 value w Hopt) as Hrun.
  cbv zeta in Hrun. rewrite Hd, Hh in Hrun.
  destruct (decide (hdl = invalid_handle)) as [|_]; [contradiction|].
  rewrite (Hrun Hc). cbn [fst snd]. clear Hrun.
  split; [reflexivity|].
  set (p := alloc (live w)).
  set (w1 := set_profiling_cache _ _).
  assert (Hcache : profiling_cache w1 !! hdl = Some p) by apply lookup_insert_eq.
  assert (Hheap : profiling_heap w1 !! p = Some (Shared (Build_profiling_impl d hdl) 1))
    by apply lookup_insert_eq.
  split.
  { rewrite (read_profiling_run any hdl p _ w1 Hcache Hheap Hne). reflexivity. }
  pose proof (stop_profiling_run any hdl p _ w1 Hcache Hheap Hne) as Hstop.
  cbv zeta in Hstop. cbn [p_device profiling_hdl] in Hstop. fold stop in Hstop.
  destruct (answer stop w1) as [v|e] eqn:E; [|exact Hstop].
  cbv zeta. rewrite Hstop. cbn [snd]. split; [|split].
  - apply issued_snoc. rewrite Hstop. simpl. rewrite <- app_assoc, E. reflexivity.
  - subst w1. simpl. rewrite delete_insert_eq.
    apply delete_id, fresh_not_live_profiling.
  - subst w1. simpl. rewrite delete_insert_eq. apply delete_id, Hc.
Qed.

(** ** Buffer synchronisation, array reset and GMIO wait *)

(** X18. [xrtSyncBOAIE], [xrtSyncBOAIENB], [xrtResetAIEArray] and
    [xrtGMIOWait], and the deprecated names [xrtAIESyncBO] and
    [xrtAIEResetArray], which do what the new names do: the device handle
    is resolved first, then -- for the two synchronisations -- the buffer
    handle is turned into a buffer object, then the one operation is
    called on the device. The first of these steps that throws ends the
    call: the failure is reported, -1 is returned, and the later steps are
    not made. When none throws, 0 is returned. *)
Theorem device_entry_outcome
    (c : capi_call) (handle : Z) (bohdl : option Z) (op : Z -> device_op) (w : world Env) :
  device_entry c = Some (handle, bohdl, op) ->
  let finish (b : Z) (d : Z) (w' : world Env) :=
    match answer (ext_device d (op b)) w' with
    | Normal _ => (Ok (RInt 0), answered (ext_device d (op b)) w')
    | Raise e => (Ok (RInt (-1)), reported e (answered (ext_device d (op b)) w'))
    end in
  let w1 := answered (ext_get_core_device handle) w in
  capi c w =
  match answer (ext_get_core_device handle) w with
  | Raise e => (Ok (RInt (-1)), reported e w1)
  | Normal d =>
      match bohdl with
      | None => finish 0 d w1
      | Some b =>
          match answer (ext_bo b) w1 with
          | Raise e => (Ok (RInt (-1)), reported e (answered (ext_bo b) w1))
          | Normal bo => finish bo d (answered (ext_bo b) w1)
          end
      end
  end.
Proof.
  intros Hc finish w1. subst finish w1.
  destruct c; try discriminate Hc; injection Hc as <- <- <-;
    rewrite capi_boundary; simpl; rewrite fmap_run;
    unfold_try_blocks; unfold_helpers;
    rewrite !bind_run, ext_run;
    (destruct (answer (ext_get_core_device _) w) as [d|e]; [|reflexivity]);
    cbn beta iota; rewrite ?bind_run, ext_run;
    try (destruct (answer (ext_bo _) _) as [bo|e]; [|reflexivity];
         cbn beta iota; rewrite ?bind_run, ext_run);
    destruct (answer (ext_device _ _) _); reflexivity.
Qed.

(** ** The life of an [xrt::graph] object *)

Lemma graph_method_issued
    (m : graph_method) (handle : Z) (s : shared_obj graph_impl) (w : world Env) :
  graph_heap w !! handle = Some s ->
  let call :=
    ext_device (g_device (pointee s)) (graph_method_device_op m (g_handle (pointee s))) in
  trace (graph_method_call m handle w).2 = trace w ++ [(call, answer call w)].
Proof.
  intros Hs call. subst call.
  destruct m; simpl;
    unfold graph_reset, graph_get_timestamp, graph_run, graph_wait_ms, graph_wait_cycles,
      graph_suspend, graph_resume, graph_end, graph_update_port, graph_read_port,
      profiling_wrapper;
    try match goal with |- context [decide (?t = 0)] => destruct (decide (t = 0)) end;
    unfold_helpers;
    repeat (rewrite ?bind_run, ?fmap_run, ?(graph_deref_run _ _ _ Hs), ?ext_run; simpl);
    destruct (answer _ w) eqn:E; simpl; rewrite ?E; reflexivity.
Qed.

(** X19. The constructor of [xrt::graph] asks the device to open the graph.
    If the device throws, so does the constructor, and no object exists.
    If the device returns a driver's handle, a graph object holding the
    device and that handle is created with one owner; it is not entered
    in the registry of the C surface. Every method of the new object
    makes its device call with that driver's handle, and giving up the
    object calls the device's [close_graph] with it and leaves the graph
    heap as it was before the constructor. *)
Theorem graph_object_life
    (device u : Z) (name : string) (am : access_mode) (w : world Env) :
  let open := ext_device device (op_open_graph u name am) in
  let p := alloc (live w) in
  match answer open w with
  | Raise e => graph_ctor device u name am w = (Throw e, answered open w)
  | Normal g =>
      let w1 :=
        set_graph_heap (<[p := Shared (Build_graph_impl device g) 1]> (graph_heap w))
          (answered open w) in
      let once (c : ext_call) (w' : world Env) := [(c, answer c w')] in
      graph_ctor device u name am w = (Ok p, w1) /\
      (forall m,
         issued (graph_method_call m p) w1 =
         once (ext_device device (graph_method_device_op m g)) w1) /\
      issued (graph_ptr_release p) w1 = once (ext_device device (op_close_graph g)) w1 /\
      graph_heap (graph_ptr_release p w1).2 = graph_heap w
  end.
Proof.
  intros open p.
  assert (Hrun : graph_ctor device u name am w =
    match answer open w with
    | Raise e => (Throw e, answered open w)
    | Normal g =>
        (Ok p, set_graph_heap (<[p := Shared (Build_graph_impl device g) 1]> (graph_heap w))
                 (answered open w))
    end).
  { unfold graph_ctor, open_graph_device, device_call.
    rewrite bind_run, ext_run. fold open. destruct (answer open w); reflexivity. }
  destruct (answer open w) as [g|e]; [|exact Hrun].
  intros w1 once.
  assert (Hp : graph_heap w1 !! p = Some (Shared (Build_graph_impl device g) 1))
    by apply lookup_insert_eq.
  split; [exact Hrun|]. split; [|split].
  - intros m. apply issued_snoc.
    exact (graph_method_issued m p _ w1 Hp).
  - apply issued_snoc. rewrite (graph_ptr_release_last p _ w1 Hp), graph_impl_dtor_run.
    reflexivity.
  - rewrite (graph_ptr_release_last p _ w1 Hp), graph_impl_dtor_run.
    subst w1. simpl. rewrite delete_insert_eq. apply delete_id, fresh_not_live.
Qed.

(** ** The two families of objects *)

Lemma keeps_graph_ledger_capi (c : capi_call) :
  touches_graphs c = false -> keeps graph_ledger (capi c).
Proof.
  intros Hc. apply keeps_capi_of_try; [reflexivity .. |].
  apply keeps_graph_ledger_capi_try, Hc.
Qed.

(** X20. Graphs and profiling objects do not interfere. An entry point
    other than profiling start and stop leaves the profiling heap and the
    profiling registry as they were, so no graph call creates, changes or
    destroys a profiling object; an entry point that works on no graph --
    the device-open, synchronisation, reset, GMIO and profiling entry
    points -- leaves the graph heap and the graph registry as they were. *)
Theorem graphs_and_profiling_apart (c : capi_call) (w : world Env) :
  (changes_profiling c = false ->
   profiling_heap (capi c w).2 = profiling_heap w /\
   profiling_cache (capi c w).2 = profiling_cache w) /\
  (touches_graphs c = false ->
   graph_heap (capi c w).2 = graph_heap w /\
   graph_cache (capi c w).2 = graph_cache w).
Proof.
  split.
  - intros Hc. pose proof (keeps_profiling_state_capi c Hc w) as H.
    unfold profiling_state in H. injection H as H1 H2. auto.
  - intros Hc. pose proof (keeps_graph_ledger_capi c Hc w) as H.
    unfold graph_ledger in H. injection H as H1 H2 H3 H4. auto.
Qed.

(** ** The registries, entry by entry *)

Lemma capi_try_registry_effect (c : capi_call) (w w1 : world Env) (v : retval) :
  capi_try c w = (Ok v, w1) -> registry_effect c v (registries w) (registries w1).
Proof.
  intros H. destruct (mutates_registry c) eqn:Hc.
  - destruct c; try discriminate Hc; simpl in *.
    + apply (graph_open_registries (call_xrtGraphOpen _ _ _)) in H; auto.
    + apply (graph_open_registries (call_xrtGraphOpenExclusive _ _ _)) in H; auto.
    + apply (graph_open_registries (call_xrtGraphOpenShared _ _ _)) in H; auto.
    + apply fmap_ok_inv in H as (u & H & ->).
      apply graph_close_registries in H. exact H.
    + apply fmap_ok_inv in H as (hdl & H & ->).
      apply start_profiling_registries in H as (p & H). eauto.
    + apply fmap_ok_inv in H as (u & H & ->).
      apply stop_profiling_registries in H. exact H.
  - apply (kept registries) in H; [|apply keeps_registries_capi_try, Hc].
    destruct c; try discriminate Hc; exact H.
Qed.

Lemma open_returns_fresh (c : capi_call) (w w1 : world Env) (h : Z) :
  graph_registry_sound w ->
  is_graph_open c = true ->
  capi_try c w = (Ok (RHandle h), w1) ->
  graph_cache w !! h = None.
Proof.
  intros Hs Hc H.
  assert (Hargs : exists dhdl u name am, graph_open_args c = Some (dhdl, u, name, am))
    by (destruct c; try discriminate Hc; simpl; eauto).
  destruct Hargs as (dhdl & u & name & am & Hargs).
  rewrite (capi_try_open c _ _ _ _ w Hargs), fmap_run,
    (open_scope_result _ _ _ _ w Hs) in H.
  destruct (answer (ext_get_core_device dhdl) w); [|discriminate H].
  destruct (answer (ext_device _ _) _); [|discriminate H].
  injection H as <- _. apply fresh_not_registered, Hs.
Qed.

Lemma map_size_delete_present (m : gmap Z Z) (k : Z) :
  is_Some (m !! k) -> S (size (delete k m)) = size m.
Proof.
  intros [x Hx].
  rewrite <- (insert_delete_id m k x Hx) at 2.
  rewrite map_size_insert_None by apply lookup_delete_eq. reflexivity.
Qed.

Lemma entries_of_effect (c : capi_call) (v : retval) (before after : gmap Z Z * gmap Z Z) :
  registry_effect c v before after ->
  (forall h, is_graph_open c = true -> v = RHandle h -> before.1 !! h = None) ->
  entries_effect c v before after.
Proof.
  intros He Hfresh. destruct c; simpl in *; try exact He.
  - destruct He as (h & -> & ->). exists h.
    pose proof (Hfresh h eq_refl eq_refl) as Hn.
    repeat split; [exact Hn | simpl; apply map_size_insert_None, Hn].
  - destruct He as (h & -> & ->). exists h.
    pose proof (Hfresh h eq_refl eq_refl) as Hn.
    repeat split; [exact Hn | simpl; apply map_size_insert_None, Hn].
  - destruct He as (h & -> & ->). exists h.
    pose proof (Hfresh h eq_refl eq_refl) as Hn.
    repeat split; [exact Hn | simpl; apply map_size_insert_None, Hn].
  - destruct He as (Hin & ->). simpl.
    repeat split; [exact Hin | apply map_size_delete_present, Hin].
  - destruct He as (hdl & p & -> & ->). exists hdl. simpl.
    repeat split. rewrite map_size_insert.
    destruct (before.2 !! hdl); reflexivity.
  - destruct He as (Hin & ->). simpl.
    repeat split; [exact Hin | apply map_size_delete_present, Hin].
Qed.

(** C9 (amended). An entry point other than graph open, graph close,
    profiling start and profiling stop leaves both registries as they were,
    whether it succeeds or fails. A successful open binds the handle it
    returns in the graph registry, a successful close removes the binding
    of its handle from it, a successful start binds the profiling handle
    it returns in the profiling registry, a successful stop removes the
    binding of its handle from it; each leaves the other registry alone.
    In every state the entry points reach from the start of the process, a
    successful open adds exactly one entry -- the handle it returns was not
    registered --, a successful close and a successful stop remove exactly
    one entry, and a successful start adds exactly one entry when the
    handle the device returned was not registered; when that handle was
    registered, the start replaces its entry and the registry has as many
    entries as before. *)
Theorem registries_changed_by_open_close_start_stop
    (c : capi_call) (w : world Env) (cs : list capi_call) (e : Env) :
  (if mutates_registry c then True
   else registries (capi c w).2 = registries w) /\
  match capi_try c w with
  | (Ok v, w1) =>
      capi c w = (Ok v, w1) /\ registry_effect c v (registries w) (registries w1)
  | _ => True
  end /\
  let w' := run_calls cs (initial_world e) in
  match capi_try c w' with
  | (Ok v, w1) => entries_effect c v (registries w') (registries w1)
  | _ => True
  end.
Proof.
  split; [|split].
  - destruct (mutates_registry c) eqn:Hc; [exact I|].
    apply keeps_registries_capi, Hc.
  - rewrite capi_boundary.
    destruct (capi_try c w) as [[v|ex|] w1] eqn:H; try exact I.
    split; [reflexivity|]. apply capi_try_registry_effect, H.
  - intros w'.
    pose proof (graph_inv_run cs _ (graph_inv_initial e)) as (Hs & _ & _). fold w' in Hs.
    destruct (capi_try c w') as [[v|ex|] w1] eqn:H; try exact I.
    apply entries_of_effect; [apply capi_try_registry_effect, H|].
    intros h Hc ->. exact (open_returns_fresh c w' w1 h Hs Hc H).
Qed.

(** ** The value an entry point returns *)







End Shim.

(** ** Scenarios on the fake device *)

Example world_graph_open_reached :
  xrtGraphOpen fake_device fake_alloc 1 5 "g1" (initial_world 10) = (Ok 1, world_graph_open).
Proof. vm_compute. reflexivity. Qed.

Example world_profiling_started_reached :
  xrtAIEStartProfiling fake_device fake_alloc fake_error_code fake_error_what
    1 1 "a" "b" 1024 (initial_world 10) = (Ok 10, world_profiling_started).
Proof. vm_compute. reflexivity. Qed.

Example world_profiling_idle_reached :
  profiling_ctor fake_alloc 101 (initial_world 10) = (Ok 1, world_profiling_idle).
Proof. vm_compute. reflexivity. Qed.

Example graph_ctor_reached :
  graph_ctor fake_device fake_alloc 101 5 "g1" primary (initial_world 10)
  = (Ok 1,
     World 11 [(ext_device 101 (op_open_graph 5 "g1" primary), Normal 10)]
       {[1 := Shared (Build_graph_impl 101 10) 1%nat]} ∅ ∅ ∅ 0 []).
Proof. vm_compute. reflexivity. Qed.

(** C1, as stated, fails: [xrtAIEStopProfiling] on a started profiling
    handle succeeds; the destructor it runs calls [stop_profiling(-1)], the
    device throws, and nothing is logged. *)
Lemma stop_profiling_failure_not_logged :
  xrtAIEStopProfiling fake_device fake_error_code fake_error_what 1 10
    world_profiling_started
  = (Ok tt,
     World 11
       [(ext_get_core_device 1, Normal 101);
        (ext_device 101 (op_start_profiling 1 "a" "b" 1024), Normal 10);
        (ext_device 101 (op_stop_profiling 10), Normal 0);
        (ext_device 101 (op_stop_profiling (-1)),
         Raise (XrtCoreError 22 "Stop profiling: invalid handle"))]
       ∅ ∅ ∅ ∅ 0 []) /\
  failures (issued (xrtAIEStopProfiling fake_device fake_error_code fake_error_what 1 10)
              world_profiling_started)
  = [XrtCoreError 22 "Stop profiling: invalid handle"] /\
  ~ every_failure_logged
      (xrtAIEStopProfiling fake_device fake_error_code fake_error_what 1 10)
      world_profiling_started.
Proof.
  split; [vm_compute; reflexivity | split; [vm_compute; reflexivity |]].
  intros H. specialize (H (XrtCoreError 22 "Stop profiling: invalid handle")).
  assert (Hin : XrtCoreError 22 "Stop profiling: invalid handle" ∈
                failures (issued (xrtAIEStopProfiling fake_device fake_error_code
                                    fake_error_what 1 10) world_profiling_started))
    by (vm_compute; left).
  apply H in Hin. vm_compute in Hin. inversion Hin.
Qed.



(** C3, as stated, fails: with a zero timeout the timeout-based wait calls
    the device's cycle-based [wait_graph], not [wait_graph_done]. *)
Lemma zero_timeout_wait_is_cycle_wait :
  issued (graph_wait_ms fake_device 1 0) world_graph_open
  = [(ext_device 101 (op_wait_graph 10 0), Normal 0)] /\
  ~ Forall (fun cr => is_wait_graph_done cr.1 = true)
           (issued (graph_wait_ms fake_device 1 0) world_graph_open).
Proof.
  split; [vm_compute; reflexivity|].
  intros H. vm_compute in H. inversion H as [|? ? Hhd _]. discriminate Hhd.
Qed.

(** C4, as stated, fails: the second close of a handle does not fail with
    the invalid-handle error [xrt_core::error(-EINVAL, "No such graph
    handle")] that every other graph entry point gives for that handle; it
    fails with a generic exception and [errno] keeps its value. *)
Lemma second_close_is_not_invalid_handle :
  let w2 := (xrtGraphClose fake_device 1 world_graph_open).2 in
  graph_cache w2 !! 1 = None /\
  xrtGraphClose_try fake_device 1 w2
  = (Throw (StdException "Unexpected internal error"), w2) /\
  xrtGraphClose_try fake_device 1 w2
  <> (Throw (xrt_core_error fake_error_code fake_error_what (- EINVAL)
               "No such graph handle"), w2) /\
  errno (xrtGraphClose fake_device 1 w2).2 = 0 /\
  xrtGraphReset_try fake_device fake_error_code fake_error_what 1 w2
  = (Throw (xrt_core_error fake_error_code fake_error_what (- EINVAL)
              "No such graph handle"), w2) /\
  errno (xrtGraphReset fake_device fake_error_code fake_error_what 1 w2).2 = 22.
Proof.
  cbv zeta. repeat split; try (vm_compute; reflexivity).
  vm_compute. discriminate.
Qed.

(** *** The theorems at work on the fake device *)

Lemma fake_alloc_fresh (live : gset Z) : fake_alloc live ∉ live.
Proof.
  unfold fake_alloc. pose proof (is_fresh ({[0]} ∪ live)) as H.
  intros Hin. apply H. apply elem_of_union_r, Hin.
Qed.

Lemma graph_wait_dispatch_witness :
  graph_heap world_graph_open !! 1 = Some (Shared (Build_graph_impl 101 10) 1) /\
  issued (graph_wait_ms fake_device 1 250) world_graph_open
  = [(ext_device 101 (op_wait_graph_done 10 250), Normal 0)].
Proof.
  assert (H : graph_heap world_graph_open !! 1 = Some (Shared (Build_graph_impl 101 10) 1))
    by reflexivity.
  split; [exact H|].
  apply (proj1 (graph_wait_dispatch fake_device 1 _ world_graph_open H) 250).
  discriminate.
Defined.

Lemma graph_open_close_close_witness :
  is_graph_open (call_xrtGraphOpen 1 5 "g1") = true /\
  capi_try fake_device fake_alloc fake_error_code fake_error_what
    (call_xrtGraphOpen 1 5 "g1") (initial_world 10)
  = (Ok (RHandle 1), world_graph_open) /\
  graph_cache world_graph_open !! 1 = Some 1.
Proof.
  assert (H1 : is_graph_open (call_xrtGraphOpen 1 5 "g1") = true) by reflexivity.
  assert (H2 : capi_try fake_device fake_alloc fake_error_code fake_error_what
                 (call_xrtGraphOpen 1 5 "g1") (initial_world 10)
               = (Ok (RHandle 1), world_graph_open)) by (vm_compute; reflexivity).
  split; [exact H1|]. split; [exact H2|].
  exact (proj1 (graph_open_close_close fake_device fake_alloc fake_error_code
                  fake_error_what _ _ _ _ H1 H2)).
Defined.

Lemma start_profiling_option_check_witness :
  (7 < 0 \/ 7 > 3) /\
  profiling_heap world_profiling_idle !! 1
  = Some (Shared (Build_profiling_impl 101 invalid_handle) 1) /\
  (xrtAIEStartProfiling fake_device fake_alloc fake_error_code fake_error_what
     1 7 "a" "b" 1024 (initial_world 10)).1 = Ok (-1).
Proof.
  assert (H1 : 7 < 0 \/ 7 > 3) by (right; lia).
  assert (H2 : profiling_heap world_profiling_idle !! 1
               = Some (Shared (Build_profiling_impl 101 invalid_handle) 1))
    by reflexivity.
  split; [exact H1|]. split; [exact H2|].
  exact (proj1 (start_profiling_option_check fake_device fake_alloc fake_error_code
                  fake_error_what 1 7 "a" "b" 1024 (initial_world 10)
                  1 _ world_profiling_idle H1 H2)).
Defined.

Lemma graph_handle_closed_exactly_once_witness :
  (forall live : gset Z, fake_alloc live ∉ live) /\
  ledger_balanced
    (run_calls fake_device fake_alloc fake_error_code fake_error_what
       [call_xrtGraphOpen 1 5 "g1"; call_xrtGraphOpenShared 1 5 "g2";
        call_xrtGraphRun 1 10; call_xrtGraphClose 1; call_xrtGraphClose 1]
       (initial_world 10)).
Proof.
  split; [exact fake_alloc_fresh|].
  exact (proj1 (proj2 (proj2
    (graph_handle_closed_exactly_once fake_device fake_alloc fake_error_code
       fake_error_what fake_alloc_fresh
       [call_xrtGraphOpen 1 5 "g1"; call_xrtGraphOpenShared 1 5 "g2";
        call_xrtGraphRun 1 10; call_xrtGraphClose 1; call_xrtGraphClose 1]
       10 (Build_graph_impl 101 10) (initial_world 10))))).
Defined.

Lemma aie_device_open_context_witness :
  aie_device_open (call_xrtAIEDeviceOpenExclusive 3) = Some (3, exclusive) /\
  Forall (fun cr => is_device_close cr.1 = false)
    (issued (capi fake_device fake_alloc fake_error_code fake_error_what
               (call_xrtAIEDeviceOpenExclusive 3)) (initial_world 10)).
Proof.
  assert (H : aie_device_open (call_xrtAIEDeviceOpenExclusive 3) = Some (3, exclusive))
    by reflexivity.
  split; [exact H|].
  exact (proj2 (aie_device_open_context fake_device fake_alloc fake_error_code
                  fake_error_what _ 3 exclusive (initial_world 10) H)).
Defined.

Lemma profiling_read_stop_need_start_witness :
  profiling_heap world_profiling_idle !! 1
  = Some (Shared (Build_profiling_impl 101 invalid_handle) 1) /\
  profiling_hdl (Build_profiling_impl 101 invalid_handle) = invalid_handle /\
  profiling_cache world_profiling_idle !! 10 = None /\
  profiling_read fake_device fake_error_code fake_error_what 1 world_profiling_idle
  = (Throw (XrtCoreError 22 "Not a valid profiling handle"), world_profiling_idle).
Proof.
  assert (H1 : profiling_heap world_profiling_idle !! 1
               = Some (Shared (Build_profiling_impl 101 invalid_handle) 1))
    by reflexivity.
  assert (H2 : profiling_hdl (Build_profiling_impl 101 invalid_handle) = invalid_handle)
    by reflexivity.
  assert (H3 : profiling_cache world_profiling_idle !! 10 = None) by reflexivity.
  split; [exact H1|]. split; [exact H2|]. split; [exact H3|].
  exact (proj1 (profiling_read_stop_need_start fake_device fake_error_code
                  fake_error_what 1 _ 1 10 world_profiling_idle H1 H2 H3)).
Defined.

(** The exclusive AIE open on the fake device: the device opens, the
    context is refused, null is returned and the device is left open. *)
Example aie_open_exclusive_refused :
  xrtAIEDeviceOpenExclusive fake_device 3 (initial_world 10)
  = (Ok XRT_NULL_HANDLE,
     World 10
       [(ext_xrtDeviceOpen 3, Normal 4);
        (ext_get_core_device 4, Normal 104);
        (ext_device 104 (op_open_aie_context exclusive),
         Raise (XrtCoreError 16 "context busy"))]
       ∅ ∅ ∅ ∅ 16
       [Message severity_error "XRT" "context busy"]).
Proof. vm_compute. reflexivity. Qed.

(** *** More scenarios on the fake device *)

Lemma graph_registry_sound_initial : graph_registry_sound (initial_world 10).
Proof. intros k p H. simpl in H. rewrite lookup_empty in H. discriminate H. Qed.

Lemma graph_registry_sound_open : graph_registry_sound world_graph_open.
Proof.
  intros k p H. simpl in H. apply lookup_singleton_Some in H as [<- <-].
  split; [reflexivity|]. exists (Build_graph_impl 101 10). reflexivity.
Qed.

Lemma profiling_registry_sound_reissued : profiling_registry_sound world_profiling_reissued.
Proof.
  intros h p H. simpl in H. apply lookup_singleton_Some in H as [<- <-].
  split; [discriminate|]. exists 101. reflexivity.
Qed.

Lemma graph_entry_unknown_handle_witness :
  graph_method_op (call_xrtGraphRun 7 3) = Some (7, fun g => op_run_graph g 3) /\
  graph_cache (initial_world 10) !! 7 = None /\
  capi fake_device fake_alloc fake_error_code fake_error_what
    (call_xrtGraphRun 7 3) (initial_world 10)
  = (Ok (RInt (-1)),
     reported (XrtCoreError 22 "No such graph handle") (initial_world 10)).
Proof.
  assert (H1 : graph_method_op (call_xrtGraphRun 7 3) = Some (7, fun g => op_run_graph g 3))
    by reflexivity.
  assert (H2 : graph_cache (initial_world 10) !! 7 = None) by reflexivity.
  split; [exact H1|]. split; [exact H2|].
  exact (graph_entry_unknown_handle fake_device fake_alloc fake_error_code fake_error_what
           _ _ _ (initial_world 10) H1 H2).
Defined.

Lemma graph_entry_forwards_once_witness :
  graph_method_op (call_xrtGraphTimeStamp 1) = Some (1, op_get_timestamp) /\
  graph_cache world_graph_open !! 1 = Some 1 /\
  graph_heap world_graph_open !! 1 = Some (Shared (Build_graph_impl 101 10) 1) /\
  capi fake_device fake_alloc fake_error_code fake_error_what
    (call_xrtGraphTimeStamp 1) world_graph_open
  = (Ok (RUInt64 4242),
     answered fake_device (ext_device 101 (op_get_timestamp 10)) world_graph_open).
Proof.
  assert (H1 : graph_method_op (call_xrtGraphTimeStamp 1) = Some (1, op_get_timestamp))
    by reflexivity.
  assert (H2 : graph_cache world_graph_open !! 1 = Some 1) by reflexivity.
  assert (H3 : graph_heap world_graph_open !! 1 = Some (Shared (Build_graph_impl 101 10) 1))
    by reflexivity.
  split; [exact H1|]. split; [exact H2|]. split; [exact H3|].
  exact (graph_entry_forwards_once fake_device fake_alloc fake_error_code fake_error_what
           _ _ _ _ _ _ world_graph_open H1 H2 H3).
Defined.

Lemma graph_entry_after_close_witness :
  graph_method_op (call_xrtGraphReset 1) = Some (1, op_reset_graph) /\
  graph_cache world_graph_open !! 1 = Some 1 /\
  graph_cache (xrtGraphClose fake_device 1 world_graph_open).2 !! 1 = None.
Proof.
  assert (H1 : graph_method_op (call_xrtGraphReset 1) = Some (1, op_reset_graph))
    by reflexivity.
  assert (H2 : graph_cache world_graph_open !! 1 = Some 1) by reflexivity.
  split; [exact H1|]. split; [exact H2|].
  exact (proj1 (graph_entry_after_close fake_device fake_alloc fake_error_code
                  fake_error_what _ _ _ _ world_graph_open H1 H2)).
Defined.

Lemma graph_open_outcome_witness :
  (forall live : gset Z, fake_alloc live ∉ live) /\
  graph_open_args (call_xrtGraphOpenShared 1 5 "g1") = Some (1, 5, "g1", shared) /\
  graph_registry_sound (initial_world 10) /\
  graph_cache (initial_world 10) !! fake_alloc (live (initial_world 10)) = None.
Proof.
  assert (H1 : graph_open_args (call_xrtGraphOpenShared 1 5 "g1") = Some (1, 5, "g1", shared))
    by reflexivity.
  split; [exact fake_alloc_fresh|]. split; [exact H1|].
  split; [exact graph_registry_sound_initial|].
  exact (proj1 (graph_open_outcome fake_device fake_alloc fake_error_code fake_error_what
                  fake_alloc_fresh _ _ _ _ _ (initial_world 10) H1
                  graph_registry_sound_initial)).
Defined.

Lemma graph_open_then_use_witness :
  (forall live : gset Z, fake_alloc live ∉ live) /\
  graph_open_args (call_xrtGraphOpen 1 5 "g1") = Some (1, 5, "g1", primary) /\
  graph_registry_sound (initial_world 10) /\
  answer fake_device (ext_get_core_device 1) (initial_world 10) = Normal 101 /\
  answer fake_device (ext_device 101 (op_open_graph 5 "g1" primary))
    (answered fake_device (ext_get_core_device 1) (initial_world 10)) = Normal 10 /\
  graph_method_op (call_xrtGraphRun (fake_alloc (live (initial_world 10))) 3)
  = Some (fake_alloc (live (initial_world 10)), fun g => op_run_graph g 3) /\
  (capi fake_device fake_alloc fake_error_code fake_error_what
     (call_xrtGraphOpen 1 5 "g1") (initial_world 10)).1
  = Ok (RHandle (fake_alloc (live (initial_world 10)))).
Proof.
  assert (H1 : graph_open_args (call_xrtGraphOpen 1 5 "g1") = Some (1, 5, "g1", primary))
    by reflexivity.
  assert (H2 : answer fake_device (ext_get_core_device 1) (initial_world 10) = Normal 101)
    by reflexivity.
  assert (H3 : answer fake_device (ext_device 101 (op_open_graph 5 "g1" primary))
                 (answered fake_device (ext_get_core_device 1) (initial_world 10))
               = Normal 10) by reflexivity.
  assert (H4 : graph_method_op (call_xrtGraphRun (fake_alloc (live (initial_world 10))) 3)
               = Some (fake_alloc (live (initial_world 10)), fun g => op_run_graph g 3))
    by reflexivity.
  split; [exact fake_alloc_fresh|]. split; [exact H1|].
  split; [exact graph_registry_sound_initial|].
  split; [exact H2|]. split; [exact H3|]. split; [exact H4|].
  exact (proj1 (graph_open_then_use fake_device fake_alloc fake_error_code fake_error_what
                  fake_alloc_fresh _ _ _ _ _ _ _ _ _ (initial_world 10) H1
                  graph_registry_sound_initial H2 H3 H4)).
Defined.

Lemma start_profiling_outcome_witness :
  (forall live : gset Z, fake_alloc live ∉ live) /\
  0 <= 1 <= 3 /\
  xrtAIEStartProfiling fake_device fake_alloc fake_error_code fake_error_what
    1 1 "a" "b" 1024 (initial_world 10)
  = (Ok 10, world_profiling_started).
Proof.
  assert (H1 : 0 <= 1 <= 3) by lia.
  split; [exact fake_alloc_fresh|]. split; [exact H1|].
  exact (start_profiling_outcome fake_device fake_alloc fake_error_code fake_error_what
           fake_alloc_fresh 1 1 "a" "b" 1024 (initial_world 10) H1 eq_refl).
Defined.

Lemma start_profiling_reused_handle_witness :
  (forall live : gset Z, fake_alloc live ∉ live) /\
  0 <= 1 <= 3 /\
  profiling_registry_sound world_profiling_reissued /\
  answer fake_device (ext_get_core_device 1) world_profiling_reissued = Normal 101 /\
  answer fake_device (ext_device 101 (op_start_profiling 1 "a" "b" 1024))
    (answered fake_device (ext_get_core_device 1) world_profiling_reissued) = Normal 10 /\
  10 <> invalid_handle /\
  profiling_cache world_profiling_reissued !! 10 = Some 1 /\
  exists d',
    profiling_heap world_profiling_reissued !! 1
    = Some (Shared (Build_profiling_impl d' 10) 1) /\
    xrtAIEStartProfiling fake_device fake_alloc fake_error_code fake_error_what
      1 1 "a" "b" 1024 world_profiling_reissued
    = (Ok 10,
       set_profiling_heap
         (<[fake_alloc (live world_profiling_reissued) :=
              Shared (Build_profiling_impl 101 10) 1]>
            (delete 1 (profiling_heap world_profiling_reissued)))
         (answered fake_device (ext_device d' (op_stop_profiling 10))
            (set_profiling_cache
               (<[10 := fake_alloc (live world_profiling_reissued)]>
                  (profiling_cache world_profiling_reissued))
               (answered fake_device (ext_device 101 (op_start_profiling 1 "a" "b" 1024))
                  (answered fake_device (ext_get_core_device 1)
                     world_profiling_reissued))))).
Proof.
  assert (H1 : 0 <= 1 <= 3) by lia.
  assert (H2 : answer fake_device (ext_get_core_device 1) world_profiling_reissued
               = Normal 101) by reflexivity.
  assert (H3 : answer fake_device (ext_device 101 (op_start_profiling 1 "a" "b" 1024))
                 (answered fake_device (ext_get_core_device 1) world_profiling_reissued)
               = Normal 10) by reflexivity.
  assert (H4 : 10 <> invalid_handle) by discriminate.
  assert (H5 : profiling_cache world_profiling_reissued !! 10 = Some 1) by reflexivity.
  split; [exact fake_alloc_fresh|]. split; [exact H1|].
  split; [exact profiling_registry_sound_reissued|].
  split; [exact H2|]. split; [exact H3|]. split; [exact H4|]. split; [exact H5|].
  exact (start_profiling_reused_handle fake_device fake_alloc fake_error_code
           fake_error_what fake_alloc_fresh 1 1 "a" "b" 1024 101 10 1
           world_profiling_reissued H1 profiling_registry_sound_reissued H2 H3 H4 H5).
Defined.

Lemma stop_profiling_outcome_witness :
  profiling_cache world_profiling_started !! 10 = Some 1 /\
  profiling_heap world_profiling_started !! 1
  = Some (Shared (Build_profiling_impl 101 10) 1) /\
  profiling_hdl (Build_profiling_impl 101 10) <> invalid_handle /\
  issued (xrtAIEStopProfiling fake_device fake_error_code fake_error_what 1 10)
    world_profiling_started
  = [(ext_device 101 (op_stop_profiling 10), Normal 0);
     (ext_device 101 (op_stop_profiling (-1)),
      Raise (XrtCoreError 22 "Stop profiling: invalid handle"))].
Proof.
  assert (H1 : profiling_cache world_profiling_started !! 10 = Some 1) by reflexivity.
  assert (H2 : profiling_heap world_profiling_started !! 1
               = Some (Shared (Build_profiling_impl 101 10) 1)) by reflexivity.
  assert (H3 : profiling_hdl (Build_profiling_impl 101 10) <> invalid_handle)
    by discriminate.
  split; [exact H1|]. split; [exact H2|]. split; [exact H3|].
  unfold issued.
  rewrite (stop_profiling_outcome fake_device fake_error_code fake_error_what
             1 10 1 _ world_profiling_started H1 H2 H3).
  reflexivity.
Defined.

Lemma read_profiling_outcome_witness :
  profiling_cache world_profiling_started !! 10 = Some 1 /\
  profiling_heap world_profiling_started !! 1
  = Some (Shared (Build_profiling_impl 101 10) 1) /\
  profiling_hdl (Build_profiling_impl 101 10) <> invalid_handle /\
  (xrtAIEReadProfiling fake_device fake_error_code fake_error_what 1 10
     world_profiling_started).1 = Ok 77.
Proof.
  assert (H1 : profiling_cache world_profiling_started !! 10 = Some 1) by reflexivity.
  assert (H2 : profiling_heap world_profiling_started !! 1
               = Some (Shared (Build_profiling_impl 101 10) 1)) by reflexivity.
  assert (H3 : profiling_hdl (Build_profiling_impl 101 10) <> invalid_handle)
    by discriminate.
  split; [exact H1|]. split; [exact H2|]. split; [exact H3|].
  rewrite (read_profiling_outcome fake_device fake_error_code fake_error_what
             1 10 1 _ world_profiling_started H1 H2 H3).
  reflexivity.
Defined.

Lemma profiling_registry_invariant_witness :
  (forall live : gset Z, fake_alloc live ∉ live) /\
  profiling_heap_registered
    (run_calls fake_device fake_alloc fake_error_code fake_error_what
       [call_xrtAIEStartProfiling 1 1 "a" "b" 1024;
        call_xrtAIEStartProfiling 1 9 "a" "b" 1024;
        call_xrtGraphOpen 1 5 "g1";
        call_xrtAIEReadProfiling 1 10;
        call_xrtAIEStopProfiling 1 10]
       (initial_world 10)).
Proof.
  split; [exact fake_alloc_fresh|].
  pose proof (profiling_registry_invariant fake_device fake_alloc fake_error_code
                fake_error_what fake_alloc_fresh
                [call_xrtAIEStartProfiling 1 1 "a" "b" 1024;
                 call_xrtAIEStartProfiling 1 9 "a" "b" 1024;
                 call_xrtGraphOpen 1 5 "g1";
                 call_xrtAIEReadProfiling 1 10;
                 call_xrtAIEStopProfiling 1 10]
                10 1 10) as H.
  cbv zeta in H. destruct H as [H _]. exact H.
Defined.

Lemma terminate_only_when_close_graph_throws_witness :
  (forall live : gset Z, fake_alloc live ∉ live) /\
  (capi faulty_device fake_alloc fake_error_code fake_error_what (call_xrtGraphClose 1)
     (run_calls faulty_device fake_alloc fake_error_code fake_error_what
        [call_xrtGraphOpen 1 5 "g1"] (initial_world 10))).1 = Abort.
Proof.
  split; [exact fake_alloc_fresh|].
  apply (proj2 (terminate_only_when_close_graph_throws faulty_device fake_alloc
                  fake_error_code fake_error_what fake_alloc_fresh
                  [call_xrtGraphOpen 1 5 "g1"] 10 (call_xrtGraphClose 1))).
  exists 1, (Build_graph_impl 101 10), (StdException "close failed").
  split; [reflexivity|]. split; [reflexivity|]. split; reflexivity.
Defined.

Lemma graph_method_forwards_witness :
  graph_heap world_graph_open !! 1 = Some (Shared (Build_graph_impl 101 10) 1) /\
  graph_method_call fake_device (method_wait_ms 250) 1 world_graph_open
  = (Ok None,
     answered fake_device (ext_device 101 (op_wait_graph_done 10 250)) world_graph_open).
Proof.
  assert (H : graph_heap world_graph_open !! 1 = Some (Shared (Build_graph_impl 101 10) 1))
    by reflexivity.
  split; [exact H|].
  exact (graph_method_forwards fake_device (method_wait_ms 250) 1 _ world_graph_open H).
Defined.

Lemma graph_int_conversions_witness :
  graph_heap world_graph_open !! 1 = Some (Shared (Build_graph_impl 101 10) 1) /\
  2 ^ 31 <= 4294967295 < 2 ^ 32 /\
  issued (graph_run fake_device 1 4294967295) world_graph_open
  = [(ext_device 101 (op_run_graph 10 (-1)), Normal 0)].
Proof.
  assert (H : graph_heap world_graph_open !! 1 = Some (Shared (Build_graph_impl 101 10) 1))
    by reflexivity.
  assert (H1 : 2 ^ 31 <= 4294967295 < 2 ^ 32) by lia.
  split; [exact H|]. split; [exact H1|].
  exact (proj1 (proj2 (graph_int_conversions fake_device 1 _ world_graph_open
                         4294967295 H)) H1).
Defined.


Lemma graph_open_close_round_trip_witness :
  (forall live : gset Z, fake_alloc live ∉ live) /\
  graph_open_args (call_xrtGraphOpen 1 5 "g1") = Some (1, 5, "g1", primary) /\
  graph_registry_sound (initial_world 10) /\
  answer fake_device (ext_get_core_device 1) (initial_world 10) = Normal 101 /\
  answer fake_device (ext_device 101 (op_open_graph 5 "g1" primary))
    (answered fake_device (ext_get_core_device 1) (initial_world 10)) = Normal 10 /\
  (capi fake_device fake_alloc fake_error_code fake_error_what
     (call_xrtGraphOpen 1 5 "g1") (initial_world 10)).1
  = Ok (RHandle (fake_alloc (live (initial_world 10)))).
Proof.
  assert (H1 : graph_open_args (call_xrtGraphOpen 1 5 "g1") = Some (1, 5, "g1", primary))
    by reflexivity.
  assert (H2 : answer fake_device (ext_get_core_device 1) (initial_world 10) = Normal 101)
    by reflexivity.
  assert (H3 : answer fake_device (ext_device 101 (op_open_graph 5 "g1" primary))
                 (answered fake_device (ext_get_core_device 1) (initial_world 10))
               = Normal 10) by reflexivity.
  split; [exact fake_alloc_fresh|]. split; [exact H1|].
  split; [exact graph_registry_sound_initial|]. split; [exact H2|]. split; [exact H3|].
  exact (proj1 (graph_open_close_round_trip fake_device fake_alloc fake_error_code
                  fake_error_what fake_alloc_fresh _ _ _ _ _ _ _ (initial_world 10) H1
                  graph_registry_sound_initial H2 H3)).
Defined.

Lemma profiling_start_read_stop_round_trip_witness :
  (forall live : gset Z, fake_alloc live ∉ live) /\
  0 <= 1 <= 3 /\
  answer fake_device (ext_get_core_device 1) (initial_world 10) = Normal 101 /\
  answer fake_device (ext_device 101 (op_start_profiling 1 "a" "b" 1024))
    (answered fake_device (ext_get_core_device 1) (initial_world 10)) = Normal 10 /\
  10 <> invalid_handle /\
  profiling_cache (initial_world 10) !! 10 = None /\
  (xrtAIEStartProfiling fake_device fake_alloc fake_error_code fake_error_what
     1 1 "a" "b" 1024 (initial_world 10)).1 = Ok 10.
Proof.
  assert (H1 : 0 <= 1 <= 3) by lia.
  assert (H2 : answer fake_device (ext_get_core_device 1) (initial_world 10) = Normal 101)
    by reflexivity.
  assert (H3 : answer fake_device (ext_device 101 (op_start_profiling 1 "a" "b" 1024))
                 (answered fake_device (ext_get_core_device 1) (initial_world 10))
               = Normal 10) by reflexivity.
  assert (H4 : 10 <> invalid_handle) by discriminate.
  assert (H5 : profiling_cache (initial_world 10) !! 10 = None) by reflexivity.
  split; [exact fake_alloc_fresh|]. split; [exact H1|]. split; [exact H2|].
  split; [exact H3|]. split; [exact H4|]. split; [exact H5|].
  exact (proj1 (profiling_start_read_stop_round_trip fake_device fake_alloc
                  fake_error_code fake_error_what fake_alloc_fresh
                  1 1 "a" "b" 1024 101 10 1 (initial_world 10) H1 H2 H3 H4 H5)).
Defined.

Lemma device_entry_outcome_witness :
  device_entry (call_xrtSyncBOAIE 0 4 "gmio0" 0 64 0)
  = Some (0, Some 4, fun bo => op_sync_aie_bo bo "gmio0" 0 64 0) /\
  capi fake_device fake_alloc fake_error_code fake_error_what
    (call_xrtSyncBOAIE 0 4 "gmio0" 0 64 0) (initial_world 10)
  = (Ok (RInt (-1)),
     reported (XrtCoreError 22 "No such device handle")
       (answered fake_device (ext_get_core_device 0) (initial_world 10))).
Proof.
  assert (H : device_entry (call_xrtSyncBOAIE 0 4 "gmio0" 0 64 0)
              = Some (0, Some 4, fun bo => op_sync_aie_bo bo "gmio0" 0 64 0))
    by reflexivity.
  split; [exact H|].
  exact (device_entry_outcome fake_device fake_alloc fake_error_code fake_error_what
           _ _ _ _ (initial_world 10) H).
Defined.

Lemma graph_object_life_witness :
  (forall live : gset Z, fake_alloc live ∉ live) /\
  graph_ctor fake_device fake_alloc 101 5 "bad" primary (initial_world 10)
  = (Throw (StdException "bad graph"),
     answered fake_device (ext_device 101 (op_open_graph 5 "bad" primary))
       (initial_world 10)).
Proof.
  split; [exact fake_alloc_fresh|].
  exact (graph_object_life fake_device fake_alloc fake_alloc_fresh 101 5 "bad" primary
           (initial_world 10)).
Defined.

(** *** The registries on a device that re-issues a profiling handle *)

(** C9, as stated, fails: a successful start does not always insert an
    entry. On a device that hands out profiling handle 7 twice, the second
    [xrtAIEStartProfiling] succeeds and returns 7; it binds 7 to the new
    object in place of the old one, and the profiling registry has one
    entry before the call and one entry after it. *)
Lemma start_at_registered_handle_adds_no_entry :
  let start :=
    capi reissuing_device fake_alloc fake_error_code fake_error_what
      (call_xrtAIEStartProfiling 1 1 "a" "b" 1024) in
  let w1 := run_calls reissuing_device fake_alloc fake_error_code fake_error_what
              [call_xrtAIEStartProfiling 1 1 "a" "b" 1024] (initial_world 10) in
  profiling_cache w1 = {[7 := 1]} /\
  (start w1).1 = Ok (RInt 7) /\
  profiling_cache (start w1).2 = {[7 := 2]} /\
  size (profiling_cache w1) = 1%nat /\
  size (profiling_cache (start w1).2) = 1%nat.
Proof.
  vm_compute. repeat split; reflexivity.
Qed.

Lemma registries_changed_by_open_close_start_stop_witness :
  (forall live : gset Z, fake_alloc live ∉ live) /\
  entries_effect (call_xrtGraphOpen 1 5 "g1") (RHandle 1)
    (registries (initial_world 10)) (registries world_graph_open).
Proof.
  assert (Hrun : capi_try fake_device fake_alloc fake_error_code fake_error_what
                   (call_xrtGraphOpen 1 5 "g1") (initial_world 10)
                 = (Ok (RHandle 1), world_graph_open)) by (vm_compute; reflexivity).
  split; [exact fake_alloc_fresh|].
  pose proof (registries_changed_by_open_close_start_stop fake_device fake_alloc
                fake_error_code fake_error_what fake_alloc_fresh
                (call_xrtGraphOpen 1 5 "g1") (initial_world 10) [] 10) as H.
  destruct H as (_ & _ & H). cbv zeta in H.
  change (run_calls fake_device fake_alloc fake_error_code fake_error_what []
            (initial_world 10)) with (initial_world (Env := Z) 10) in H.
  rewrite Hrun in H. exact H.
Defined.

